(** * rmbg-service: job lifecycle, callbacks, status queries and worker pool

    A shallow embedding of the asynchronous pipeline of the background
    removal service:

    - [src/api/routes.py]            ([create_task], [get_task_status],
                                      [health_check]),
    - [src/api/schemas.py]           ([TaskStatusResponse.validate_url]),
    - [src/worker/tasks/remove_bg.py] ([remove_background]),
    - [src/utils/callbacks.py]       ([CallbackClient.send_callback]),
    - [src/utils/s3.py]              ([S3Client]),
    - [src/worker/models/bg_removal.py] (device assignment, model cache,
                                      [remove_background]),
    - [src/worker/worker_init.py]    ([get_worker_id], [init_worker_process]),
    - [run_local.py]                 ([start_worker], [start_all]).

    Python code that reads clocks, touches files, writes to the Celery result
    backend or talks to the network is written in a small state, error and
    event-log monad [M].  What the outside world answers (clock readings,
    uuids, HTTP endpoints, the inference outcome, S3) is collected in the
    record [Env].  Time stamps are exact rationals (seconds); Python's
    [round(x, 3)] is rounding to the nearest multiple of 1/1000, ties to
    even. *)

From Stdlib Require Import Ascii String QArith Qround Lqa.
From stdpp Require Import gmap strings list pretty.

Local Open Scope string_scope.
Set Warnings "-register-all".

(** ** Python values *)

Module Py.

(** The exception classes the code raises or catches.  [HTTPException]
    carries FastAPI's status code. *)
Inductive ExcClass :=
| Exception
| TypeError
| ValueError
| OSError
| FileNotFoundError
| RequestException
| ClientError
| HTTPException (status_code : Z).

Record Exn := mkExn { exc_class : ExcClass; exc_msg : string }.

(** [isinstance(e, RequestException)]: the only narrow [except] clause of
    the code ([send_callback]); [except Exception] catches every class
    above. *)
Definition is_RequestException (e : Exn) : bool :=
  match exc_class e with RequestException => true | _ => false end.

Definition is_Exception (e : Exn) : bool := true.

Definition is_HTTPException (e : Exn) : bool :=
  match exc_class e with HTTPException _ => true | _ => false end.

(** [str(e)] *)
Definition str_exn (e : Exn) : string := exc_msg e.

(** JSON-like values, plus exception objects (the result of a failed
    Celery task). A dict keeps its insertion order. *)
Inductive Val :=
| VNone
| VStr (s : string)
| VFloat (q : Q)
| VDict (d : list (string * Val))
| VExc (e : Exn).

Abbreviation dict := (list (string * Val)).

Definition str_truthy (s : string) : bool :=
  match s with "" => false | _ => true end.

(** Python truthiness, as used by [if x:] and [not x]. *)
Definition truthy (v : Val) : bool :=
  match v with
  | VNone => false
  | VStr s => str_truthy s
  | VFloat q => negb (Qeq_bool q 0)
  | VDict d => match d with [] => false | _ => true end
  | VExc _ => true
  end.

(** [k in d] and [d[k]] *)
Fixpoint dict_get (d : dict) (k : string) : option Val :=
  match d with
  | [] => None
  | (k', v) :: d' => if String.eqb k' k then Some v else dict_get d' k
  end.

Definition dict_has (d : dict) (k : string) : bool :=
  match dict_get d k with Some _ => true | None => false end.

(** *** Binding keyword arguments to a signature

    A call [f(k1=v1, ..., **d)] of a function with named parameters and no
    [**kwargs] parameter raises [TypeError] when a keyword is given twice,
    when a keyword names no parameter, or when a parameter without default
    is missing. *)
Record Signature := mkSig {
  sig_name : string;
  sig_required : list string;
  sig_optional : list (string * Val)
}.

Definition sig_params (sg : Signature) : list string :=
  sig_required sg ++ map fst (sig_optional sg).

Definition mem_str (k : string) (l : list string) : bool :=
  existsb (String.eqb k) l.

Fixpoint first_duplicate (seen : list string) (kw : dict) : option string :=
  match kw with
  | [] => None
  | (k, _) :: kw' =>
      if mem_str k seen then Some k else first_duplicate (k :: seen) kw'
  end.

Fixpoint first_unexpected (params : list string) (kw : dict) : option string :=
  match kw with
  | [] => None
  | (k, _) :: kw' =>
      if mem_str k params then first_unexpected params kw' else Some k
  end.

Definition first_missing (required : list string) (kw : dict) : option string :=
  find (fun p => negb (dict_has kw p)) required.

Definition quote (s : string) : string := "'" ++ s ++ "'".

Definition bind_call (sg : Signature) (kw : dict) : Exn + dict :=
  match first_duplicate [] kw with
  | Some k =>
      inl (mkExn TypeError
             (sig_name sg ++ "() got multiple values for keyword argument " ++ quote k))
  | None =>
  match first_unexpected (sig_params sg) kw with
  | Some k =>
      inl (mkExn TypeError
             (sig_name sg ++ "() got an unexpected keyword argument " ++ quote k))
  | None =>
  match first_missing (sig_required sg) kw with
  | Some k =>
      inl (mkExn TypeError
             (sig_name sg ++ "() missing 1 required positional argument: " ++ quote k))
  | None =>
      inr (kw ++ List.filter (fun '(k, _) => negb (dict_has kw k)) (sig_optional sg))%list
  end end end.

(** Reading a bound parameter. *)
Definition arg (args : dict) (k : string) : Val :=
  match dict_get args k with Some v => v | None => VNone end.

(** *** [os.path] on POSIX paths *)

(** Split at the last occurrence of [c]: [Some (before, after)]. *)
Fixpoint rsplit_at (c : ascii) (s : string) : option (string * string) :=
  match s with
  | EmptyString => None
  | String a s' =>
      match rsplit_at c s' with
      | Some (b, r) => Some (String a b, r)
      | None => if Ascii.eqb a c then Some (EmptyString, s') else None
      end
  end.

Definition basename (p : string) : string :=
  match rsplit_at "/" p with Some (_, r) => r | None => p end.

Fixpoint all_dots (s : string) : bool :=
  match s with
  | EmptyString => true
  | String a s' => Ascii.eqb a "." && all_dots s'
  end.

(** [os.path.splitext]: the extension starts at the last dot of the last
    path component, leading dots of that component apart. *)
Definition splitext (p : string) : string * string :=
  let '(dir, base) :=
    match rsplit_at "/" p with
    | Some (d, b) => (d ++ "/", b)
    | None => ("", p)
    end in
  match rsplit_at "." base with
  | Some (stem, ext) =>
      if all_dots stem then (p, "") else (dir ++ stem, "." ++ ext)
  | None => (p, "")
  end.

Fixpoint ends_with_slash (s : string) : bool :=
  match s with
  | EmptyString => false
  | String a EmptyString => Ascii.eqb a "/"
  | String _ s' => ends_with_slash s'
  end.

Definition path_join (a b : string) : string :=
  match b with
  | String "/" _ => b
  | _ => if negb (str_truthy a) || ends_with_slash a then a ++ b
         else a ++ "/" ++ b
  end.

(** [s.lower()] on ASCII letters. *)
Definition lower_ascii (a : ascii) : ascii :=
  let n := nat_of_ascii a in
  if (65 <=? n)%nat && (n <=? 90)%nat then ascii_of_nat (n + 32) else a.

Fixpoint lower (s : string) : string :=
  match s with
  | EmptyString => EmptyString
  | String a s' => String (lower_ascii a) (lower s')
  end.

(** *** Numbers *)

(** [int(x)] truncates towards zero. *)
Definition int (x : Q) : Z := Z.quot (Qnum x) (Z.pos (Qden x)).

Definition round_half_even (x : Q) : Z :=
  let f := Qfloor x in
  match (x - inject_Z f ?= 1 # 2)%Q with
  | Lt => f
  | Gt => (f + 1)%Z
  | Eq => if Z.even f then f else (f + 1)%Z
  end.

(** [round(x, 3)] *)
Definition round3 (x : Q) : Q :=
  Qred (inject_Z (round_half_even (x * 1000)) / 1000).

End Py.

Import Py.

(** ** Configuration ([src/config/settings.py]) *)

Record Settings := mkSettings {
  S3_ENDPOINT : string;
  S3_ACCESS_KEY : string;
  S3_SECRET_KEY : string;
  S3_BUCKET_NAME : string;
  S3_REGION : string;
  CALLBACK_ENABLED : bool;
  CALLBACK_URL : string;
  CALLBACK_AUTH_TOKEN : string;
  DEVICE : string;
  TEMP_UPLOAD_DIR : string;
  RESULT_DIR : string
}.

Definition CELERY_TASK_TRACK_STARTED : bool := true.

(** ** The world the code runs in *)

(** What a Celery result backend keeps for a task id. *)
Record TaskMeta := mkMeta { meta_status : string; meta_result : Val }.

(** The message [apply_async] puts on a queue:
    [args=[file_path, original_filename, callback_data]],
    [kwargs={'creation_time': creation_time}]. *)
Record Message := mkMessage {
  msg_id : string;
  msg_image_path : string;
  msg_original_filename : option string;
  msg_callback_data : option dict;
  msg_creation_time : option Q
}.

(** A loaded [BackgroundRemovalModel]. *)
Record Model := mkModel { model_worker_id : nat; model_device : string }.

Record World := mkWorld {
  fs : gset string;                      (* paths of the files on disk *)
  backend : gmap string TaskMeta;        (* Celery result backend *)
  queues : gmap string (list Message);   (* broker queues, oldest first *)
  model_instances : gmap nat Model;      (* [_model_instances] of the worker *)
  clock_reads : nat;                     (* calls of [time.time()] so far *)
  uuid_reads : nat                       (* calls of [uuid.uuid4()] so far *)
}.

Inductive HttpOutcome :=
| HttpResponse (status_code : Z)
| HttpFailure (msg : string).

(** The answers of the collaborators. *)
Record Env := mkEnv {
  env_time : nat -> Q;                   (* n-th reading of [time.time()] *)
  env_uuid4 : nat -> string;             (* n-th [str(uuid.uuid4())] *)
  env_http : string -> HttpOutcome;      (* the endpoint behind a URL *)
  env_s3_connect : option Exn;           (* [S3Client()]: client and bucket check *)
  env_s3_put : string -> option Exn;     (* [client.upload_file] of an object *)
  env_urlparse_base : string -> string;  (* scheme://netloc of an endpoint *)
  env_model_load : option Exn;           (* [_load_model] *)
  env_model_infer : string -> bool;      (* the inference pipeline on an image *)
  env_cuda_available : bool;
  env_cuda_device_count : nat;
  env_broker_error : option Exn;         (* publishing to the broker *)
  env_remove_error : string -> option Exn; (* [os.remove] refused by the OS *)
  env_imwrite : string -> bool           (* [cv2.imwrite] to a path: was the file written *)
}.

(** Observable effects, in program order. *)
Inductive Event :=
| EvStore (task_id state : string) (result : Val)
| EvPost (url : string) (json : dict) (headers : list (string * string)) (timeout : Z)
| EvModel (image_path output_path : string)
| EvUpload (file_path bucket object_name : string)
| EvRemove (path : string)
| EvEnqueue (queue task_id : string).

(** ** The monad of effects: state, exceptions, event log *)

Inductive Result (A : Type) :=
| Ok (a : A)
| Raise (e : Exn).
Arguments Ok {A} a.
Arguments Raise {A} e.

Record Outcome (A : Type) := mkOutcome {
  res : Result A;
  world : World;
  events : list Event
}.
Arguments mkOutcome {A} res world events.
Arguments res {A} o.
Arguments world {A} o.
Arguments events {A} o.

Definition M (A : Type) : Type := World -> Outcome A.

Definition ret {A} (a : A) : M A := fun w => mkOutcome (Ok a) w [].

Definition raise {A} (e : Exn) : M A := fun w => mkOutcome (Raise e) w [].

Definition bind {A B} (m : M A) (k : A -> M B) : M B :=
  fun w =>
    let o := m w in
    match res o with
    | Ok a =>
        let o' := k a (world o) in
        mkOutcome (res o') (world o') (events o ++ events o')
    | Raise e => mkOutcome (Raise e) (world o) (events o)
    end.

Declare Scope py_scope.
Delimit Scope py_scope with py.
Notation "'let*' x := m 'in' k" := (bind m (fun x => k))
  (at level 10, x name, m at level 100, k at level 200) : py_scope.
Notation "m ;;; k" := (bind m (fun _ => k))
  (at level 100, k at level 200, right associativity) : py_scope.
Local Open Scope py_scope.

(** [try: body except C as e: handler e] *)
Definition try_except {A} (body : M A) (catches : Exn -> bool) (handler : Exn -> M A) : M A :=
  fun w =>
    let o := body w in
    match res o with
    | Ok a => o
    | Raise e =>
        if catches e then
          let o' := handler e (world o) in
          mkOutcome (res o') (world o') (events o ++ events o')
        else o
    end.

(** [try: body finally: final]: [final] runs on every exit of [body]; the
    outcome of [body] stands unless [final] itself raises. *)
Definition try_finally {A} (body : M A) (final : M unit) : M A :=
  fun w =>
    let o := body w in
    let o' := final (world o) in
    mkOutcome (match res o' with Ok _ => res o | Raise e => Raise e end)
              (world o') (events o ++ events o').

Definition when (b : bool) (m : M unit) : M unit := if b then m else ret tt.

Definition emit (ev : Event) : M unit := fun w => mkOutcome (Ok tt) w [ev].

Definition get_world : M World := fun w => mkOutcome (Ok w) w [].

Definition modify (f : World -> World) : M unit := fun w => mkOutcome (Ok tt) (f w) [].

(** Field updates of the world. *)
Definition set_fs (f : gset string -> gset string) (w : World) : World :=
  mkWorld (f (fs w)) (backend w) (queues w) (model_instances w) (clock_reads w) (uuid_reads w).

Definition set_backend (f : gmap string TaskMeta -> gmap string TaskMeta) (w : World) : World :=
  mkWorld (fs w) (f (backend w)) (queues w) (model_instances w) (clock_reads w) (uuid_reads w).

Definition set_queues (f : gmap string (list Message) -> gmap string (list Message)) (w : World) : World :=
  mkWorld (fs w) (backend w) (f (queues w)) (model_instances w) (clock_reads w) (uuid_reads w).

Definition set_model_instances (f : gmap nat Model -> gmap nat Model) (w : World) : World :=
  mkWorld (fs w) (backend w) (queues w) (f (model_instances w)) (clock_reads w) (uuid_reads w).

(** *** Primitive operations *)

(** [time.time()] *)
Definition time_time (E : Env) : M Q :=
  fun w =>
    mkOutcome (Ok (env_time E (clock_reads w)))
      (mkWorld (fs w) (backend w) (queues w) (model_instances w) (S (clock_reads w)) (uuid_reads w))
      [].

(** [str(uuid.uuid4())] *)
Definition uuid_uuid4 (E : Env) : M string :=
  fun w =>
    mkOutcome (Ok (env_uuid4 E (uuid_reads w)))
      (mkWorld (fs w) (backend w) (queues w) (model_instances w) (clock_reads w) (S (uuid_reads w)))
      [].

(** [os.path.exists(p)] *)
Definition os_path_exists (p : string) : M bool :=
  fun w => mkOutcome (Ok (bool_decide (p ∈ fs w))) w [].

(** [os.remove(p)] *)
Definition os_remove (E : Env) (p : string) : M unit :=
  fun w =>
    if bool_decide (p ∈ fs w) then
      match env_remove_error E p with
      | Some e => mkOutcome (Raise e) w []
      | None => mkOutcome (Ok tt) (set_fs (fun f => f ∖ {[p]}) w) [EvRemove p]
      end
    else mkOutcome (Raise (mkExn FileNotFoundError ("No such file or directory: " ++ quote p))) w [].

(** [open(p, "wb").write(...)] *)
Definition write_file (p : string) : M unit :=
  modify (set_fs (fun f => f ∪ {[p]})).

(** A write to the result backend: [backend.store_result(task_id, result, state)]. *)
Definition store_result (task_id : string) (result : Val) (state : string) : M unit :=
  modify (set_backend (fun b => <[task_id := mkMeta state result]> b)) ;;;
  emit (EvStore task_id state result).

(** ** Callback client ([src/utils/callbacks.py]) *)

Record CallbackClient := mkCallbackClient {
  cb_enabled : bool;
  cb_callback_url : string;
  cb_auth_token : string
}.

(** [CallbackClient.__init__] *)
Definition CallbackClient_init (S : Settings) : CallbackClient :=
  mkCallbackClient (CALLBACK_ENABLED S) (CALLBACK_URL S) (CALLBACK_AUTH_TOKEN S).

(** [def send_callback(self, task_id, status, result_url=None, error=None)] *)
Definition send_callback_sig : Signature :=
  mkSig "send_callback" ["task_id"; "status"] [("result_url", VNone); ("error", VNone)].

(** [requests.post(url, json=..., headers=..., timeout=...)]: one request on
    the wire; a transport failure (connection error, timeout) is raised as a
    [RequestException]. *)
Definition requests_post (E : Env) (url : string) (json : dict)
    (headers : list (string * string)) (timeout : Z) : M Z :=
  emit (EvPost url json headers timeout) ;;;
  match env_http E url with
  | HttpResponse code => ret code
  | HttpFailure msg => raise (mkExn RequestException msg)
  end.

(** [response.ok] of the requests library: [raise_for_status()] does not
    raise, that is, the status code is not in 400..599. *)
Definition response_ok (status_code : Z) : bool :=
  negb ((400 <=? status_code)%Z && (status_code <? 600)%Z).

(** The body of [send_callback], after its arguments are bound. *)
Definition send_callback_body (E : Env) (self : CallbackClient)
    (task_id status result_url error : Val) : M bool :=
  if negb (cb_enabled self) || negb (str_truthy (cb_callback_url self)) then
    ret false
  else
    let callback_data := [("task_id", task_id); ("status", status)] in
    let callback_data :=
      if truthy result_url then (callback_data ++ [("result_url", result_url)])%list
      else callback_data in
    let callback_data :=
      if truthy error then (callback_data ++ [("error", error)])%list
      else callback_data in
    let headers := [("Content-Type", "application/json")] in
    let headers :=
      if str_truthy (cb_auth_token self)
      then (headers ++ [("Authorization", "Bearer " +:+ cb_auth_token self)])%list
      else headers in
    try_except
      (let* response := requests_post E (cb_callback_url self) callback_data headers 10 in
       if response_ok response then ret true else ret false)
      is_RequestException
      (fun _ => ret false).

(** A call [callback_client.send_callback(k1=v1, ..., **callback_data)]. *)
Definition send_callback (E : Env) (self : CallbackClient) (kwargs : dict) : M bool :=
  match bind_call send_callback_sig kwargs with
  | inl e => raise e
  | inr args =>
      send_callback_body E self (arg args "task_id") (arg args "status")
        (arg args "result_url") (arg args "error")
  end.

(** ** S3 client ([src/utils/s3.py]) *)

Record S3Client := mkS3Client {
  s3_endpoint : string;
  s3_bucket_name : string;
  s3_region : string
}.

(** [S3Client.__init__]: creates the boto3 client and checks (or creates)
    the bucket; an error there propagates. *)
Definition S3Client_init (S : Settings) (E : Env) : M S3Client :=
  match env_s3_connect E with
  | Some e => raise e
  | None => ret (mkS3Client (S3_ENDPOINT S) (S3_BUCKET_NAME S) (S3_REGION S))
  end.

Definition generate_url (E : Env) (self : S3Client) (object_name : string) : string :=
  if str_truthy (s3_endpoint self) then
    env_urlparse_base E (s3_endpoint self) ++ "/" ++ s3_bucket_name self ++ "/" ++ object_name
  else
    "https://" ++ s3_bucket_name self ++ ".s3." ++ s3_region self ++ ".amazonaws.com/" ++ object_name.

Definition upload_file (E : Env) (self : S3Client) (file_path object_name : string) : M string :=
  let* present := os_path_exists file_path in
  if negb present then
    raise (mkExn FileNotFoundError ("File " ++ file_path ++ " does not exist"))
  else
    emit (EvUpload file_path (s3_bucket_name self) object_name) ;;;
    match env_s3_put E object_name with
    | Some e => raise e
    | None => ret (generate_url E self object_name)
    end.

(** ** The model ([src/worker/models/bg_removal.py]) *)

(** Device of a worker, [BackgroundRemovalModel.__init__]: round-robin over
    the visible devices. *)
Definition assign_device (S : Settings) (E : Env) (worker_id : nat) : string :=
  if String.eqb (lower (DEVICE S)) "cuda" && env_cuda_available E then
    let num_gpus := env_cuda_device_count E in
    if (0 <? num_gpus)%nat then "cuda:" ++ pretty (worker_id mod num_gpus)%nat
    else "cpu"
  else "cpu".

Definition Model_init (S : Settings) (E : Env) (worker_id : nat) : M Model :=
  match env_model_load E with
  | Some e => raise e
  | None => ret (mkModel worker_id (assign_device S E worker_id))
  end.

(** [BackgroundRemovalModel.get_instance]: one instance per worker id,
    created on first use. *)
Definition get_instance (S : Settings) (E : Env) (worker_id : option nat) : M Model :=
  let worker_id := match worker_id with Some i => i | None => 0%nat end in
  let* w := get_world in
  match model_instances w !! worker_id with
  | Some m => ret m
  | None =>
      let* m := Model_init S E worker_id in
      modify (set_model_instances (fun ms => <[worker_id := m]> ms)) ;;;
      ret m
  end.

(** [BackgroundRemovalModel.remove_background]: every exception of the
    pipeline (an unreadable input among them) is caught and reported as
    [False]. When the pipeline succeeds the result goes to
    [cv2.imwrite(output_path, ...)], whose return value is dropped: the
    method returns [True] whether or not the file was written. *)
Definition model_remove_background (E : Env) (self : Model)
    (image_path output_path : string) : M bool :=
  emit (EvModel image_path output_path) ;;;
  let* readable := os_path_exists image_path in
  if readable && env_model_infer E image_path then
    when (env_imwrite E output_path) (write_file output_path) ;;; ret true
  else ret false.

(** ** The task ([src/worker/tasks/remove_bg.py]) *)

(** [self.update_state(state=..., meta=...)] *)
Definition update_state (task_id state : string) (meta : dict) : M unit :=
  store_result task_id (VDict meta) state.

(** [if callback_data:] on [None] or a dict *)
Definition callback_data_truthy (callback_data : option dict) : bool :=
  match callback_data with
  | Some d => truthy (VDict d)
  | None => false
  end.

(** The items [**callback_data] adds to a call. *)
Definition unpack (callback_data : option dict) : dict :=
  match callback_data with Some d => d | None => [] end.

(** The notification pattern of the task, with its return value dropped:
    [if callback_data: callback_client.send_callback(k1=v1, ..., **callback_data)] *)
Definition notify (E : Env) (callback_client : CallbackClient)
    (callback_data : option dict) (keywords : dict) : M unit :=
  when (callback_data_truthy callback_data)
    (let* _ := send_callback E callback_client (keywords ++ unpack callback_data)%list in
     ret tt).

(** [if not original_filename: original_filename = os.path.basename(image_path)] *)
Definition resolve_filename (original_filename : option string) (image_path : string) : string :=
  match original_filename with
  | Some f => if str_truthy f then f else basename image_path
  | None => basename image_path
  end.

(** The [finally] block: delete the input file; an error while doing so is
    logged and dropped. *)
Definition cleanup (E : Env) (image_path : string) : M unit :=
  try_except
    (let* present := os_path_exists image_path in
     if present then os_remove E image_path else ret tt)
    is_Exception
    (fun _ => ret tt).

(** The [try] block. *)
Definition process (S : Settings) (E : Env) (task_id image_path : string)
    (original_filename : option string) (callback_data : option dict)
    (start_time : Q) (queue_time : Val)
    (s3_client : S3Client) (callback_client : CallbackClient) : M Val :=
  let original_filename := resolve_filename original_filename image_path in
  let filename_without_ext := fst (splitext original_filename) in
  let* now := time_time E in
  let timestamp := int now in
  let* uuid := uuid_uuid4 E in
  let unique_id := substring 0 8 uuid in
  let output_filename :=
    filename_without_ext ++ "_nobg_" ++ pretty timestamp ++ "_" ++ unique_id ++ ".png" in
  let output_path := path_join (RESULT_DIR S) output_filename in
  let* model := get_instance S E None in
  let* model_start_time := time_time E in
  let* success := model_remove_background E model image_path output_path in
  let* model_end_time := time_time E in
  let model_processing_time := (model_end_time - model_start_time)%Q in
  if negb success then
    raise (mkExn Exception "Failed to process image with model")
  else
    let s3_configured := str_truthy (S3_ACCESS_KEY S) && str_truthy (S3_SECRET_KEY S) in
    let* result_url :=
      (if s3_configured
       then upload_file E s3_client output_path ("results/" ++ output_filename)
       else ret ("file://" ++ output_path)) in
    let* end_time := time_time E in
    let total_processing_time := (end_time - start_time)%Q in
    let result :=
      [("status", VStr "completed");
       ("result_url", VStr result_url);
       ("original_filename", VStr original_filename);
       ("output_filename", VStr output_filename);
       ("processing_time", VFloat (round3 total_processing_time));
       ("model_time", VFloat (round3 model_processing_time));
       ("queue_time", queue_time)] in
    notify E callback_client callback_data
      [("task_id", VStr task_id);
       ("status", VStr "completed");
       ("result_url", VStr result_url);
       ("processing_time", VFloat (round3 total_processing_time));
       ("model_time", VFloat (round3 model_processing_time));
       ("queue_time", queue_time)] ;;;
    ret (VDict result).

(** The [except Exception as e] block; it ends in a bare [raise]. *)
Definition on_error (E : Env) (task_id : string) (callback_data : option dict)
    (start_time : Q) (queue_time : Val) (callback_client : CallbackClient)
    (e : Exn) : M Val :=
  let error_message := "Error in background removal task: " ++ str_exn e in
  let* now := time_time E in
  let error_time := (now - start_time)%Q in
  notify E callback_client callback_data
    [("task_id", VStr task_id);
     ("status", VStr "failed");
     ("error", VStr error_message);
     ("processing_time", VFloat (round3 error_time));
     ("queue_time", queue_time)] ;;;
  update_state task_id "FAILURE"
    [("status", VStr "failed");
     ("error", VStr error_message);
     ("processing_time", VFloat (round3 error_time));
     ("queue_time", queue_time)] ;;;
  raise e.

(** [queue_time = round(start_time - creation_time, 3) if creation_time is not None else None] *)
Definition compute_queue_time (start_time : Q) (creation_time : option Q) : Val :=
  match creation_time with
  | Some c => VFloat (round3 (start_time - c))
  | None => VNone
  end.

(** [remove_background(self, image_path, original_filename, callback_data,
    creation_time)], with [task_id = self.request.id]. *)
Definition remove_background (S : Settings) (E : Env) (task_id image_path : string)
    (original_filename : option string) (callback_data : option dict)
    (creation_time : option Q) : M Val :=
  let* start_time := time_time E in
  let queue_time := compute_queue_time start_time creation_time in
  let* s3_client := S3Client_init S E in
  let callback_client := CallbackClient_init S in
  update_state task_id "STARTED" [("status", VStr "processing")] ;;;
  notify E callback_client callback_data
    [("task_id", VStr task_id); ("status", VStr "processing")] ;;;
  try_finally
    (try_except
       (process S E task_id image_path original_filename callback_data
          start_time queue_time s3_client callback_client)
       is_Exception
       (on_error E task_id callback_data start_time queue_time callback_client))
    (cleanup E image_path).

(** ** Celery around the task

    The worker's contract, as configured by [src/worker/celery_app.py]: the
    message is acknowledged when it is taken from the queue; with
    [task_track_started] the state [STARTED] is stored before the body runs;
    a returned value is stored under [SUCCESS]; an exception that leaves the
    body is stored, as the task's result, under [FAILURE]. *)

Definition attempt {A} (m : M A) : M (Result A) :=
  fun w => let o := m w in mkOutcome (Ok (res o)) (world o) (events o).

Definition run_task (S : Settings) (E : Env) (msg : Message) : M Val :=
  remove_background S E (msg_id msg) (msg_image_path msg)
    (msg_original_filename msg) (msg_callback_data msg) (msg_creation_time msg).

(** The worker's tracer around a task body [fun_]. The keys of the
    [STARTED] record are Celery's; their values are not used by the API. *)
Definition build_tracer (task_id : string) (fun_ : M Val) : M unit :=
  when CELERY_TASK_TRACK_STARTED
    (store_result task_id (VDict [("pid", VNone); ("hostname", VNone)]) "STARTED") ;;;
  let* r := attempt fun_ in
  match r with
  | Ok retval => store_result task_id retval "SUCCESS"
  | Raise exc => store_result task_id (VExc exc) "FAILURE"
  end.

Definition trace_task (S : Settings) (E : Env) (msg : Message) : M unit :=
  build_tracer (msg_id msg) (run_task S E msg).

(** One worker taking the oldest message of a queue, if any. *)
Definition worker_step (S : Settings) (E : Env) (queue : string) : M bool :=
  let* w := get_world in
  match queues w !! queue with
  | Some (msg :: rest) =>
      modify (set_queues (fun qs => <[queue := rest]> qs)) ;;;
      trace_task S E msg ;;;
      ret true
  | _ => ret false
  end.

(** ** The HTTP API ([src/api/routes.py], [src/api/schemas.py]) *)

Inductive TaskStatus := PENDING | PROCESSING | COMPLETED | FAILED.

#[global] Instance TaskStatus_eq_dec : EqDecision TaskStatus.
Proof. solve_decision. Defined.

Record UploadFile := mkUploadFile { filename : string; content_type : string }.

Record RemoveBackgroundRequest := mkRequest {
  callback_url : option string;
  callback_auth : option string;
  custom_data : option dict
}.

(** The outcome of [json.loads(request_data)] followed by the validation of
    the [RemoveBackgroundRequest] built from it. *)
Inductive ParsedRequest :=
| JSONDecodeError
| InvalidRequest (e : Exn)
| ValidRequest (r : RemoveBackgroundRequest).

Record TaskResponse := mkTaskResponse { tr_task_id : string; tr_status : TaskStatus }.

Record TaskStatusResponse := mkStatusResponse {
  r_task_id : string;
  r_status : TaskStatus;
  r_result_url : Val;
  r_error : Val;
  r_processing_time : Val;
  r_model_time : Val;
  r_queue_time : Val
}.

Definition set_result_url (v : Val) (r : TaskStatusResponse) : TaskStatusResponse :=
  mkStatusResponse (r_task_id r) (r_status r) v (r_error r)
    (r_processing_time r) (r_model_time r) (r_queue_time r).

Definition set_error (v : Val) (r : TaskStatusResponse) : TaskStatusResponse :=
  mkStatusResponse (r_task_id r) (r_status r) (r_result_url r) v
    (r_processing_time r) (r_model_time r) (r_queue_time r).

Definition set_processing_time (v : Val) (r : TaskStatusResponse) : TaskStatusResponse :=
  mkStatusResponse (r_task_id r) (r_status r) (r_result_url r) (r_error r)
    v (r_model_time r) (r_queue_time r).

Definition set_model_time (v : Val) (r : TaskStatusResponse) : TaskStatusResponse :=
  mkStatusResponse (r_task_id r) (r_status r) (r_result_url r) (r_error r)
    (r_processing_time r) v (r_queue_time r).

Definition set_queue_time (v : Val) (r : TaskStatusResponse) : TaskStatusResponse :=
  mkStatusResponse (r_task_id r) (r_status r) (r_result_url r) (r_error r)
    (r_processing_time r) (r_model_time r) v.

(** [if k in d: response.field = d[k]] *)
Definition copy_field (d : dict) (k : string)
    (set : Val -> TaskStatusResponse -> TaskStatusResponse)
    (r : TaskStatusResponse) : TaskStatusResponse :=
  match dict_get d k with
  | Some v => set v r
  | None => r
  end.

Definition validate_image_file (file : UploadFile) : bool :=
  mem_str (content_type file) ["image/jpeg"; "image/png"; "image/jpg"].

Definition save_upload_file (S : Settings) (E : Env) (file : UploadFile) : M (string * string) :=
  let* now := time_time E in
  let timestamp := int now in
  let* uuid := uuid_uuid4 E in
  let unique_id := substring 0 8 uuid in
  let original_filename := filename file in
  let extension := snd (splitext original_filename) in
  let name := "upload_" ++ pretty timestamp ++ "_" ++ unique_id ++ extension in
  let file_path := path_join (TEMP_UPLOAD_DIR S) name in
  write_file file_path ;;;
  ret (file_path, original_filename).

(** [remove_background.apply_async(args=[...], queue=..., kwargs={...})]:
    publishes the message under a fresh task id.  Nothing is written to the
    result backend. *)
Definition apply_async (E : Env) (queue file_path original_filename : string)
    (callback_data : option dict) (creation_time : Q) : M string :=
  match env_broker_error E with
  | Some e => raise e
  | None =>
      let* id := uuid_uuid4 E in
      let msg := mkMessage id file_path (Some original_filename) callback_data
                   (Some creation_time) in
      modify (set_queues (fun qs =>
        <[queue := (match qs !! queue with Some l => l | None => [] end ++ [msg])%list]> qs)) ;;;
      emit (EvEnqueue queue id) ;;;
      ret id
  end.

Definition opt_str (o : option string) : Val :=
  match o with Some s => VStr s | None => VNone end.

Definition opt_dict (o : option dict) : Val :=
  match o with Some d => VDict d | None => VNone end.

(** The "Prepare callback data" step of [create_task]. *)
Definition prepare_callback_data (request : RemoveBackgroundRequest) : option dict :=
  match callback_url request with
  | Some url =>
      if str_truthy url then
        Some [("callback_url", VStr url);
              ("callback_auth", opt_str (callback_auth request));
              ("custom_data", opt_dict (custom_data request))]
      else None
  | None => None
  end.

(** [POST /task] *)
Definition create_task (S : Settings) (E : Env) (file : UploadFile)
    (request_data : option ParsedRequest) : M TaskResponse :=
  if negb (validate_image_file file) then
    raise (mkExn (HTTPException 400) "Invalid file type. Supported types: JPEG, PNG.")
  else
    let* request :=
      match request_data with
      | None => ret (mkRequest None None None)
      | Some JSONDecodeError =>
          raise (mkExn (HTTPException 400) "Invalid JSON in request_data")
      | Some (InvalidRequest e) =>
          raise (mkExn (HTTPException 400) ("Error parsing request data: " ++ str_exn e))
      | Some (ValidRequest r) => ret r
      end in
    try_except
      (let* saved := save_upload_file S E file in
       let file_path := fst saved in
       let original_filename := snd saved in
       let callback_data := prepare_callback_data request in
       let* creation_time := time_time E in
       let* task_id := apply_async E "gpu" file_path original_filename
                         callback_data creation_time in
       ret (mkTaskResponse task_id PENDING))
      is_Exception
      (fun e => raise (mkExn (HTTPException 500) ("Error creating task: " ++ str_exn e))).

(** [AsyncResult(task_id, app=celery_app)]: the state and result the backend
    holds for the id.  Celery reports an id the backend has no record of as
    [PENDING] with no result. *)
Definition AsyncResult (task_id : string) (w : World) : TaskMeta :=
  match backend w !! task_id with
  | Some m => m
  | None => mkMeta "PENDING" VNone
  end.

Definition status_mapping : list (string * TaskStatus) :=
  [("PENDING", PENDING); ("STARTED", PROCESSING); ("SUCCESS", COMPLETED);
   ("FAILURE", FAILED); ("REVOKED", FAILED)].

(** [status_mapping.get(state, TaskStatus.PENDING)] *)
Definition status_of_state (state : string) : TaskStatus :=
  match find (fun kv => String.eqb (fst kv) state) status_mapping with
  | Some kv => snd kv
  | None => PENDING
  end.

(** The handler of [GET /task/{task_id}]: the body of the function, which
    builds the response object (the route validates it afterwards, see
    [get_task_status_route]). *)
Definition get_task_status (task_id : string) : M TaskStatusResponse :=
  try_except
    (let* w := get_world in
     let task_result := AsyncResult task_id w in
     if negb (str_truthy (meta_status task_result)) then
       raise (mkExn (HTTPException 404) ("Task not found: " ++ task_id))
     else
       let status := status_of_state (meta_status task_result) in
       let response := mkStatusResponse task_id status VNone VNone VNone VNone VNone in
       let result := meta_result task_result in
       let response :=
         if bool_decide (status = COMPLETED) && truthy result then
           match result with
           | VDict d =>
               copy_field d "queue_time" set_queue_time
                 (copy_field d "model_time" set_model_time
                    (copy_field d "processing_time" set_processing_time
                       (copy_field d "result_url" set_result_url response)))
           | _ => response
           end
         else response in
       let response :=
         if bool_decide (status = FAILED) then
           if truthy result then
             match result with
             | VExc e => set_error (VStr (str_exn e)) response
             | VDict d =>
                 copy_field d "queue_time" set_queue_time
                   (copy_field d "model_time" set_model_time
                      (copy_field d "processing_time" set_processing_time
                         (copy_field d "error" set_error response)))
             | _ => response
             end
           else set_error (VStr "Unknown error") response
         else response in
       ret response)
    (fun e => negb (is_HTTPException e))
    (fun e => raise (mkExn (HTTPException 500) ("Error getting task status: " ++ str_exn e))).

(** The status code a client sees. *)
Definition http_status {A} (ok : Z) (o : Outcome A) : Z :=
  match res o with
  | Ok _ => ok
  | Raise e => match exc_class e with HTTPException c => c | _ => 500%Z end
  end.

(** ** The worker pool ([run_local.py]) *)

Module Pool.

Record CompletedProcess := mkCompleted { returncode : Z; stdout : string }.

(** A spawned [celery] process: its command line and the environment it
    inherited when it was started. *)
Record Process := mkProcess { argv : list string; environ : gmap string string }.

Definition is_space (a : ascii) : bool :=
  let n := nat_of_ascii a in
  ((9 <=? n) && (n <=? 13) || (28 <=? n) && (n <=? 32))%nat.

Fixpoint lstrip (l : list ascii) : list ascii :=
  match l with
  | a :: l' => if is_space a then lstrip l' else l
  | [] => []
  end.

(** [s.strip()] *)
Definition strip (s : string) : list ascii :=
  rev (lstrip (rev (lstrip (list_ascii_of_string s)))).

(** [len(s.split("\n"))]: one more than the number of newlines. *)
Definition count_lines (l : list ascii) : nat :=
  S (length (List.filter (fun a => Ascii.eqb a "010"%char) l)).

(** [get_gpu_count()]; the argument is what [nvidia-smi -L] gave, [None]
    when running it raised. *)
Definition get_gpu_count (nvidia_smi : option CompletedProcess) : nat :=
  match nvidia_smi with
  | Some result =>
      if (returncode result =? 0)%Z then count_lines (strip (stdout result)) else 0%nat
  | None => 0%nat
  end.

(** [start_worker(concurrency, loglevel, gpu_index=None)].  The assignment to
    [os.environ] changes the environment of the pool process itself, which
    the children started afterwards inherit. *)
Definition start_worker (concurrency : Z) (loglevel : string) (gpu_index : option nat)
    (os_environ : gmap string string) : Process * gmap string string :=
  let worker_cmd :=
    ["celery"; "-A"; "src.worker.celery_app"; "worker";
     "--loglevel"; loglevel; "--concurrency"; pretty concurrency] in
  match gpu_index with
  | Some i =>
      let worker_cmd := (worker_cmd ++ ["-Q"; "gpu"])%list in
      let os_environ := <["CUDA_VISIBLE_DEVICES" := pretty i]> os_environ in
      (mkProcess worker_cmd os_environ, os_environ)
  | None => (mkProcess worker_cmd os_environ, os_environ)
  end.

(** [for i in range(gpu_count): worker_processes.append(start_worker(..., gpu_index=i))] *)
Fixpoint spawn_gpu_workers (concurrency : Z) (loglevel : string) (indices : list nat)
    (os_environ : gmap string string) : list Process * gmap string string :=
  match indices with
  | [] => ([], os_environ)
  | i :: rest =>
      let '(p, os_environ) := start_worker concurrency loglevel (Some i) os_environ in
      let '(ps, os_environ) := spawn_gpu_workers concurrency loglevel rest os_environ in
      (p :: ps, os_environ)
  end.

(** The spawning part of [start_all]. *)
Definition start_all (nvidia_smi : option CompletedProcess) (concurrency : Z)
    (loglevel : string) (os_environ : gmap string string) : list Process :=
  let gpu_count := get_gpu_count nvidia_smi in
  if (0 <? gpu_count)%nat then
    fst (spawn_gpu_workers concurrency loglevel (seq 0 gpu_count) os_environ)
  else
    [fst (start_worker concurrency loglevel None os_environ)].

(** The value of the [-Q] option of a command line; [-A], [--loglevel] and
    [--concurrency] take a value each. *)
Fixpoint option_Q (argv : list string) : option string :=
  match argv with
  | [] => None
  | a :: rest =>
      if String.eqb a "-Q" then
        match rest with q :: _ => Some q | [] => None end
      else if mem_str a ["-A"; "--loglevel"; "--concurrency"] then
        match rest with _ :: rest' => option_Q rest' | [] => None end
      else option_Q rest
  end.

(** The queue a [celery worker] consumes: the one named by [-Q], and
    Celery's default queue, named [celery], without the option (the
    application configures no other default). *)
Definition consumed_queue (p : Process) : string :=
  match option_Q (argv p) with
  | Some q => q
  | None => "celery"
  end.

(** The device the worker is bound to. *)
Definition device_binding (p : Process) : option string :=
  environ p !! "CUDA_VISIBLE_DEVICES".

End Pool.

(** ** Worker start-up ([src/worker/worker_init.py]) *)

Definition is_digit (a : ascii) : bool :=
  let n := nat_of_ascii a in (48 <=? n)%nat && (n <=? 57)%nat.

Definition digit_value (a : ascii) : nat := (nat_of_ascii a - 48)%nat.

(** [int(s)] on a string of ASCII digits; the empty string is a
    [ValueError] ([None]). *)
Definition int_of_digits (l : list ascii) : option nat :=
  match l with
  | [] => None
  | _ => Some (fold_left (fun acc d => (10 * acc + digit_value d)%nat) l 0%nat)
  end.

(** [get_worker_id()]: the digits of [CELERY_WORKER_NAME] read as one
    number; without a name, or without a digit in it, the last digit of the
    process id. *)
Definition get_worker_id (environ : gmap string string) (pid : nat) : nat :=
  let worker_name :=
    match environ !! "CELERY_WORKER_NAME" with Some n => n | None => "" end in
  let from_name :=
    if str_truthy worker_name
    then int_of_digits (List.filter is_digit (list_ascii_of_string worker_name))
    else None in
  match from_name with
  | Some worker_id => worker_id
  | None => (pid mod 10)%nat
  end.

(** [init_worker_process]: preload the model under the worker's id. *)
Definition init_worker_process (S : Settings) (E : Env)
    (environ : gmap string string) (pid : nat) : M unit :=
  let worker_id := get_worker_id environ pid in
  let* _ := get_instance S E (Some worker_id) in
  ret tt.

(** ** The validator of [TaskStatusResponse.result_url] ([src/api/schemas.py]) *)

Definition validate_url (v : option string) : Exn + option string :=
  match v with
  | None => inr None
  | Some url =>
      if String.prefix "http://" url || String.prefix "https://" url
      then inr (Some url)
      else inl (mkExn ValueError "URL must start with http:// or https://")
  end.

(** What FastAPI does with the value that the handler of a route declared
    with [response_model=TaskStatusResponse] returns: the value is
    validated against the model, which runs [validate_url] on
    [result_url]; a value there that is neither a string nor [None] is not
    an [Optional[str]] that starts with [http]. The conversions pydantic
    applies to the other fields are not modelled: the task stores strings
    and floats there. *)
Definition response_model (response : TaskStatusResponse) : Exn + TaskStatusResponse :=
  match r_result_url response with
  | VNone => inr response
  | VStr url =>
      match validate_url (Some url) with
      | inl e => inl e
      | inr _ => inr response
      end
  | _ => inl (mkExn ValueError "str type expected")
  end.

(** [@router.get("/task/{task_id}", response_model=TaskStatusResponse)]: the
    handler [get_task_status], then the response model. A validation error
    is raised outside the handler's [try]; it is no [HTTPException], so it
    ends in the application's handler for [Exception] ([src/api/app.py]),
    which answers 500. *)
Definition get_task_status_route (task_id : string) : M TaskStatusResponse :=
  let* response := get_task_status task_id in
  match response_model response with
  | inl e => raise e
  | inr validated => ret validated
  end.

(** ** [GET /health] ([src/api/routes.py]) *)

Record HealthResponse := mkHealth {
  h_status : string;
  h_version : string;
  h_components : list (string * string)
}.

(** [health_check()]; the argument is what [celery_app.control.ping] gave:
    the replies of the workers, or the exception it raised. *)
Definition health_check (ping : Exn + list Val) : HealthResponse :=
  let celery_status :=
    match ping with
    | inr celery_ping => if match celery_ping with [] => false | _ => true end then "healthy" else "unhealthy"
    | inl _ => "unhealthy"
    end in
  let redis_status :=
    if String.eqb celery_status "unhealthy" then "unknown" else "healthy" in
  let overall_status :=
    if negb (String.eqb celery_status "healthy") || negb (String.eqb redis_status "healthy")
    then "degraded" else "healthy" in
  mkHealth overall_status "1.0.0"
    [("api", "healthy"); ("worker", celery_status); ("redis", redis_status)].

(** ** Vocabulary of the statements *)

(** The Celery state an event stores, if it is a write to the backend. *)
Definition stored_state (ev : Event) : option string :=
  match ev with EvStore _ s _ => Some s | _ => None end.

Definition stored_states (evs : list Event) : list string :=
  omap stored_state evs.

(** The statuses a status query maps the successive backend writes to. *)
Definition status_history (evs : list Event) : list TaskStatus :=
  map status_of_state (stored_states evs).

(** A history with repeated observations of one status merged: what is left
    are the transitions. *)
Fixpoint compress (l : list TaskStatus) : list TaskStatus :=
  match l with
  | [] => []
  | a :: t =>
      match t with
      | [] => [a]
      | b :: _ => if decide (a = b) then compress t else a :: compress t
      end
  end.

Definition is_post (ev : Event) : bool :=
  match ev with EvPost _ _ _ _ => true | _ => false end.

Definition is_model (ev : Event) : bool :=
  match ev with EvModel _ _ => true | _ => false end.

Definition is_remove (ev : Event) : bool :=
  match ev with EvRemove _ => true | _ => false end.

(** A backend write, if [ev] is one, is for the task [task_id]. *)
Definition concerns (task_id : string) (ev : Event) : Prop :=
  forall tid state result, ev = EvStore tid state result -> tid = task_id.

(** Every event of a computation satisfies [P]. *)
Definition emits_only (P : Event -> Prop) {A} (m : M A) : Prop :=
  forall w, Forall P (events (m w)).

(** Every value a computation returns satisfies [P]. *)
Definition returns {A} (P : A -> Prop) (m : M A) : Prop :=
  forall w a, res (m w) = Ok a -> P a.

(** Two computations agree on result and final world (their events may
    differ). *)
Definition agree {A} (m1 m2 : M A) : Prop :=
  forall w, res (m1 w) = res (m2 w) /\ world (m1 w) = world (m2 w).

(** [log_spec P m]: on every run of [m], the list of Celery states it
    stores and its result satisfy [P]. *)
Definition log_spec {A} (P : list string -> Result A -> Prop) (m : M A) : Prop :=
  forall w, P (stored_states (events (m w))) (res (m w)).

(** The record the tracer leaves for an outcome of the task body. *)
Definition final_meta (r : Result Val) : TaskMeta :=
  match r with
  | Ok retval => mkMeta "SUCCESS" retval
  | Raise exc => mkMeta "FAILURE" (VExc exc)
  end.

Definition started_meta : TaskMeta :=
  mkMeta "STARTED" (VDict [("pid", VNone); ("hostname", VNone)]).

(** The response of a status query before any field is filled in. *)
Definition blank_response (task_id : string) (status : TaskStatus) : TaskStatusResponse :=
  mkStatusResponse task_id status VNone VNone VNone VNone VNone.

(** The settings with the callback configuration switched off. *)
Definition callbacks_disabled (S : Settings) : Settings :=
  mkSettings (S3_ENDPOINT S) (S3_ACCESS_KEY S) (S3_SECRET_KEY S) (S3_BUCKET_NAME S)
    (S3_REGION S) false "" "" (DEVICE S) (TEMP_UPLOAD_DIR S) (RESULT_DIR S).

(** The response the handler of the status query builds once the worker is
    done with a message (the route's response model comes after it, see
    [get_task_status_route]). *)
Definition final_status (S : Settings) (E : Env) (msg : Message) (w : World)
    : Result TaskStatusResponse :=
  res (get_task_status (msg_id msg) (world (trace_task S E msg w))).

(** The outcome of the task body in the world the tracer runs it in (the
    [STARTED] record of the tracer is already stored). *)
Definition body_result (S : Settings) (E : Env) (msg : Message) (w : World) : Result Val :=
  res (run_task S E msg (set_backend (fun b => <[msg_id msg := started_meta]> b) w)).

(** The shape of the dict a completed task returns, with its [queue_time]. *)
Definition completed_result (queue_time : Val) (v : Val) : Prop :=
  exists result_url original_filename output_filename processing_time model_time,
    v = VDict [("status", VStr "completed");
               ("result_url", VStr result_url);
               ("original_filename", VStr original_filename);
               ("output_filename", VStr output_filename);
               ("processing_time", VFloat processing_time);
               ("model_time", VFloat model_time);
               ("queue_time", queue_time)].

(** *** Invariants of the world *)

(** [maintains I m]: a run of [m] from a world in [I] ends in a world in
    [I], whatever its result. *)
Definition maintains {A} (I : World -> Prop) (m : M A) : Prop :=
  forall w, I w -> I (world (m w)).

(** An invariant that looks at the files, the backend and the queues only:
    it is kept by whatever changes none of them. *)
Definition looks_at_stores (I : World -> Prop) : Prop :=
  forall w w', fs w' = fs w -> backend w' = backend w -> queues w' = queues w -> I w -> I w'.

(** [fails_with C m]: every run of [m] ends in an exception in [C]. *)
Definition fails_with {A} (C : Exn -> Prop) (m : M A) : Prop :=
  forall w, exists e, res (m w) = Raise e /\ C e.

(** The name and the path of the result file that the [try] block of the
    task chooses in the world [w]. *)
Definition output_filename_in (E : Env) (original_filename : option string)
    (image_path : string) (w : World) : string :=
  fst (splitext (resolve_filename original_filename image_path)) ++ "_nobg_"
    ++ pretty (int (env_time E (clock_reads w))) ++ "_"
    ++ substring 0 8 (env_uuid4 E (uuid_reads w)) ++ ".png".

Definition output_path_in (S : Settings) (E : Env) (original_filename : option string)
    (image_path : string) (w : World) : string :=
  path_join (RESULT_DIR S) (output_filename_in E original_filename image_path w).

(** The record the worker leaves for the job of a message. *)
Definition job_record (S : Settings) (E : Env) (msg : Message) (w : World) : option TaskMeta :=
  backend (world (trace_task S E msg w)) !! msg_id msg.

(** The status a poller reads for [task_id] in the world [w]. *)
Definition observed_status (task_id : string) (w : World) : TaskStatus :=
  status_of_state (meta_status (AsyncResult task_id w)).

(** The statuses of a job over a run that starts in [w] and makes the
    backend writes of [evs]: the status read before the run, then the
    status of each write. *)
Definition status_trace (task_id : string) (w : World) (evs : list Event) : list TaskStatus :=
  observed_status task_id w :: status_history evs.

(** What can happen to the system: a submission, a status query, the
    delivery of a descriptor to a worker (which then runs the task on it;
    nothing in the task tells a first delivery from a repeated one). *)
Inductive Action :=
| Submit (file : UploadFile) (request_data : option ParsedRequest)
| Poll (task_id : string)
| Deliver (msg : Message).

Definition step (S : Settings) (E : Env) (w : World) (a : Action) : World :=
  match a with
  | Submit file request_data => world (create_task S E file request_data w)
  | Poll task_id => world (get_task_status_route task_id w)
  | Deliver msg => world (trace_task S E msg w)
  end.

Definition run_actions (S : Settings) (E : Env) (acts : list Action) (w : World) : World :=
  fold_left (step S E) acts w.

(** The action delivers the descriptor of the job [task_id]. *)
Definition delivers (task_id : string) (a : Action) : Prop :=
  match a with
  | Deliver msg => msg_id msg = task_id
  | _ => False
  end.

(** Both S3 keys are set: [settings.S3_ACCESS_KEY and settings.S3_SECRET_KEY]. *)
Definition s3_configured (S : Settings) : bool :=
  str_truthy (S3_ACCESS_KEY S) && str_truthy (S3_SECRET_KEY S).

(** The name and the path of the result file of a run of the worker on
    [msg] that starts in [w] (the task reads the clock once before the
    [try] block, and no uuid). *)
Definition result_name (E : Env) (msg : Message) (w : World) : string :=
  output_filename_in E (msg_original_filename msg) (msg_image_path msg)
    (mkWorld ∅ ∅ ∅ ∅ (Datatypes.S (clock_reads w)) (uuid_reads w)).

Definition result_file (S : Settings) (E : Env) (msg : Message) (w : World) : string :=
  path_join (RESULT_DIR S) (result_name E msg w).

(** The file, if any, that [cv2.imwrite] leaves at [path]. *)
Definition written (E : Env) (path : string) : gset string :=
  if env_imwrite E path then {[path]} else ∅.

(** The world [w'] has the files of [w], and [dc] more clock readings. *)
Definition later (dc : nat) (w w' : World) : Prop :=
  fs w' = fs w /\ clock_reads w' = (dc + clock_reads w)%nat.

(** What a run for the task [task_id] with input [image_path] may change,
    seen from the world [w0] it started in: the records of other tasks and
    the queues stay as they are, and no file other than the input goes
    away. *)
Definition isolated (task_id image_path : string) (w0 w : World) : Prop :=
  (forall t, t <> task_id -> backend w !! t = backend w0 !! t) /\
  queues w = queues w0 /\
  (forall q, q <> image_path -> q ∈ fs w0 -> q ∈ fs w).

(** The request [create_task] works with, when [request_data] is
    acceptable. *)
Definition request_of (request_data : option ParsedRequest) : option RemoveBackgroundRequest :=
  match request_data with
  | None => Some (mkRequest None None None)
  | Some (ValidRequest r) => Some r
  | Some _ => None
  end.

(** The path [save_upload_file] writes to in the world [w]. *)
Definition upload_path (S : Settings) (E : Env) (file : UploadFile) (w : World) : string :=
  path_join (TEMP_UPLOAD_DIR S)
    ("upload_" ++ pretty (int (env_time E (clock_reads w))) ++ "_"
       ++ substring 0 8 (env_uuid4 E (uuid_reads w)) ++ snd (splitext (filename file))).

(** The messages waiting on a queue. *)
Definition waiting (queue : string) (w : World) : list Message :=
  match queues w !! queue with Some l => l | None => [] end.

(** A clock that never runs backwards. *)
Definition monotone_clock (E : Env) : Prop :=
  forall i j, (i <= j)%nat -> (env_time E i <= env_time E j)%Q.

(** The value of a float field of a dict. *)
Definition float_field (d : dict) (k : string) : option Q :=
  match dict_get d k with Some (VFloat q) => Some q | _ => None end.

(** The value of a string field of a dict. *)
Definition str_field (d : dict) (k : string) : option string :=
  match dict_get d k with Some (VStr s) => Some s | _ => None end.

(** *** A small deployment for the examples *)

Definition local_settings : Settings :=
  mkSettings "" "" "" "rmbg-results" "us-east-1" true "" "" "cuda"
    "/tmp/rmbg-uploads" "/tmp/rmbg-results".

(** A clock that starts at [t0] and advances by two seconds per reading, a
    callback endpoint that answers with [status], a model that works iff
    [model_ok]. *)
Definition sample_env (t0 : Z) (status : Z) (model_ok : bool) : Env :=
  mkEnv (fun n => inject_Z (t0 + 2 * Z.of_nat n))
        (fun n => "0123456789abcdef" ++ pretty n)
        (fun _ => HttpResponse status)
        None (fun _ => None) (fun s => s) None (fun _ => model_ok)
        false 0 None (fun _ => None) (fun _ => true).

(** The same deployment with a callback URL and a token configured. *)
Definition notifying_settings : Settings :=
  mkSettings "" "" "" "rmbg-results" "us-east-1" true "http://client.example/hook" "secret"
    "cuda" "/tmp/rmbg-uploads" "/tmp/rmbg-results".

(** The keywords of the first notification of the task
    ([send_callback(task_id=task_id, status='processing', **callback_data)]). *)
Definition first_notification (msg : Message) : dict :=
  ([("task_id", VStr (msg_id msg)); ("status", VStr "processing")]
     ++ unpack (msg_callback_data msg))%list.

(** The same deployment with AWS S3 credentials and no custom endpoint. *)
Definition s3_settings : Settings :=
  mkSettings "" "AKIAEXAMPLE" "secret" "rmbg-results" "us-east-1" true "" "" "cuda"
    "/tmp/rmbg-uploads" "/tmp/rmbg-results".

Definition empty_world : World := mkWorld ∅ ∅ ∅ ∅ 0 0.

Definition cat_upload : UploadFile := mkUploadFile "cat.jpg" "image/jpeg".

Definition with_callback : option ParsedRequest :=
  Some (ValidRequest (mkRequest (Some "http://client.example/hook") None None)).

(** The message [create_task] publishes for [cat_upload] in [empty_world]
    under [sample_env 100 _ _]. *)
Definition sample_message (callback_data : option dict) : Message :=
  mkMessage "0123456789abcdef1" "/tmp/rmbg-uploads/upload_100_01234567.jpg"
    (Some "cat.jpg") callback_data (Some (inject_Z 102)).

(** A message whose callback data a producer other than [create_task]
    chose among the parameters of [send_callback]. *)
Definition echo_message : Message := sample_message (Some [("error", VStr "echo")]).

(** A job end to end: submitted to the API, taken by a worker that consumes
    [queue], then polled. *)
Definition submitted (E : Env) (request_data : option ParsedRequest) : Outcome TaskResponse :=
  create_task local_settings E cat_upload request_data empty_world.

Definition served (E : Env) (request_data : option ParsedRequest) (queue : string)
    : Outcome bool :=
  worker_step local_settings E queue (world (submitted E request_data)).

Definition polled (E : Env) (request_data : option ParsedRequest) (queue : string)
    : Result TaskStatusResponse :=
  res (get_task_status "0123456789abcdef1" (world (served E request_data queue))).

(** What C10 says of a run of the task body and of the tracer around it:
    the body raises before any model run or file removal (the [TypeError]
    of the call, when the S3 client could be built), no file is deleted,
    and the job is left failed. *)
Definition fails_before_cleanup (S : Settings) (E : Env) (msg : Message) (w : World) : Prop :=
  let o := run_task S E msg w in
  (exists e, res o = Raise e /\
     (env_s3_connect E = None ->
      e = mkExn TypeError
            "send_callback() got an unexpected keyword argument 'callback_url'")) /\
  Forall (fun ev => is_model ev = false /\ is_remove ev = false) (events o) /\
  fs (world o) = fs w /\
  fs (world (trace_task S E msg w)) = fs w /\
  exists resp, final_status S E msg w = Ok resp /\ r_status resp = FAILED.

(** ** Examples *)

Example basename_upload : basename "/tmp/rmbg-uploads/upload_17_ab12cd34.jpg" = "upload_17_ab12cd34.jpg".
Proof. reflexivity. Qed.

Example splitext_photo : splitext "photo.final.jpg" = ("photo.final", ".jpg").
Proof. reflexivity. Qed.

Example splitext_hidden : splitext "dir.d/.bashrc" = ("dir.d/.bashrc", "").
Proof. reflexivity. Qed.

Example path_join_result : path_join "/tmp/rmbg-results" "a.png" = "/tmp/rmbg-results/a.png".
Proof. reflexivity. Qed.

Example round3_half_even :
  (round3 (25 # 10000) == 2 # 1000)%Q /\ (round3 (35 # 10000) == 4 # 1000)%Q.
Proof. split; reflexivity. Qed.

Example round3_negative : round3 (-(5)) = (-5 # 1)%Q.
Proof. reflexivity. Qed.

(** ** Rules for [emits_only] *)

Section Rules.
Context {A B : Type}.
Variable P : Event -> Prop.

Lemma emits_only_ret (a : A) : emits_only P (ret a).
Proof. intros w. constructor. Qed.

Lemma emits_only_raise (e : Exn) : emits_only P (raise (A:=A) e).
Proof. intros w. constructor. Qed.

Lemma emits_only_bind (m : M A) (k : A -> M B) :
  emits_only P m -> (forall a, emits_only P (k a)) -> emits_only P (bind m k).
Proof.
  intros Hm Hk w. unfold bind. specialize (Hm w).
  destruct (res (m w)) as [a|e]; simpl; [|exact Hm].
  apply Forall_app. split; [exact Hm | apply Hk].
Qed.

Lemma emits_only_try_except (body : M A) catches handler :
  emits_only P body -> (forall e, emits_only P (handler e)) ->
  emits_only P (try_except body catches handler).
Proof.
  intros Hb Hh w. unfold try_except. specialize (Hb w).
  destruct (res (body w)) as [a|e]; [exact Hb|].
  destruct (catches e); [|exact Hb]. simpl.
  apply Forall_app. split; [exact Hb | apply Hh].
Qed.

Lemma emits_only_try_finally (body : M A) final :
  emits_only P body -> emits_only P final -> emits_only P (try_finally body final).
Proof.
  intros Hb Hf w. unfold try_finally. simpl.
  apply Forall_app. split; [apply Hb | apply Hf].
Qed.

End Rules.

Lemma emits_only_when P b m : emits_only P m -> emits_only P (when b m).
Proof. intros H. destruct b; [exact H | apply emits_only_ret]. Qed.

Lemma emits_only_emit (P : Event -> Prop) ev : P ev -> emits_only P (emit ev).
Proof. intros H w. simpl. constructor; [exact H | constructor]. Qed.

Lemma emits_only_modify P f : emits_only P (modify f).
Proof. intros w. constructor. Qed.

Lemma emits_only_get_world P : emits_only P get_world.
Proof. intros w. constructor. Qed.

Lemma emits_only_time_time P E : emits_only P (time_time E).
Proof. intros w. constructor. Qed.

Lemma emits_only_uuid_uuid4 P E : emits_only P (uuid_uuid4 E).
Proof. intros w. constructor. Qed.

Lemma emits_only_os_path_exists P p : emits_only P (os_path_exists p).
Proof. intros w. constructor. Qed.

Lemma emits_only_write_file P p : emits_only P (write_file p).
Proof. apply emits_only_modify. Qed.

Lemma emits_only_os_remove (P : Event -> Prop) E p :
  P (EvRemove p) -> emits_only P (os_remove E p).
Proof.
  intros H w. unfold os_remove.
  destruct (bool_decide (p ∈ fs w)); [|constructor].
  destruct (env_remove_error E p); simpl; repeat constructor. exact H.
Qed.

Create HintDb emits discriminated.
#[local] Hint Resolve emits_only_ret emits_only_raise emits_only_when
  emits_only_emit emits_only_modify emits_only_get_world emits_only_time_time
  emits_only_uuid_uuid4 emits_only_os_path_exists emits_only_write_file
  emits_only_os_remove emits_only_try_except emits_only_try_finally : emits.

(** One step of a proof that a computation emits only events in [P]:
    decompose binds and branches, close the leaves with the rules. *)
Ltac emits_step :=
  match goal with
  | |- emits_only _ (bind _ _) => apply emits_only_bind; [|intros ?]
  | |- emits_only _ (try_except _ _ _) => apply emits_only_try_except; [|intros ?]
  | |- emits_only _ (try_finally _ _) => apply emits_only_try_finally
  | |- emits_only _ (when _ _) => apply emits_only_when
  | |- emits_only _ (if ?b then _ else _) => destruct b
  | |- emits_only _ (match ?x with _ => _ end) => destruct x
  | |- emits_only _ _ => solve [auto with emits]
  end.

Ltac emits := repeat emits_step.

(** *** What [send_callback] can do *)

Lemma send_callback_body_world E c t s r e w :
  world (send_callback_body E c t s r e w) = w.
Proof.
  unfold send_callback_body.
  destruct (negb (cb_enabled c) || negb (str_truthy (cb_callback_url c))); [reflexivity|].
  unfold try_except, requests_post, bind, emit, ret, raise; simpl.
  destruct (env_http E (cb_callback_url c)); simpl.
  - destruct (response_ok status_code); reflexivity.
  - reflexivity.
Qed.

Lemma send_callback_world E c kw w : world (send_callback E c kw w) = w.
Proof.
  unfold send_callback. destruct (bind_call send_callback_sig kw); [reflexivity|].
  apply send_callback_body_world.
Qed.

(** Once its arguments are bound, [send_callback] returns: no exception
    escapes it. *)
Lemma send_callback_body_returns E c t s r e w :
  exists b, res (send_callback_body E c t s r e w) = Ok b.
Proof.
  unfold send_callback_body.
  destruct (negb (cb_enabled c) || negb (str_truthy (cb_callback_url c))); [by exists false|].
  unfold try_except, requests_post, bind, emit, ret, raise; simpl.
  destruct (env_http E (cb_callback_url c)); simpl.
  - destruct (response_ok status_code); eauto.
  - eauto.
Qed.

Lemma send_callback_emits E c kw :
  emits_only (fun ev => is_post ev = true) (send_callback E c kw).
Proof.
  unfold send_callback. destruct (bind_call send_callback_sig kw); [apply emits_only_raise|].
  unfold send_callback_body.
  destruct (negb (cb_enabled c) || negb (str_truthy (cb_callback_url c))); [apply emits_only_ret|].
  unfold requests_post. emits.
Qed.

Lemma emits_only_weaken {A} (P Q : Event -> Prop) (m : M A) :
  (forall ev, P ev -> Q ev) -> emits_only P m -> emits_only Q m.
Proof. intros HPQ Hm w. eapply Forall_impl; [apply Hm | exact HPQ]. Qed.

Lemma send_callback_no_store E c kw :
  emits_only (fun ev => stored_state ev = None) (send_callback E c kw).
Proof.
  eapply emits_only_weaken; [|apply send_callback_emits].
  intros [] H; simpl in *; congruence.
Qed.
#[local] Hint Resolve send_callback_no_store : emits.

(** *** What [notify] can do *)

Lemma notify_world E c cd kw w : world (notify E c cd kw w) = w.
Proof.
  unfold notify, when. destruct (callback_data_truthy cd); [|reflexivity].
  unfold bind. pose proof (send_callback_world E c (kw ++ unpack cd) w) as Hw.
  destruct (res (send_callback E c (kw ++ unpack cd) w)); simpl; exact Hw.
Qed.

Lemma notify_no_store E c cd kw :
  emits_only (fun ev => stored_state ev = None) (notify E c cd kw).
Proof. unfold notify. emits. Qed.
#[local] Hint Resolve notify_no_store : emits.

Lemma stored_states_app evs1 evs2 :
  stored_states (evs1 ++ evs2) = (stored_states evs1 ++ stored_states evs2)%list.
Proof. apply omap_app. Qed.

Lemma stored_states_store tid state r evs :
  stored_states (EvStore tid state r :: evs) = state :: stored_states evs.
Proof. reflexivity. Qed.

Lemma no_store_stored_states evs :
  Forall (fun ev => stored_state ev = None) evs -> stored_states evs = [].
Proof.
  induction 1 as [|ev evs Hev _ IH]; [reflexivity|].
  unfold stored_states in *. simpl. rewrite Hev. exact IH.
Qed.

Lemma process_no_store S E tid ip ofn cd st qt s3 cb :
  emits_only (fun ev => stored_state ev = None) (process S E tid ip ofn cd st qt s3 cb).
Proof.
  unfold process, get_instance, Model_init, model_remove_background, upload_file.
  emits.
Qed.

Lemma cleanup_no_store E p :
  emits_only (fun ev => stored_state ev = None) (cleanup E p).
Proof. unfold cleanup. emits. Qed.

(** The [finally] block never raises. *)
Lemma cleanup_ok E p w : res (cleanup E p w) = Ok tt.
Proof.
  unfold cleanup, try_except, bind, os_path_exists, ret. cbn.
  destruct (bool_decide (p ∈ fs w)) eqn:Hin; cbn; [|reflexivity].
  unfold os_remove. rewrite Hin.
  destruct (env_remove_error E p); reflexivity.
Qed.

(** *** The log of backend writes of a computation *)

Section LogRules.
Context {A B : Type}.

Lemma log_consequence (P P' : list string -> Result A -> Prop) (m : M A) :
  log_spec P m -> (forall l r, P l r -> P' l r) -> log_spec P' m.
Proof. intros H HP w. apply HP, H. Qed.

Lemma log_bind (P : list string -> Result A -> Prop)
    (Q : A -> list string -> Result B -> Prop) (m : M A) (k : A -> M B) :
  log_spec P m -> (forall a, log_spec (Q a) (k a)) ->
  log_spec (fun l r =>
              (exists e, P l (Raise e) /\ r = Raise e) \/
              (exists a l1 l2, P l1 (Ok a) /\ Q a l2 r /\ l = (l1 ++ l2)%list))
           (bind m k).
Proof.
  intros Hm Hk w. unfold bind. specialize (Hm w).
  destruct (res (m w)) as [a|e]; cbn [res events].
  - right. exists a, (stored_states (events (m w))),
      (stored_states (events (k a (world (m w))))).
    split; [exact Hm|]. split; [apply Hk | apply stored_states_app].
  - left. exists e. split; [exact Hm | reflexivity].
Qed.

Lemma log_try_except (P : list string -> Result A -> Prop)
    (H : Exn -> list string -> Result A -> Prop) (body : M A) handler :
  log_spec P body -> (forall e, log_spec (H e) (handler e)) ->
  log_spec (fun l r =>
              (exists a, P l (Ok a) /\ r = Ok a) \/
              (exists e l1 l2, P l1 (Raise e) /\ H e l2 r /\ l = (l1 ++ l2)%list))
           (try_except body is_Exception handler).
Proof.
  intros Hb Hh w. unfold try_except. specialize (Hb w).
  destruct (res (body w)) as [a|e] eqn:Hr; cbn [is_Exception res events].
  - left. exists a. rewrite Hr. split; [exact Hb | reflexivity].
  - right. exists e, (stored_states (events (body w))),
      (stored_states (events (handler e (world (body w))))).
    split; [exact Hb|]. split; [apply Hh | apply stored_states_app].
Qed.

Lemma log_quiet (m : M A) :
  emits_only (fun ev => stored_state ev = None) m -> log_spec (fun l _ => l = []) m.
Proof. intros H w. apply no_store_stored_states, H. Qed.

End LogRules.

Lemma log_try_finally_cleanup {A} (P : list string -> Result A -> Prop) (body : M A) E p :
  log_spec P body -> log_spec P (try_finally body (cleanup E p)).
Proof.
  intros Hb w. unfold try_finally. cbn [res events]. rewrite cleanup_ok.
  rewrite stored_states_app.
  rewrite (no_store_stored_states _ (cleanup_no_store E p (world (body w)))).
  rewrite app_nil_r. apply Hb.
Qed.

(** Closing the side condition of [log_consequence]: split the cases of the
    composed specification and compare the short lists. *)
Ltac log_cases :=
  cbv beta; intros;
  repeat match goal with
         | H : _ \/ _ |- _ => destruct H
         | H : _ /\ _ |- _ => destruct H
         | H : exists _, _ |- _ => destruct H
         | H : Ok _ = Ok _ |- _ => injection H as H
         | H : Ok _ = Raise _ |- _ => discriminate H
         | H : Raise _ = Ok _ |- _ => discriminate H
         end;
  subst; cbn [app]; eauto 8.

Lemma log_update_state tid state meta :
  log_spec (fun l r => l = [state] /\ r = Ok tt) (update_state tid state meta).
Proof. intros w. split; reflexivity. Qed.

Lemma log_raise {A} e : log_spec (fun l r => l = [] /\ r = Raise e) (raise (A:=A) e).
Proof. intros w. split; reflexivity. Qed.

(** The [except] block always ends in an exception, and writes at most the
    [FAILURE] record. *)
Lemma on_error_log E tid cd st qt cb e :
  log_spec (fun l r => (exists e', r = Raise e') /\ (l = [] \/ l = ["FAILURE"]))
           (on_error E tid cd st qt cb e).
Proof.
  eapply log_consequence.
  - unfold on_error.
    eapply log_bind; [apply log_quiet; emits | intros now].
    eapply log_bind; [apply log_quiet; emits | intros ?].
    eapply log_bind; [apply log_update_state | intros ?].
    apply log_raise.
  - log_cases.
Qed.

(** The guarded part of the task: at most the [FAILURE] record, and only
    when it ends in an exception. *)
Lemma guarded_log S E tid ip ofn cd st qt s3 cb :
  log_spec (fun l r => l = [] \/ (l = ["FAILURE"] /\ exists e, r = Raise e))
    (try_except (process S E tid ip ofn cd st qt s3 cb) is_Exception
       (on_error E tid cd st qt cb)).
Proof.
  eapply log_consequence.
  - eapply log_try_except; [apply log_quiet, process_no_store | intros e; apply on_error_log].
  - log_cases.
Qed.

(** The backend writes of the task body. *)
Lemma run_task_log S E msg :
  log_spec (fun l r => l = [] \/ l = ["STARTED"] \/
                       (l = ["STARTED"; "FAILURE"] /\ exists e, r = Raise e))
    (run_task S E msg).
Proof.
  eapply log_consequence.
  - unfold run_task, remove_background.
    eapply log_bind; [apply log_quiet; emits | intros start_time].
    eapply log_bind; [apply log_quiet; unfold S3Client_init; emits | intros s3].
    eapply log_bind; [apply log_update_state | intros ?].
    eapply log_bind; [apply log_quiet; emits | intros ?].
    apply log_try_finally_cleanup, guarded_log.
  - log_cases.
Qed.

(** *** Running the tracer and the status query *)

Lemma build_tracer_run task_id (body : M Val) w :
  let w1 := set_backend (fun b => <[task_id := started_meta]> b) w in
  let o := body w1 in
  build_tracer task_id body w =
  mkOutcome (Ok tt)
    (set_backend (fun b => <[task_id := final_meta (res o)]> b) (world o))
    (EvStore task_id "STARTED" (meta_result started_meta)
       :: events o ++ [EvStore task_id (meta_status (final_meta (res o)))
                         (meta_result (final_meta (res o)))]).
Proof.
  cbv zeta. unfold build_tracer, attempt, bind, when, store_result, modify, emit, ret.
  cbn. destruct (res (body _)); reflexivity.
Qed.

Lemma trace_task_backend S E msg w :
  backend (world (trace_task S E msg w)) !! msg_id msg =
  Some (final_meta (res (run_task S E msg
          (set_backend (fun b => <[msg_id msg := started_meta]> b) w)))).
Proof.
  unfold trace_task. rewrite build_tracer_run. cbn [world set_backend backend].
  apply lookup_insert_eq.
Qed.

Lemma get_task_status_unknown task_id w :
  backend w !! task_id = None ->
  get_task_status task_id w = mkOutcome (Ok (blank_response task_id PENDING)) w [].
Proof.
  intros H. unfold get_task_status, try_except, bind, get_world, AsyncResult.
  cbn. rewrite H. reflexivity.
Qed.

Lemma get_task_status_failure task_id e w :
  backend w !! task_id = Some (mkMeta "FAILURE" (VExc e)) ->
  get_task_status task_id w =
  mkOutcome (Ok (set_error (VStr (str_exn e)) (blank_response task_id FAILED))) w [].
Proof.
  intros H. unfold get_task_status, try_except, bind, get_world, AsyncResult.
  cbn. rewrite H. reflexivity.
Qed.

Lemma get_task_status_success task_id kv d w :
  backend w !! task_id = Some (mkMeta "SUCCESS" (VDict (kv :: d))) ->
  get_task_status task_id w =
  mkOutcome
    (Ok (copy_field (kv :: d) "queue_time" set_queue_time
           (copy_field (kv :: d) "model_time" set_model_time
              (copy_field (kv :: d) "processing_time" set_processing_time
                 (copy_field (kv :: d) "result_url" set_result_url
                    (blank_response task_id COMPLETED)))))) w [].
Proof.
  intros H. unfold get_task_status, try_except, bind, get_world, AsyncResult.
  cbn. rewrite H. reflexivity.
Qed.

Lemma get_task_status_success_status task_id v w :
  backend w !! task_id = Some (mkMeta "SUCCESS" v) ->
  exists resp,
    get_task_status task_id w = mkOutcome (Ok resp) w [] /\ r_status resp = COMPLETED.
Proof.
  intros H. unfold get_task_status, try_except, bind, get_world, AsyncResult.
  cbn. rewrite H. cbn.
  destruct (truthy v); [|eexists; split; reflexivity].
  destruct v; try (eexists; split; reflexivity).
  eexists. split; [reflexivity|].
  unfold copy_field.
  repeat match goal with |- context [dict_get ?d' ?k] => destruct (dict_get d' k) end;
    reflexivity.
Qed.

(** *** Symbolic execution of the first steps of the task *)

Lemma bind_time_time {B} E (k : Q -> M B) w :
  bind (time_time E) k w =
  k (env_time E (clock_reads w))
    (mkWorld (fs w) (backend w) (queues w) (model_instances w)
       (Datatypes.S (clock_reads w)) (uuid_reads w)).
Proof. unfold bind, time_time. cbn. destruct (k _ _); reflexivity. Qed.

Lemma bind_S3Client_init {B} S E (k : S3Client -> M B) w :
  bind (S3Client_init S E) k w =
  match env_s3_connect E with
  | Some e => mkOutcome (Raise e) w []
  | None => k (mkS3Client (S3_ENDPOINT S) (S3_BUCKET_NAME S) (S3_REGION S)) w
  end.
Proof.
  unfold bind, S3Client_init. destruct (env_s3_connect E); cbn; [reflexivity|].
  destruct (k _ _); reflexivity.
Qed.

Lemma bind_update_state {B} tid state meta (k : unit -> M B) w :
  bind (update_state tid state meta) k w =
  let o := k tt (set_backend (fun b => <[tid := mkMeta state (VDict meta)]> b) w) in
  mkOutcome (res o) (world o) (EvStore tid state (VDict meta) :: events o).
Proof. reflexivity. Qed.

Lemma bind_notify_skip {B} E c cd kw (k : unit -> M B) w :
  callback_data_truthy cd = false ->
  bind (notify E c cd kw) k w = k tt w.
Proof.
  intros H. unfold bind, notify, when. rewrite H. cbn. destruct (k _ _); reflexivity.
Qed.

Lemma bind_notify_raise {B} E c cd kw (k : unit -> M B) w e :
  callback_data_truthy cd = true ->
  bind_call send_callback_sig (kw ++ unpack cd) = inl e ->
  bind (notify E c cd kw) k w = mkOutcome (Raise e) w [].
Proof.
  intros H Hb. unfold bind, notify, when, send_callback. rewrite H, Hb. reflexivity.
Qed.

(** The first thing the task body does that can be observed is to record
    [STARTED]. *)
Lemma run_task_first_event S E msg w :
  events (run_task S E msg w) = [] \/
  exists rest,
    events (run_task S E msg w) =
    EvStore (msg_id msg) "STARTED" (VDict [("status", VStr "processing")]) :: rest.
Proof.
  unfold run_task, remove_background.
  rewrite bind_time_time, bind_S3Client_init.
  destruct (env_s3_connect E); [left; reflexivity|].
  right. rewrite bind_update_state. cbv zeta. cbn [events]. eauto.
Qed.

(** The task body writes to the backend under its own id only. *)
Lemma concerns_store task_id state result : concerns task_id (EvStore task_id state result).
Proof. intros tid st r [= <- _ _]. reflexivity. Qed.

Lemma concerns_other task_id ev : stored_state ev = None -> concerns task_id ev.
Proof. intros H tid st r ->. discriminate H. Qed.

Lemma run_task_concerns S E msg : emits_only (concerns (msg_id msg)) (run_task S E msg).
Proof.
  unfold run_task, remove_background.
  apply emits_only_bind; [apply emits_only_time_time | intros start_time].
  apply emits_only_bind; [unfold S3Client_init; emits | intros s3].
  apply emits_only_bind;
    [unfold update_state, store_result; emits; apply emits_only_emit, concerns_store | intros ?].
  apply emits_only_bind;
    [eapply emits_only_weaken; [apply concerns_other | apply notify_no_store] | intros ?].
  apply emits_only_try_finally; [apply emits_only_try_except|].
  - eapply emits_only_weaken; [apply concerns_other | apply process_no_store].
  - intros e. unfold on_error.
    apply emits_only_bind; [apply emits_only_time_time | intros now].
    apply emits_only_bind;
      [eapply emits_only_weaken; [apply concerns_other | apply notify_no_store] | intros ?].
    apply emits_only_bind; [|intros ?; apply emits_only_raise].
    unfold update_state, store_result. emits. apply emits_only_emit, concerns_store.
  - eapply emits_only_weaken; [apply concerns_other | apply cleanup_no_store].
Qed.

(** ** The task's calls of [send_callback] (C10, C3, C2) *)

Example create_task_publishes :
  queues (world (submitted (sample_env 100 500 true) with_callback)) !! "gpu" =
  Some [sample_message
          (prepare_callback_data (mkRequest (Some "http://client.example/hook") None None))].
Proof. vm_compute. reflexivity. Qed.

(** The dict [create_task] builds for a request with a callback URL is
    truthy, and none of its keys is a parameter of [send_callback]. *)
Lemma prepared_callback_data request url :
  callback_url request = Some url -> str_truthy url = true ->
  callback_data_truthy (prepare_callback_data request) = true /\
  forall task_id status,
    bind_call send_callback_sig
      ([("task_id", task_id); ("status", status)]
         ++ unpack (prepare_callback_data request)) =
    inl (mkExn TypeError
           "send_callback() got an unexpected keyword argument 'callback_url'").
Proof.
  intros Hurl Ht. unfold prepare_callback_data. rewrite Hurl, Ht.
  split; [reflexivity | intros; reflexivity].
Qed.

(** The whole run of the task body on such a message. *)
Lemma run_task_with_callback_data S E request url msg w :
  callback_url request = Some url -> str_truthy url = true ->
  msg_callback_data msg = prepare_callback_data request ->
  run_task S E msg w =
  let w1 := mkWorld (fs w) (backend w) (queues w) (model_instances w)
              (Datatypes.S (clock_reads w)) (uuid_reads w) in
  match env_s3_connect E with
  | Some e => mkOutcome (Raise e) w1 []
  | None =>
      mkOutcome
        (Raise (mkExn TypeError
                  "send_callback() got an unexpected keyword argument 'callback_url'"))
        (set_backend
           (fun b => <[msg_id msg := mkMeta "STARTED" (VDict [("status", VStr "processing")])]> b)
           w1)
        [EvStore (msg_id msg) "STARTED" (VDict [("status", VStr "processing")])]
  end.
Proof.
  intros Hurl Ht Hcd.
  destruct (prepared_callback_data request url Hurl Ht) as [Htruthy Hbind].
  unfold run_task, remove_background.
  rewrite bind_time_time, bind_S3Client_init. cbv zeta.
  destruct (env_s3_connect E); [reflexivity|].
  rewrite bind_update_state. cbv zeta.
  rewrite Hcd.
  rewrite (bind_notify_raise _ _ _ _ _ _ _ Htruthy (Hbind _ _)).
  reflexivity.
Qed.

(** C10. For every job whose request carries a callback URL, the task body
    raises at its first notification: the keywords [callback_url],
    [callback_auth], [custom_data] are not parameters of [send_callback], so
    the call is a [TypeError]. This happens before the model is run and
    before the [try]/[finally] block is entered: no file is removed, and
    the job ends failed. *)
Theorem callback_job_fails_before_cleanup S E request url msg w :
  callback_url request = Some url -> str_truthy url = true ->
  msg_callback_data msg = prepare_callback_data request ->
  fails_before_cleanup S E msg w.
Proof.
  intros Hurl Ht Hcd. unfold fails_before_cleanup. cbv zeta.
  pose proof (trace_task_backend S E msg w) as Hb.
  assert (Hfs : fs (world (trace_task S E msg w)) = fs w).
  { unfold trace_task. rewrite build_tracer_run. cbv zeta. cbn [world set_backend fs].
    rewrite (run_task_with_callback_data S E request url msg _ Hurl Ht Hcd). cbv zeta.
    destruct (env_s3_connect E); reflexivity. }
  unfold final_status.
  rewrite !(run_task_with_callback_data S E request url msg _ Hurl Ht Hcd) in *.
  cbv zeta in *.
  destruct (env_s3_connect E) as [e|]; cbn [res world events fs set_backend final_meta] in *.
  - split; [exists e; split; [reflexivity | discriminate]|].
    split; [constructor|]. split; [reflexivity|]. split; [exact Hfs|].
    rewrite (get_task_status_failure _ _ _ Hb). eexists. split; reflexivity.
  - split; [eexists; split; [reflexivity | reflexivity]|].
    split; [repeat constructor|]. split; [reflexivity|]. split; [exact Hfs|].
    rewrite (get_task_status_failure _ _ _ Hb). eexists. split; reflexivity.
Qed.

Lemma callback_job_fails_before_cleanup_witness :
  fails_before_cleanup local_settings (sample_env 100 500 true)
    (sample_message
       (prepare_callback_data (mkRequest (Some "http://client.example/hook") None None)))
    (world (submitted (sample_env 100 500 true) with_callback)).
Proof.
  apply (callback_job_fails_before_cleanup local_settings (sample_env 100 500 true)
           (mkRequest (Some "http://client.example/hook") None None)
           "http://client.example/hook"); reflexivity.
Defined.

(** *** The cleanup step on the paths that reach it *)

Lemma cleanup_removes E p w :
  env_remove_error E p = None -> p ∉ fs (world (cleanup E p w)).
Proof.
  intros Hrm. unfold cleanup, try_except, bind, os_path_exists, ret. cbn.
  destruct (bool_decide (p ∈ fs w)) eqn:Hin; cbn.
  - unfold os_remove. rewrite Hin, Hrm. cbn.
    intros Hp. apply elem_of_difference in Hp as [_ Hp]. apply Hp, elem_of_singleton. reflexivity.
  - apply bool_decide_eq_false_1 in Hin. exact Hin.
Qed.

Lemma try_finally_cleanup_removes {A} (body : M A) E p w :
  env_remove_error E p = None ->
  p ∉ fs (world (try_finally body (cleanup E p) w)).
Proof. intros Hrm. unfold try_finally. cbn [world]. apply cleanup_removes, Hrm. Qed.

(** X20. Without callback data, with an S3 client that can be built and an
    operating system that lets the file go, the input file is gone when the
    task body ends, however it ends. *)
Lemma cleanup_runs_without_callback_data S E msg w :
  callback_data_truthy (msg_callback_data msg) = false ->
  env_s3_connect E = None ->
  env_remove_error E (msg_image_path msg) = None ->
  msg_image_path msg ∉ fs (world (run_task S E msg w)).
Proof.
  intros Hcd Hs3 Hrm. unfold run_task, remove_background.
  rewrite bind_time_time, bind_S3Client_init, Hs3, bind_update_state. cbv zeta.
  cbn [world]. rewrite (bind_notify_skip _ _ _ _ _ _ Hcd).
  apply try_finally_cleanup_removes, Hrm.
Qed.

(** C3, at the failing input: a job submitted with a callback URL ends
    failed, and its temporary input file is still on disk; the same job
    without callback URL leaves no input file behind. *)
Theorem input_file_left_behind_by_callback_job :
  let E := sample_env 100 200 true in
  let input := "/tmp/rmbg-uploads/upload_100_01234567.jpg" in
  input ∈ fs (world (submitted E with_callback)) /\
  (exists resp, polled E with_callback "gpu" = Ok resp /\ r_status resp = FAILED) /\
  input ∈ fs (world (served E with_callback "gpu")) /\
  input ∉ fs (world (served E None "gpu")).
Proof.
  cbv zeta. split; [|split; [|split]].
  - refine (bool_decide_eq_true_1 _ _). vm_compute. reflexivity.
  - eexists. split; vm_compute; reflexivity.
  - refine (bool_decide_eq_true_1 _ _). vm_compute. reflexivity.
  - refine (bool_decide_eq_false_1 _ _). vm_compute. reflexivity.
Qed.

(** C2, at the failing input: with a callback endpoint that answers 500 and
    a model that succeeds, the job submitted with that callback URL ends
    failed with no result URL (the error is the [TypeError] of the call,
    no request reaches the endpoint); the same job without callback URL
    completes with its result URL. *)
Theorem callback_job_does_not_complete :
  let E := sample_env 100 500 true in
  polled E with_callback "gpu" =
    Ok (mkStatusResponse "0123456789abcdef1" FAILED VNone
          (VStr "send_callback() got an unexpected keyword argument 'callback_url'")
          VNone VNone VNone) /\
  List.filter is_post (events (served E with_callback "gpu")) = [] /\
  polled E None "gpu" =
    Ok (mkStatusResponse "0123456789abcdef1" COMPLETED
          (VStr "file:///tmp/rmbg-results/cat_nobg_106_01234567.png")
          VNone (VFloat (inject_Z 8)) (VFloat (inject_Z 2)) (VFloat (inject_Z 2))).
Proof.
  cbv zeta. split; [vm_compute; reflexivity|]. split; vm_compute; reflexivity.
Qed.

(** ** C4: the callback configuration does not reach the job record *)

Section AgreeRules.
Context {A B : Type}.

Lemma agree_refl (m : M A) : agree m m.
Proof. intros w. split; reflexivity. Qed.

Lemma agree_bind (m1 m2 : M A) (k1 k2 : A -> M B) :
  agree m1 m2 -> (forall a, agree (k1 a) (k2 a)) -> agree (bind m1 k1) (bind m2 k2).
Proof.
  intros Hm Hk w. unfold bind. destruct (Hm w) as [Hr Hw]. rewrite <- Hr, <- Hw.
  destruct (res (m1 w)) as [a|e]; cbn [res world]; [apply Hk | split; reflexivity].
Qed.

Lemma agree_try_except (b1 b2 : M A) catches (h1 h2 : Exn -> M A) :
  agree b1 b2 -> (forall e, agree (h1 e) (h2 e)) ->
  agree (try_except b1 catches h1) (try_except b2 catches h2).
Proof.
  intros Hb Hh w. unfold try_except. destruct (Hb w) as [Hr Hw]. rewrite <- Hr, <- Hw.
  destruct (res (b1 w)) as [a|e] eqn:Hres.
  - rewrite Hres. auto.
  - destruct (catches e); cbn [res world]; [apply Hh | rewrite Hres; auto].
Qed.

Lemma agree_try_finally (b1 b2 : M A) (final : M unit) :
  agree b1 b2 -> agree (try_finally b1 final) (try_finally b2 final).
Proof.
  intros Hb w. unfold try_finally. destruct (Hb w) as [Hr Hw]. rewrite <- Hr, <- Hw.
  split; reflexivity.
Qed.

End AgreeRules.

(** The result of a notification is decided by the binding of its keywords,
    whatever the client is configured to do. *)
Lemma notify_res_eq E c cd kw w :
  res (notify E c cd kw w) =
  if callback_data_truthy cd then
    match bind_call send_callback_sig (kw ++ unpack cd) with
    | inl e => Raise e
    | inr _ => Ok tt
    end
  else Ok tt.
Proof.
  unfold notify, when. destruct (callback_data_truthy cd); [|reflexivity].
  unfold bind, send_callback.
  destruct (bind_call send_callback_sig (kw ++ unpack cd)) as [e|args]; [reflexivity|].
  destruct (send_callback_body_returns E c (arg args "task_id") (arg args "status")
              (arg args "result_url") (arg args "error") w) as [b ->].
  reflexivity.
Qed.

Lemma notify_agree E c1 c2 cd kw : agree (notify E c1 cd kw) (notify E c2 cd kw).
Proof. intros w. rewrite !notify_res_eq, !notify_world. split; reflexivity. Qed.

Ltac agree_step :=
  match goal with
  | |- agree (notify _ _ _ _) (notify _ _ _ _) => apply notify_agree
  | |- agree ?m ?m => apply agree_refl
  | |- agree (bind _ _) (bind _ _) => apply agree_bind; [|intros ?]
  | |- agree (try_except _ _ _) (try_except _ _ _) => apply agree_try_except; [|intros ?]
  | |- agree (try_finally _ _) (try_finally _ _) => apply agree_try_finally
  | |- agree (if ?b then _ else _) (if ?b then _ else _) => destruct b
  end.

Lemma process_agree S E tid ip ofn cd st qt s3 c1 c2 :
  agree (process S E tid ip ofn cd st qt s3 c1) (process S E tid ip ofn cd st qt s3 c2).
Proof. unfold process. repeat agree_step. Qed.

Lemma on_error_agree E tid cd st qt c1 c2 e :
  agree (on_error E tid cd st qt c1 e) (on_error E tid cd st qt c2 e).
Proof. unfold on_error. repeat agree_step. Qed.

(** Only the callback client reads the callback settings. *)
Lemma process_callbacks_disabled S E tid ip ofn cd st qt s3 cb :
  process (callbacks_disabled S) E tid ip ofn cd st qt s3 cb =
  process S E tid ip ofn cd st qt s3 cb.
Proof. reflexivity. Qed.

Lemma S3Client_init_callbacks_disabled S E :
  S3Client_init (callbacks_disabled S) E = S3Client_init S E.
Proof. reflexivity. Qed.

Lemma run_task_agree S E msg :
  agree (run_task (callbacks_disabled S) E msg) (run_task S E msg).
Proof.
  unfold run_task, remove_background.
  rewrite S3Client_init_callbacks_disabled.
  apply agree_bind; [apply agree_refl | intros start_time].
  apply agree_bind; [apply agree_refl | intros s3].
  apply agree_bind; [apply agree_refl | intros ?].
  apply agree_bind; [apply notify_agree | intros ?].
  apply agree_try_finally, agree_try_except.
  - rewrite process_callbacks_disabled. apply process_agree.
  - intros e. apply on_error_agree.
Qed.

Lemma build_tracer_agree task_id (m1 m2 : M Val) :
  agree m1 m2 -> agree (build_tracer task_id m1) (build_tracer task_id m2).
Proof.
  intros H w. rewrite !build_tracer_run. cbv zeta. cbn [res world].
  destruct (H (set_backend (fun b => <[task_id := started_meta]> b) w)) as [-> ->].
  split; reflexivity.
Qed.

(** X27. The callback settings of the deployment ([CALLBACK_ENABLED],
    [CALLBACK_URL], [CALLBACK_AUTH_TOKEN]) never reach a job: for any
    message and any world, running the worker with them switched off
    leaves the same world, hence the same record of the job, as running it
    with the settings as they are. *)
Theorem callback_settings_do_not_reach_the_record S E msg w :
  world (trace_task (callbacks_disabled S) E msg w) = world (trace_task S E msg w) /\
  job_record (callbacks_disabled S) E msg w = job_record S E msg w.
Proof.
  pose proof (build_tracer_agree (msg_id msg) _ _ (run_task_agree S E msg) w) as [_ Hw].
  unfold job_record, trace_task. rewrite Hw. split; reflexivity.
Qed.

(** C4, at the failing input: the same upload submitted twice to the same
    deployment, once with a callback URL in the request and once without
    any callback. With the callback the record of the job is a failure
    (the [TypeError] of the first notification) and holds no timing; without
    it the record is a success with [processing_time] 8, [model_time] 2 and
    [queue_time] 2. Switching the deployment's callback settings off as
    well changes neither record. *)
Theorem job_callback_changes_the_outcome :
  let E := sample_env 100 200 true in
  let id := "0123456789abcdef1" in
  let failure :=
    mkMeta "FAILURE"
      (VExc (mkExn TypeError
               "send_callback() got an unexpected keyword argument 'callback_url'")) in
  let success :=
    mkMeta "SUCCESS"
      (VDict [("status", VStr "completed");
              ("result_url", VStr "file:///tmp/rmbg-results/cat_nobg_106_01234567.png");
              ("original_filename", VStr "cat.jpg");
              ("output_filename", VStr "cat_nobg_106_01234567.png");
              ("processing_time", VFloat (inject_Z 8));
              ("model_time", VFloat (inject_Z 2));
              ("queue_time", VFloat (inject_Z 2))]) in
  msg_image_path (sample_message (prepare_callback_data
                                    (mkRequest (Some "http://client.example/hook") None None)))
    = msg_image_path (sample_message None) /\
  backend (world (served E with_callback "gpu")) !! id = Some failure /\
  backend (world (served E None "gpu")) !! id = Some success /\
  observed_status id (world (served E with_callback "gpu")) = FAILED /\
  observed_status id (world (served E None "gpu")) = COMPLETED /\
  job_record (callbacks_disabled local_settings) E
    (sample_message (prepare_callback_data
                       (mkRequest (Some "http://client.example/hook") None None)))
    (world (submitted E with_callback)) = Some failure /\
  job_record (callbacks_disabled local_settings) E (sample_message None)
    (world (submitted E None)) = Some success.
Proof.
  cbv zeta. split; [reflexivity|].
  split; [vm_compute; reflexivity|]. split; [vm_compute; reflexivity|].
  split; [vm_compute; reflexivity|]. split; [vm_compute; reflexivity|].
  split; vm_compute; reflexivity.
Qed.

(** ** C5: the status of an id the backend has no record of *)

(** X6. A 404 needs an empty state string in the backend; Celery's states are
    not empty. *)
Lemma get_task_status_404 task_id w :
  http_status 200 (get_task_status task_id w) = 404%Z <->
  meta_status (AsyncResult task_id w) = "".
Proof.
  unfold get_task_status, try_except, bind, get_world, http_status. cbn.
  destruct (meta_status (AsyncResult task_id w)) as [|a s]; cbn; [split; reflexivity|].
  split; [|discriminate].
  destruct (bool_decide (status_of_state (String a s) = FAILED));
    [destruct (truthy (meta_result (AsyncResult task_id w)))|]; cbn; discriminate.
Qed.

(** C5, as the code has it: for an id the result backend holds no record
    of (every id that was never submitted is one), the status endpoint
    answers 200 with status pending and no other field, not 404. *)
Theorem unknown_job_reported_pending task_id w :
  backend w !! task_id = None ->
  res (get_task_status task_id w) = Ok (blank_response task_id PENDING) /\
  http_status 200 (get_task_status task_id w) = 200%Z /\
  http_status 200 (get_task_status task_id w) <> 404%Z.
Proof.
  intros H. rewrite (get_task_status_unknown _ _ H).
  split; [reflexivity|]. split; [reflexivity | discriminate].
Qed.

Lemma unknown_job_reported_pending_witness :
  res (get_task_status "no-such-task" empty_world) = Ok (blank_response "no-such-task" PENDING) /\
  http_status 200 (get_task_status "no-such-task" empty_world) = 200%Z /\
  http_status 200 (get_task_status "no-such-task" empty_world) <> 404%Z.
Proof. apply (unknown_job_reported_pending "no-such-task" empty_world). reflexivity. Defined.

(** ** C6: what a status query tells of a failed job *)

(** C6, as the code has it: when the task body ends in an exception [e],
    the tracer stores [e] under [FAILURE] over whatever the body wrote, so
    the status query answers failed with [str(e)] as error, and neither
    [processing_time] nor [model_time] nor [queue_time]. *)
Theorem failed_job_reports_no_timings S E msg w e :
  body_result S E msg w = Raise e ->
  exists resp,
    final_status S E msg w = Ok resp /\
    r_status resp = FAILED /\
    r_error resp = VStr (str_exn e) /\
    r_processing_time resp = VNone /\
    r_model_time resp = VNone /\
    r_queue_time resp = VNone.
Proof.
  intros Hr. pose proof (trace_task_backend S E msg w) as Hb.
  unfold body_result in Hr. rewrite Hr in Hb. cbn [final_meta] in Hb.
  unfold final_status. rewrite (get_task_status_failure _ _ _ Hb).
  eexists. repeat split; reflexivity.
Qed.

Lemma failed_job_reports_no_timings_witness :
  exists resp,
    final_status local_settings (sample_env 100 200 false) (sample_message None)
      (world (submitted (sample_env 100 200 false) None)) = Ok resp /\
    r_status resp = FAILED /\
    r_error resp = VStr "Failed to process image with model" /\
    r_processing_time resp = VNone /\
    r_model_time resp = VNone /\
    r_queue_time resp = VNone.
Proof.
  apply (failed_job_reports_no_timings local_settings (sample_env 100 200 false)
           (sample_message None) (world (submitted (sample_env 100 200 false) None))
           (mkExn Exception "Failed to process image with model")).
  vm_compute. reflexivity.
Defined.

(** The same run, event by event: the body does write the timings under
    [FAILURE], and the tracer's record replaces them. *)
Example failed_job_records :
  stored_states (events (served (sample_env 100 200 false) None "gpu")) =
    ["STARTED"; "STARTED"; "FAILURE"; "FAILURE"] /\
  List.filter (fun ev => match ev with EvStore _ "FAILURE" _ => true | _ => false end)
    (events (served (sample_env 100 200 false) None "gpu")) =
    [EvStore "0123456789abcdef1" "FAILURE"
       (VDict [("status", VStr "failed");
               ("error", VStr "Error in background removal task: Failed to process image with model");
               ("processing_time", VFloat (inject_Z 8));
               ("queue_time", VFloat (inject_Z 2))]);
     EvStore "0123456789abcdef1" "FAILURE"
       (VExc (mkExn Exception "Failed to process image with model"))].
Proof. split; vm_compute; reflexivity. Qed.

(** ** C7: the recorded queue time *)

Lemma round_half_even_close x :
  (x - (1 # 2) <= inject_Z (round_half_even x) <= x + (1 # 2))%Q.
Proof.
  unfold round_half_even.
  pose proof (Qfloor_le x) as Hlo. pose proof (Qlt_floor x) as Hhi.
  rewrite inject_Z_plus in Hhi. change (inject_Z 1) with 1%Q in Hhi.
  destruct (Qcompare_spec (x - inject_Z (Qfloor x)) (1 # 2)) as [He|Hl|Hg].
  - destruct (Z.even (Qfloor x)); rewrite ?inject_Z_plus; change (inject_Z 1) with 1%Q; lra.
  - lra.
  - rewrite inject_Z_plus. change (inject_Z 1) with 1%Q. lra.
Qed.

Lemma round_half_even_nonneg x : (0 <= x)%Q -> (0 <= round_half_even x)%Z.
Proof.
  intros Hx. unfold round_half_even.
  assert (0 <= Qfloor x)%Z as Hf.
  { change 0%Z with (Qfloor (inject_Z 0)). apply Qfloor_resp_le. exact Hx. }
  destruct (x - inject_Z (Qfloor x) ?= 1 # 2)%Q; [destruct (Z.even _)| |]; lia.
Qed.

Lemma round3_eq x : (round3 x == inject_Z (round_half_even (x * 1000)) / 1000)%Q.
Proof. unfold round3. apply Qred_correct. Qed.

Lemma round3_close x : (x - (1 # 2000) <= round3 x <= x + (1 # 2000))%Q.
Proof.
  rewrite round3_eq. pose proof (round_half_even_close (x * 1000)) as H.
  split.
  - apply Qle_shift_div_l; [reflexivity|]. lra.
  - apply Qle_shift_div_r; [reflexivity|]. lra.
Qed.

Lemma round3_nonneg x : (0 <= x)%Q -> (0 <= round3 x)%Q.
Proof.
  intros Hx. rewrite round3_eq. apply Qle_shift_div_l; [reflexivity|].
  rewrite Qmult_0_l. change 0%Q with (inject_Z 0). rewrite <- Zle_Qle.
  apply round_half_even_nonneg. lra.
Qed.

Section ReturnsRules.
Context {A B : Type}.
Variable P : B -> Prop.

Lemma returns_ret (b : B) : P b -> returns P (ret b).
Proof. intros H w b' Hr. injection Hr as <-. exact H. Qed.

Lemma returns_raise (e : Exn) : returns P (raise (A:=B) e).
Proof. intros w b Hr. discriminate Hr. Qed.

Lemma returns_bind (m : M A) (k : A -> M B) :
  (forall a, returns P (k a)) -> returns P (bind m k).
Proof.
  intros Hk w b. unfold bind. destruct (res (m w)) as [a|e]; cbn [res]; [apply Hk | discriminate].
Qed.

Lemma returns_try_except (body : M B) catches handler :
  returns P body -> (forall e, returns P (handler e)) ->
  returns P (try_except body catches handler).
Proof.
  intros Hb Hh w b. unfold try_except.
  destruct (res (body w)) as [a|e] eqn:Hr; [rewrite Hr; intros [= <-]; exact (Hb _ _ Hr)|].
  destruct (catches e); cbn [res]; [apply Hh | rewrite Hr; discriminate].
Qed.

Lemma returns_try_finally (body : M B) final :
  returns P body -> returns P (try_finally body final).
Proof.
  intros Hb w b. unfold try_finally. cbn [res].
  destruct (res (final (world (body w)))); [apply Hb | discriminate].
Qed.

End ReturnsRules.

Lemma on_error_never_returns {P : Val -> Prop} E tid cd st qt cb e :
  returns P (on_error E tid cd st qt cb e).
Proof.
  intros w v Hr. destruct (on_error_log E tid cd st qt cb e w) as [[e' He'] _].
  rewrite Hr in He'. discriminate He'.
Qed.

Ltac returns_step :=
  match goal with
  | |- returns _ (bind _ _) => apply returns_bind; intros ?
  | |- returns _ (raise _) => apply returns_raise
  | |- returns _ (if ?b then _ else _) => destruct b
  end.

Lemma process_returns S E tid ip ofn cd st qt s3 cb :
  returns (completed_result qt) (process S E tid ip ofn cd st qt s3 cb).
Proof.
  unfold process. repeat returns_step.
  apply returns_ret. unfold completed_result. eauto 10.
Qed.

(** What the task body returns carries the queue time computed from the
    first clock reading of the body and the creation time of the message. *)
Lemma run_task_returns S E msg w v :
  res (run_task S E msg w) = Ok v ->
  completed_result (compute_queue_time (env_time E (clock_reads w)) (msg_creation_time msg)) v.
Proof.
  unfold run_task, remove_background.
  rewrite bind_time_time, bind_S3Client_init.
  destruct (env_s3_connect E); [discriminate|].
  rewrite bind_update_state. cbv zeta. cbn [res].
  apply returns_bind. intros _.
  apply returns_try_finally, returns_try_except.
  - apply process_returns.
  - intros e. apply on_error_never_returns.
Qed.

(** C7, as amended: for a job that completes and whose message carries the
    submission time stamp [c], the [queue_time] in the record the worker
    leaves is [round(start - c, 3)], where [start] is the first clock
    reading of the task; it is within half a millisecond of [start - c];
    and it is not negative provided the worker's clock at [start] is not
    behind [c]. *)
Theorem queue_time_of_completed_job S E msg w c v :
  msg_creation_time msg = Some c ->
  body_result S E msg w = Ok v ->
  let start := env_time E (clock_reads w) in
  (exists d,
     job_record S E msg w = Some (mkMeta "SUCCESS" (VDict d)) /\
     float_field d "queue_time" = Some (round3 (start - c))) /\
  (start - c - (1 # 2000) <= round3 (start - c) <= start - c + (1 # 2000))%Q /\
  ((c <= start)%Q -> (0 <= round3 (start - c))%Q).
Proof.
  intros Hc Hr. cbv zeta. split; [|split].
  - pose proof (trace_task_backend S E msg w) as Hb.
    unfold body_result in Hr. rewrite Hr in Hb. cbn [final_meta] in Hb.
    apply run_task_returns in Hr. rewrite Hc in Hr. cbn [compute_queue_time set_backend clock_reads] in Hr.
    destruct Hr as (url & ofn & outfn & pt & mt & ->).
    eexists. split; [exact Hb | reflexivity].
  - apply round3_close.
  - intros Hle. apply round3_nonneg. lra.
Qed.

Lemma queue_time_of_completed_job_witness :
  (exists d,
     job_record local_settings (sample_env 100 200 true) (sample_message None)
       (world (submitted (sample_env 100 200 true) None))
       = Some (mkMeta "SUCCESS" (VDict d)) /\
     float_field d "queue_time" = Some (round3 (inject_Z 104 - inject_Z 102))) /\
  (inject_Z 104 - inject_Z 102 - (1 # 2000) <= round3 (inject_Z 104 - inject_Z 102)
     <= inject_Z 104 - inject_Z 102 + (1 # 2000))%Q /\
  ((inject_Z 102 <= inject_Z 104)%Q -> (0 <= round3 (inject_Z 104 - inject_Z 102))%Q).
Proof.
  refine (queue_time_of_completed_job local_settings (sample_env 100 200 true)
            (sample_message None) (world (submitted (sample_env 100 200 true) None))
            (inject_Z 102) _ eq_refl _).
  vm_compute. reflexivity.
Defined.

(** C7 as stated fails: a worker whose clock is behind the submitting
    process. The message was stamped 102 at submission; the worker reads 5
    when it starts; the job completes and its record holds a queue time of
    -97. *)
Lemma queue_time_negative_under_clock_skew :
  exists d q,
    msg_creation_time (sample_message None) = Some (inject_Z 102) /\
    env_time (sample_env 1 200 true)
      (clock_reads (world (submitted (sample_env 100 200 true) None))) = inject_Z 5 /\
    job_record local_settings (sample_env 1 200 true) (sample_message None)
      (world (submitted (sample_env 100 200 true) None))
      = Some (mkMeta "SUCCESS" (VDict d)) /\
    float_field d "queue_time" = Some q /\
    ~ (0 <= q)%Q.
Proof.
  exists [("status", VStr "completed");
          ("result_url", VStr "file:///tmp/rmbg-results/cat_nobg_7_01234567.png");
          ("original_filename", VStr "cat.jpg");
          ("output_filename", VStr "cat_nobg_7_01234567.png");
          ("processing_time", VFloat (inject_Z 8));
          ("model_time", VFloat (inject_Z 2));
          ("queue_time", VFloat (-97 # 1))].
  exists (-97 # 1)%Q.
  split; [vm_compute; reflexivity|].
  split; [vm_compute; reflexivity|].
  split; [vm_compute; reflexivity|].
  split; [reflexivity|].
  intros H. apply H. reflexivity.
Qed.

(** ** C9: the contract of [send_callback] *)

Lemma str_truthy_false s : str_truthy s = false <-> s = "".
Proof. destruct s; cbn; split; congruence. Qed.

Lemma response_ok_spec code : response_ok code = true <-> ~ (400 <= code < 600)%Z.
Proof.
  unfold response_ok.
  destruct (Z.leb_spec 400 code), (Z.ltb_spec code 600); cbn; split; try lia; congruence.
Qed.

(** C9, as amended. A call of [send_callback] whose keywords bind leaves
    the world as it is. If callbacks are disabled or the deployment has no
    callback URL, it returns [False] and attempts no request. Otherwise it
    issues exactly one POST, to the configured URL with a timeout of 10
    seconds and no retry, always returns, and returns [True] exactly when a
    response arrives whose status is not in 400..599 (so for every 2xx, and
    also for 1xx and 3xx answers). *)
Theorem send_callback_contract E c kw args w :
  bind_call send_callback_sig kw = inr args ->
  world (send_callback E c kw w) = w /\
  ((cb_enabled c = false \/ cb_callback_url c = "") ->
     res (send_callback E c kw w) = Ok false /\ events (send_callback E c kw w) = []) /\
  (cb_enabled c = true -> cb_callback_url c <> "" ->
     (exists json headers,
        events (send_callback E c kw w) = [EvPost (cb_callback_url c) json headers 10]) /\
     (exists b, res (send_callback E c kw w) = Ok b) /\
     (res (send_callback E c kw w) = Ok true <->
      exists code, env_http E (cb_callback_url c) = HttpResponse code /\
                   ~ (400 <= code < 600)%Z)).
Proof.
  intros Hb. split; [apply send_callback_world|].
  unfold send_callback. rewrite Hb. unfold send_callback_body. split.
  - intros [Hen | Hurl].
    + rewrite Hen. split; reflexivity.
    + apply str_truthy_false in Hurl. rewrite Hurl, orb_true_r. split; reflexivity.
  - intros Hen Hurl.
    assert (str_truthy (cb_callback_url c) = true) as Ht.
    { destruct (str_truthy (cb_callback_url c)) eqn:Ht; [reflexivity|].
      apply str_truthy_false in Ht. contradiction. }
    rewrite Hen, Ht. cbn [negb orb].
    unfold try_except, requests_post, bind, emit, ret, raise. cbn.
    destruct (env_http E (cb_callback_url c)) as [code|msg]; cbn.
    + destruct (response_ok code) eqn:Hok; cbn.
      * split; [eauto|]. split; [eauto|]. split; [|reflexivity].
        intros _. exists code. split; [reflexivity|]. apply response_ok_spec, Hok.
      * split; [eauto|]. split; [eauto|]. split; [discriminate|].
        intros (code' & [= <-] & Hnot). apply response_ok_spec in Hnot. congruence.
    + split; [eauto|]. split; [eauto|]. split; [discriminate|].
      intros (code' & Habs & _). discriminate Habs.
Qed.

Lemma send_callback_contract_witness :
  let E := sample_env 100 204 true in
  let kw := first_notification echo_message in
  let off := CallbackClient_init local_settings in
  let on := CallbackClient_init notifying_settings in
  (world (send_callback E off kw empty_world) = empty_world /\
   ((cb_enabled off = false \/ cb_callback_url off = "") ->
      res (send_callback E off kw empty_world) = Ok false /\
      events (send_callback E off kw empty_world) = []) /\
   (cb_enabled off = true -> cb_callback_url off <> "" ->
      (exists json headers,
         events (send_callback E off kw empty_world) =
         [EvPost (cb_callback_url off) json headers 10]) /\
      (exists b, res (send_callback E off kw empty_world) = Ok b) /\
      (res (send_callback E off kw empty_world) = Ok true <->
       exists code, env_http E (cb_callback_url off) = HttpResponse code /\
                    ~ (400 <= code < 600)%Z))) /\
  (world (send_callback E on kw empty_world) = empty_world /\
   ((cb_enabled on = false \/ cb_callback_url on = "") ->
      res (send_callback E on kw empty_world) = Ok false /\
      events (send_callback E on kw empty_world) = []) /\
   (cb_enabled on = true -> cb_callback_url on <> "" ->
      (exists json headers,
         events (send_callback E on kw empty_world) =
         [EvPost (cb_callback_url on) json headers 10]) /\
      (exists b, res (send_callback E on kw empty_world) = Ok b) /\
      (res (send_callback E on kw empty_world) = Ok true <->
       exists code, env_http E (cb_callback_url on) = HttpResponse code /\
                    ~ (400 <= code < 600)%Z))).
Proof.
  cbv zeta. split.
  - apply (send_callback_contract (sample_env 100 204 true)
             (CallbackClient_init local_settings)
             (first_notification echo_message)
             [("task_id", VStr "0123456789abcdef1"); ("status", VStr "processing");
              ("error", VStr "echo"); ("result_url", VNone)]
             empty_world).
    reflexivity.
  - apply (send_callback_contract (sample_env 100 204 true)
             (CallbackClient_init notifying_settings)
             (first_notification echo_message)
             [("task_id", VStr "0123456789abcdef1"); ("status", VStr "processing");
              ("error", VStr "echo"); ("result_url", VNone)]
             empty_world).
    reflexivity.
Defined.

Example send_callback_delivered :
  let E := sample_env 100 204 true in
  let c := mkCallbackClient true "http://client.example/hook" "secret" in
  let kw := [("task_id", VStr "t"); ("status", VStr "completed")] in
  res (send_callback E c kw empty_world) = Ok true /\
  events (send_callback E c kw empty_world) =
    [EvPost "http://client.example/hook" kw
       [("Content-Type", "application/json"); ("Authorization", "Bearer secret")] 10].
Proof. cbv zeta. split; reflexivity. Qed.

Example send_callback_server_error :
  let E := sample_env 100 500 true in
  let c := mkCallbackClient true "http://client.example/hook" "" in
  let kw := [("task_id", VStr "t"); ("status", VStr "completed")] in
  res (send_callback E c kw empty_world) = Ok false /\
  length (events (send_callback E c kw empty_world)) = 1%nat.
Proof. cbv zeta. split; reflexivity. Qed.

(** C9 as stated fails: an endpoint that answers 304. The first
    notification of the task for a message whose callback data binds is
    sent (the run of the task makes exactly this one request), and the
    call returns [True] although the status is not 2xx. *)
Lemma send_callback_true_on_304 :
  let E := sample_env 100 304 true in
  let c := CallbackClient_init notifying_settings in
  let kw := first_notification echo_message in
  let post :=
    EvPost "http://client.example/hook"
      [("task_id", VStr "0123456789abcdef1"); ("status", VStr "processing");
       ("error", VStr "echo")]
      [("Content-Type", "application/json"); ("Authorization", "Bearer secret")] 10 in
  env_http E (cb_callback_url c) = HttpResponse 304 /\
  List.filter is_post
    (events (run_task notifying_settings E echo_message (world (submitted E None)))) = [post] /\
  events (send_callback E c kw (world (submitted E None))) = [post] /\
  res (send_callback E c kw (world (submitted E None))) = Ok true /\
  ~ (200 <= 304 < 300)%Z.
Proof.
  cbv zeta. split; [reflexivity|]. split; [vm_compute; reflexivity|].
  split; [vm_compute; reflexivity|]. split; [vm_compute; reflexivity | lia].
Qed.

(** ** C8: the worker pool *)

Import Pool.

Lemma start_worker_gpu c l i env :
  device_binding (fst (start_worker c l (Some i) env)) = Some (pretty i) /\
  consumed_queue (fst (start_worker c l (Some i) env)) = "gpu".
Proof.
  unfold device_binding, consumed_queue. cbn. split; [apply lookup_insert_eq|].
  reflexivity.
Qed.

Lemma start_worker_cpu c l env :
  environ (fst (start_worker c l None env)) = env /\
  consumed_queue (fst (start_worker c l None env)) = "celery".
Proof. split; reflexivity. Qed.

Lemma spawn_gpu_workers_spec c l indices env :
  device_binding <$> (fst (spawn_gpu_workers c l indices env)) =
    (fun i => Some (pretty i)) <$> indices /\
  Forall (fun p => consumed_queue p = "gpu") (fst (spawn_gpu_workers c l indices env)).
Proof.
  revert env. induction indices as [|i rest IH]; intros env; [split; constructor|].
  cbn [spawn_gpu_workers].
  destruct (start_worker c l (Some i) env) as [p env1] eqn:Hp.
  destruct (spawn_gpu_workers c l rest env1) as [ps env2] eqn:Hps.
  destruct (IH env1) as [IHd IHq]. rewrite Hps in IHd, IHq. cbn [fst] in *.
  destruct (start_worker_gpu c l i env) as [Hd Hq]. rewrite Hp in Hd, Hq. cbn [fst] in *.
  split.
  - rewrite !fmap_cons. rewrite Hd, IHd. reflexivity.
  - constructor; assumption.
Qed.

(** X13. With [d > 0] detected devices the pool starts [d] workers; worker [i]
    is bound to device [i], which is [i mod d], consumes the queue [gpu],
    and no two workers share a device. *)
Lemma start_all_gpu nvidia_smi c l env d :
  get_gpu_count nvidia_smi = d -> (0 < d)%nat ->
  length (start_all nvidia_smi c l env) = d /\
  (forall i, (i < d)%nat ->
     exists p, start_all nvidia_smi c l env !! i = Some p /\
               device_binding p = Some (pretty (i mod d)%nat) /\
               consumed_queue p = "gpu") /\
  NoDup (device_binding <$> start_all nvidia_smi c l env).
Proof.
  intros Hd Hpos. unfold start_all. rewrite Hd.
  destruct (Nat.ltb_spec 0 d) as [_|Hle]; [|lia].
  destruct (spawn_gpu_workers_spec c l (seq 0 d) env) as [Hdev Hq].
  set (ps := fst (spawn_gpu_workers c l (seq 0 d) env)) in *.
  assert (length ps = d) as Hlen.
  { rewrite <- (length_fmap device_binding), Hdev, length_fmap. apply length_seq. }
  split; [exact Hlen|]. split.
  - intros i Hi. destruct (lookup_lt_is_Some_2 ps i) as [p Hp]; [lia|].
    exists p. split; [exact Hp|]. split.
    + assert ((device_binding <$> ps) !! i = Some (device_binding p)) as Hdp
        by (rewrite list_lookup_fmap, Hp; reflexivity).
      rewrite Hdev, list_lookup_fmap, lookup_seq_lt in Hdp by exact Hi.
      cbn in Hdp. rewrite Nat.mod_small by exact Hi. congruence.
    + eapply Forall_lookup_1 in Hq; [exact Hq | exact Hp].
  - rewrite Hdev. apply NoDup_fmap_2; [|apply NoDup_seq].
    intros i j [= Hij]. exact (pretty_nat_inj _ _ Hij).
Qed.

Lemma create_task_queue S E file request_data :
  emits_only (fun ev => forall q id, ev = EvEnqueue q id -> q = "gpu")
    (create_task S E file request_data).
Proof.
  unfold create_task, save_upload_file, apply_async.
  repeat emits_step.
  all: apply emits_only_emit. all: intros q id' [= <- _]. all: reflexivity.
Qed.

(** C8, the case of no device, as the code has it: the pool starts one
    worker, with the environment of the pool unchanged (no device is bound
    by the pool) and no [-Q] option, so on Celery's default queue [celery];
    the queue the API publishes to is [gpu]. *)
Theorem cpu_worker_consumes_default_queue nvidia_smi c l env S E file request_data :
  get_gpu_count nvidia_smi = 0%nat ->
  (exists p, start_all nvidia_smi c l env = [p] /\
             environ p = env /\
             option_Q (argv p) = None /\
             consumed_queue p = "celery") /\
  emits_only (fun ev => forall q id, ev = EvEnqueue q id -> q = "gpu")
    (create_task S E file request_data).
Proof.
  intros Hd. split; [|apply create_task_queue].
  unfold start_all. rewrite Hd. cbn [Nat.ltb Nat.leb].
  eexists. split; [reflexivity|]. repeat split.
Qed.

Lemma cpu_worker_consumes_default_queue_witness :
  (exists p, start_all None 1 "info" ∅ = [p] /\
             environ p = ∅ /\
             option_Q (argv p) = None /\
             consumed_queue p = "celery") /\
  emits_only (fun ev => forall q id, ev = EvEnqueue q id -> q = "gpu")
    (create_task local_settings (sample_env 100 200 true) cat_upload None).
Proof.
  apply (cpu_worker_consumes_default_queue None 1 "info" ∅ local_settings
           (sample_env 100 200 true) cat_upload None).
  reflexivity.
Defined.

(** End to end without a device: the job is published to [gpu]; the only
    worker serves [celery], finds nothing there, and the job stays pending.
    With one device the worker serves [gpu] and the job completes. *)
Example cpu_worker_never_serves_the_job :
  let E := sample_env 100 200 true in
  (consumed_queue <$> start_all None 1 "info" ∅) = ["celery"] /\
  res (served E None "celery") = Ok false /\
  (r_status <$> match polled E None "celery" with Ok r => Some r | Raise _ => None end)
    = Some PENDING /\
  (consumed_queue <$> start_all (Some (mkCompleted 0 "GPU 0: Tesla T4")) 1 "info" ∅) = ["gpu"] /\
  res (served E None "gpu") = Ok true /\
  (r_status <$> match polled E None "gpu" with Ok r => Some r | Raise _ => None end)
    = Some COMPLETED.
Proof.
  cbv zeta.
  split; [vm_compute; reflexivity|]. split; [vm_compute; reflexivity|].
  split; [vm_compute; reflexivity|]. split; [vm_compute; reflexivity|].
  split; vm_compute; reflexivity.
Qed.

(** ** More of the API: [create_task] *)

(** The run of [create_task] on an acceptable upload. *)
Lemma create_task_run S E file request_data request w :
  validate_image_file file = true ->
  request_of request_data = Some request ->
  create_task S E file request_data w =
  let path := upload_path S E file w in
  let w1 := mkWorld (fs w ∪ {[path]}) (backend w) (queues w) (model_instances w)
              (Datatypes.S (Datatypes.S (clock_reads w))) (Datatypes.S (uuid_reads w)) in
  match env_broker_error E with
  | Some e =>
      mkOutcome (Raise (mkExn (HTTPException 500) ("Error creating task: " ++ str_exn e))) w1 []
  | None =>
      let id := env_uuid4 E (Datatypes.S (uuid_reads w)) in
      let msg := mkMessage id path (Some (filename file)) (prepare_callback_data request)
                   (Some (env_time E (Datatypes.S (clock_reads w)))) in
      mkOutcome (Ok (mkTaskResponse id PENDING))
        (mkWorld (fs w ∪ {[path]}) (backend w)
           (<["gpu" := (waiting "gpu" w ++ [msg])%list]> (queues w))
           (model_instances w)
           (Datatypes.S (Datatypes.S (clock_reads w))) (Datatypes.S (Datatypes.S (uuid_reads w))))
        [EvEnqueue "gpu" id]
  end.
Proof.
  intros Hv Hr. unfold create_task. rewrite Hv. cbn [negb].
  assert (match request_data with
          | None => ret (mkRequest None None None)
          | Some JSONDecodeError =>
              raise (mkExn (HTTPException 400) "Invalid JSON in request_data")
          | Some (InvalidRequest e) =>
              raise (mkExn (HTTPException 400) ("Error parsing request data: " ++ str_exn e))
          | Some (ValidRequest r) => ret r
          end = ret request) as ->.
  { destruct request_data as [[| |r]|]; cbn in Hr; congruence. }
  unfold bind at 1. cbn [ret res world events app].
  unfold try_except, save_upload_file, apply_async, upload_path, waiting.
  destruct (env_broker_error E) as [e|]; reflexivity.
Qed.

(** X1. A submission that is answered 400 has left no trace: nothing was
    written to disk, nothing was published, no clock or uuid was drawn. *)
Theorem rejected_submission_leaves_no_trace S E file request_data w :
  http_status 202 (create_task S E file request_data w) = 400%Z ->
  world (create_task S E file request_data w) = w /\
  events (create_task S E file request_data w) = [].
Proof.
  destruct (validate_image_file file) eqn:Hv.
  - destruct (request_of request_data) as [request|] eqn:Hr.
    + rewrite (create_task_run S E file request_data request w Hv Hr). cbv zeta.
      destruct (env_broker_error E); cbn; discriminate.
    + intros _. unfold create_task. rewrite Hv. cbn [negb].
      destruct request_data as [[| |r]|]; cbn in Hr; try discriminate; split; reflexivity.
  - intros _. unfold create_task. rewrite Hv. split; reflexivity.
Qed.

Lemma rejected_submission_leaves_no_trace_witness :
  world (create_task local_settings (sample_env 100 200 true)
           (mkUploadFile "notes.txt" "text/plain") None empty_world) = empty_world /\
  events (create_task local_settings (sample_env 100 200 true)
            (mkUploadFile "notes.txt" "text/plain") None empty_world) = [].
Proof.
  apply (rejected_submission_leaves_no_trace local_settings (sample_env 100 200 true)
           (mkUploadFile "notes.txt" "text/plain") None empty_world).
  reflexivity.
Defined.

(** X2. An accepted submission: the answer carries the id of the message that
    was published; the message goes to the back of the queue [gpu], behind
    the ones already waiting; it names the saved upload, which is on disk,
    and the time read after saving; the result backend is not written (the
    job is pending only in that no record exists). *)
Theorem accepted_submission S E file request_data request w :
  validate_image_file file = true ->
  request_of request_data = Some request ->
  env_broker_error E = None ->
  exists msg,
    res (create_task S E file request_data w) = Ok (mkTaskResponse (msg_id msg) PENDING) /\
    waiting "gpu" (world (create_task S E file request_data w)) = (waiting "gpu" w ++ [msg])%list /\
    msg_image_path msg = upload_path S E file w /\
    msg_image_path msg ∈ fs (world (create_task S E file request_data w)) /\
    msg_original_filename msg = Some (filename file) /\
    msg_callback_data msg = prepare_callback_data request /\
    msg_creation_time msg = Some (env_time E (Datatypes.S (clock_reads w))) /\
    backend (world (create_task S E file request_data w)) = backend w.
Proof.
  intros Hv Hr Hb. rewrite (create_task_run S E file request_data request w Hv Hr).
  cbv zeta. rewrite Hb.
  exists (mkMessage (env_uuid4 E (Datatypes.S (uuid_reads w))) (upload_path S E file w)
            (Some (filename file)) (prepare_callback_data request)
            (Some (env_time E (Datatypes.S (clock_reads w))))).
  split; [reflexivity|].
  split. { unfold waiting at 1. cbn [world queues]. rewrite lookup_insert_eq. reflexivity. }
  cbn [msg_image_path msg_original_filename msg_callback_data msg_creation_time world fs backend].
  split; [reflexivity|]. split; [apply elem_of_union_r, elem_of_singleton; reflexivity|].
  repeat split.
Qed.

Lemma accepted_submission_witness :
  exists msg,
    res (create_task local_settings (sample_env 100 200 true) cat_upload None empty_world)
      = Ok (mkTaskResponse (msg_id msg) PENDING) /\
    waiting "gpu" (world (create_task local_settings (sample_env 100 200 true) cat_upload None
                            empty_world))
      = (waiting "gpu" empty_world ++ [msg])%list /\
    msg_image_path msg = upload_path local_settings (sample_env 100 200 true) cat_upload empty_world /\
    msg_image_path msg ∈ fs (world (create_task local_settings (sample_env 100 200 true)
                                      cat_upload None empty_world)) /\
    msg_original_filename msg = Some (filename cat_upload) /\
    msg_callback_data msg = prepare_callback_data (mkRequest None None None) /\
    msg_creation_time msg = Some (env_time (sample_env 100 200 true) 1) /\
    backend (world (create_task local_settings (sample_env 100 200 true) cat_upload None
                      empty_world)) = backend empty_world.
Proof.
  apply (accepted_submission local_settings (sample_env 100 200 true) cat_upload None
           (mkRequest None None None) empty_world); reflexivity.
Defined.

(** X3. A broker that cannot be reached: the answer is 500, nothing is
    published, and the upload that was saved first stays on disk. *)
Theorem broker_failure_leaves_upload S E file request_data request e w :
  validate_image_file file = true ->
  request_of request_data = Some request ->
  env_broker_error E = Some e ->
  http_status 202 (create_task S E file request_data w) = 500%Z /\
  queues (world (create_task S E file request_data w)) = queues w /\
  events (create_task S E file request_data w) = [] /\
  upload_path S E file w ∈ fs (world (create_task S E file request_data w)).
Proof.
  intros Hv Hr Hb. rewrite (create_task_run S E file request_data request w Hv Hr).
  cbv zeta. rewrite Hb. cbn. repeat split.
  apply elem_of_union_r, elem_of_singleton. reflexivity.
Qed.

Lemma broker_failure_leaves_upload_witness :
  let E := mkEnv (fun n => inject_Z (Z.of_nat n)) (fun n => pretty n)
             (fun _ => HttpResponse 200) None (fun _ => None) (fun s => s) None
             (fun _ => true) false 0
             (Some (mkExn OSError "Error 111 connecting to localhost:6379"))
             (fun _ => None) (fun _ => true) in
  http_status 202 (create_task local_settings E cat_upload None empty_world) = 500%Z /\
  queues (world (create_task local_settings E cat_upload None empty_world)) = queues empty_world /\
  events (create_task local_settings E cat_upload None empty_world) = [] /\
  upload_path local_settings E cat_upload empty_world
    ∈ fs (world (create_task local_settings E cat_upload None empty_world)).
Proof.
  cbv zeta.
  apply (broker_failure_leaves_upload local_settings _ cat_upload None
           (mkRequest None None None)
           (mkExn OSError "Error 111 connecting to localhost:6379") empty_world);
    reflexivity.
Defined.

(** ** More of the API: [get_task_status], [health_check] *)

Lemma copy_field_fields d k set r :
  (forall v r', r_task_id (set v r') = r_task_id r' /\ r_status (set v r') = r_status r') ->
  r_task_id (copy_field d k set r) = r_task_id r /\
  r_status (copy_field d k set r) = r_status r.
Proof. intros H. unfold copy_field. destruct (dict_get d k); [apply H | split; reflexivity]. Qed.

(** X4. Whatever the backend holds, a status response echoes the id that was
    asked for; while the job is pending or processing it carries no other
    field; a completed job never carries an error, and a failed job never a
    result URL. *)
Theorem status_response_fields task_id w resp :
  res (get_task_status task_id w) = Ok resp ->
  r_task_id resp = task_id /\
  (r_status resp = PENDING \/ r_status resp = PROCESSING ->
     resp = blank_response task_id (r_status resp)) /\
  (r_status resp = COMPLETED -> r_error resp = VNone) /\
  (r_status resp = FAILED -> r_result_url resp = VNone).
Proof.
  unfold get_task_status, try_except, bind, get_world. cbn.
  destruct (str_truthy (meta_status (AsyncResult task_id w))); cbn; [|discriminate].
  set (result := meta_result (AsyncResult task_id w)).
  destruct (status_of_state (meta_status (AsyncResult task_id w))); cbn;
    try (destruct (truthy result); cbn; [destruct result; cbn|]);
    intros [= <-]; unfold copy_field;
    repeat match goal with |- context [dict_get ?d' ?k] => destruct (dict_get d' k) end;
    cbn; (split; [reflexivity|]); (split; [|split]); intros H;
    try reflexivity; try discriminate H; destruct H as [H|H]; discriminate H.
Qed.

Lemma status_response_fields_witness :
  let url := "https://rmbg-results.s3.us-east-1.amazonaws.com/results/cat_nobg_106_01234567.png" in
  let done := mkStatusResponse "job-1" COMPLETED (VStr url) VNone
                (VFloat (inject_Z 8)) (VFloat (inject_Z 2)) (VFloat (inject_Z 2)) in
  let lost := mkStatusResponse "job-2" FAILED VNone
                (VStr "Failed to process image with model") VNone VNone VNone in
  let busy := mkStatusResponse "job-3" PROCESSING VNone VNone VNone VNone VNone in
  (r_task_id done = "job-1" /\
   (r_status done = PENDING \/ r_status done = PROCESSING ->
      done = blank_response "job-1" (r_status done)) /\
   (r_status done = COMPLETED -> r_error done = VNone) /\
   (r_status done = FAILED -> r_result_url done = VNone)) /\
  (r_task_id lost = "job-2" /\
   (r_status lost = PENDING \/ r_status lost = PROCESSING ->
      lost = blank_response "job-2" (r_status lost)) /\
   (r_status lost = COMPLETED -> r_error lost = VNone) /\
   (r_status lost = FAILED -> r_result_url lost = VNone)) /\
  (r_task_id busy = "job-3" /\
   (r_status busy = PENDING \/ r_status busy = PROCESSING ->
      busy = blank_response "job-3" (r_status busy)) /\
   (r_status busy = COMPLETED -> r_error busy = VNone) /\
   (r_status busy = FAILED -> r_result_url busy = VNone)).
Proof.
  cbv zeta. split; [|split].
  - apply (status_response_fields "job-1"
             (set_backend
                (fun b =>
                   <["job-1" :=
                       mkMeta "SUCCESS"
                         (VDict
                            [("status", VStr "completed");
                             ("result_url",
                              VStr "https://rmbg-results.s3.us-east-1.amazonaws.com/results/cat_nobg_106_01234567.png");
                             ("processing_time", VFloat (inject_Z 8));
                             ("model_time", VFloat (inject_Z 2));
                             ("queue_time", VFloat (inject_Z 2))])]> b)
                empty_world)).
    reflexivity.
  - apply (status_response_fields "job-2"
             (set_backend
                (fun b =>
                   <["job-2" :=
                       mkMeta "FAILURE"
                         (VExc (mkExn Exception "Failed to process image with model"))]> b)
                empty_world)).
    reflexivity.
  - apply (status_response_fields "job-3"
             (set_backend
                (fun b =>
                   <["job-3" :=
                       mkMeta "STARTED"
                         (VDict [("status", VStr "processing");
                                 ("processing_time", VFloat (inject_Z 8))])]> b)
                empty_world)).
    reflexivity.
Defined.

(** X5. A job whose record is failed or revoked and holds no result (or an
    empty one) is reported with the error text [Unknown error]. *)
Theorem failed_without_result_is_unknown_error task_id state result w :
  backend w !! task_id = Some (mkMeta state result) ->
  state = "FAILURE" \/ state = "REVOKED" ->
  truthy result = false ->
  res (get_task_status task_id w) =
  Ok (set_error (VStr "Unknown error") (blank_response task_id FAILED)).
Proof.
  intros Hb Hs Ht. unfold get_task_status, try_except, bind, get_world, AsyncResult.
  cbn. rewrite Hb. destruct Hs as [-> | ->]; cbn; rewrite Ht; reflexivity.
Qed.

Lemma failed_without_result_is_unknown_error_witness :
  res (get_task_status "job-1"
         (set_backend (fun b => <["job-1" := mkMeta "REVOKED" VNone]> b) empty_world)) =
  Ok (set_error (VStr "Unknown error") (blank_response "job-1" FAILED)).
Proof.
  apply (failed_without_result_is_unknown_error "job-1" "REVOKED" VNone
           (set_backend (fun b => <["job-1" := mkMeta "REVOKED" VNone]> b) empty_world));
    [reflexivity | right; reflexivity | reflexivity].
Defined.

(** X7. [health_check]: the API itself is always reported healthy; the overall
    status is [healthy] exactly when a worker answered the ping, and
    [degraded] otherwise, never [unhealthy]; Redis is not probed: it is
    reported [healthy] when a worker answered and [unknown] otherwise. *)
Theorem health_check_report ping :
  let answered := match ping with inr (_ :: _) => true | _ => false end in
  h_status (health_check ping) = (if answered then "healthy" else "degraded") /\
  h_components (health_check ping) =
    [("api", "healthy");
     ("worker", if answered then "healthy" else "unhealthy");
     ("redis", if answered then "healthy" else "unknown")] /\
  h_status (health_check ping) <> "unhealthy".
Proof.
  cbv zeta. destruct ping as [e|[|reply replies]]; cbn; repeat split; discriminate.
Qed.

(** ** More of the S3 client *)

(** X8. [upload_file] of a file that is not on disk raises [FileNotFoundError]
    without contacting S3; of a file that is there, it makes one upload to
    the configured bucket and returns the URL of the object, or passes the
    error of the transfer on. It never changes the world. *)
Theorem upload_file_contract E self file_path object_name w :
  world (upload_file E self file_path object_name w) = w /\
  (file_path ∉ fs w ->
     res (upload_file E self file_path object_name w)
       = Raise (mkExn FileNotFoundError ("File " ++ file_path ++ " does not exist")) /\
     events (upload_file E self file_path object_name w) = []) /\
  (file_path ∈ fs w ->
     events (upload_file E self file_path object_name w)
       = [EvUpload file_path (s3_bucket_name self) object_name] /\
     res (upload_file E self file_path object_name w)
       = match env_s3_put E object_name with
         | Some e => Raise e
         | None => Ok (generate_url E self object_name)
         end).
Proof.
  unfold upload_file, bind, os_path_exists, emit, raise, ret. cbn.
  destruct (bool_decide (file_path ∈ fs w)) eqn:Hin; cbn.
  - apply bool_decide_eq_true_1 in Hin.
    destruct (env_s3_put E object_name); cbn; (split; [reflexivity|]);
      (split; [intros Hn; contradiction | intros _; split; reflexivity]).
  - apply bool_decide_eq_false_1 in Hin.
    split; [reflexivity|]. split; [intros _; split; reflexivity | intros Hy; contradiction].
Qed.

(** ** More of the model: device assignment and the instance cache *)

(** X9. The device of a worker is [cpu], or [cuda:i] for an index [i] below
    the number of visible devices, namely the worker id modulo that number;
    it is a CUDA device exactly when [DEVICE] reads [cuda] (in any letter
    case), CUDA is available and a device is visible. *)
Theorem assign_device_in_range S E worker_id :
  let n := env_cuda_device_count E in
  let gpu := String.eqb (lower (DEVICE S)) "cuda" && env_cuda_available E && (0 <? n)%nat in
  (gpu = true ->
     assign_device S E worker_id = "cuda:" ++ pretty (worker_id mod n)%nat /\
     (worker_id mod n < n)%nat) /\
  (gpu = false -> assign_device S E worker_id = "cpu").
Proof.
  cbv zeta. unfold assign_device.
  destruct (String.eqb (lower (DEVICE S)) "cuda" && env_cuda_available E); cbn [andb].
  - destruct (Nat.ltb_spec 0 (env_cuda_device_count E)) as [Hpos|Hz].
    + split; [intros _ | discriminate]. split; [reflexivity|].
      apply Nat.mod_upper_bound. lia.
    + split; [discriminate | reflexivity].
  - split; [discriminate | reflexivity].
Qed.

(** X10. Once [get_instance] has returned a model for a worker id, every later
    call for that id returns the same model and changes nothing, also when
    loading the model would now fail. *)
Theorem get_instance_reuses S E E' worker_id m w :
  res (get_instance S E worker_id w) = Ok m ->
  get_instance S E' worker_id (world (get_instance S E worker_id w)) =
  mkOutcome (Ok m) (world (get_instance S E worker_id w)) [].
Proof.
  unfold get_instance. set (k := match worker_id with Some i => i | None => 0%nat end).
  unfold bind, get_world, Model_init, modify, ret, raise. cbn.
  destruct (model_instances w !! k) as [m0|] eqn:Hk; cbn.
  - intros [= ->]. rewrite Hk. reflexivity.
  - destruct (env_model_load E); cbn; [discriminate|].
    intros [= <-]. rewrite lookup_insert_eq. reflexivity.
Qed.

Lemma get_instance_reuses_witness :
  let E := sample_env 100 200 true in
  let E' := mkEnv (env_time E) (env_uuid4 E) (env_http E) None (env_s3_put E)
              (env_urlparse_base E) (Some (mkExn FileNotFoundError "Model file not found"))
              (env_model_infer E) false 0 None (env_remove_error E) (env_imwrite E) in
  get_instance local_settings E' None (world (get_instance local_settings E None empty_world)) =
  mkOutcome (Ok (mkModel 0 "cpu")) (world (get_instance local_settings E None empty_world)) [].
Proof.
  cbv zeta.
  apply (get_instance_reuses local_settings (sample_env 100 200 true) _ None
           (mkModel 0 "cpu") empty_world).
  reflexivity.
Defined.

(** A failed load is not cached: the call raises the loader's error and
    leaves the world as it was. *)
Theorem get_instance_failure_not_cached S E worker_id e w :
  model_instances w !! (match worker_id with Some i => i | None => 0%nat end) = None ->
  env_model_load E = Some e ->
  get_instance S E worker_id w = mkOutcome (Raise e) w [].
Proof.
  intros Hk He. unfold get_instance, bind, get_world, Model_init. cbn.
  rewrite Hk, He. reflexivity.
Qed.

Lemma get_instance_failure_not_cached_witness :
  let E := mkEnv (fun n => inject_Z (Z.of_nat n)) (fun n => pretty n)
             (fun _ => HttpResponse 200) None (fun _ => None) (fun s => s)
             (Some (mkExn FileNotFoundError "Model file not found: models/u2net.onnx"))
             (fun _ => true) false 0 None (fun _ => None) (fun _ => true) in
  get_instance local_settings E None empty_world =
  mkOutcome (Raise (mkExn FileNotFoundError "Model file not found: models/u2net.onnx"))
    empty_world [].
Proof.
  cbv zeta.
  apply (get_instance_failure_not_cached local_settings _ None
           (mkExn FileNotFoundError "Model file not found: models/u2net.onnx") empty_world);
    reflexivity.
Defined.

(** ** Worker start-up *)

(** X11. Without [CELERY_WORKER_NAME] the worker id is the last digit of the
    process id: it is below 10, and two processes whose ids differ by a
    multiple of 10 get the same id, hence the same device. *)
Theorem worker_id_from_pid S E environ pid pid' :
  environ !! "CELERY_WORKER_NAME" = None ->
  (get_worker_id environ pid < 10)%nat /\
  (pid mod 10 = pid' mod 10 ->
     get_worker_id environ pid = get_worker_id environ pid' /\
     assign_device S E (get_worker_id environ pid)
       = assign_device S E (get_worker_id environ pid')).
Proof.
  intros Hn. unfold get_worker_id. rewrite Hn. cbn [str_truthy].
  split; [apply Nat.mod_upper_bound; lia|].
  intros ->. split; reflexivity.
Qed.

Lemma worker_id_from_pid_witness :
  (get_worker_id ∅ 4217 < 10)%nat /\
  (4217 mod 10 = 4227 mod 10 ->
     get_worker_id ∅ 4217 = get_worker_id ∅ 4227 /\
     assign_device local_settings (sample_env 100 200 true) (get_worker_id ∅ 4217)
       = assign_device local_settings (sample_env 100 200 true) (get_worker_id ∅ 4227)).
Proof.
  apply (worker_id_from_pid local_settings (sample_env 100 200 true) ∅ 4217 4227).
  reflexivity.
Defined.

(** X12. The model preloaded at worker start-up is kept under the worker's id,
    but the task asks for the instance of worker 0: unless the worker's id
    is 0, the task does not find the preloaded model and loads a second
    one (or fails, if it cannot be loaded any more). *)
Theorem preloaded_model_not_used_by_task S E E' environ pid w :
  model_instances w = ∅ ->
  get_worker_id environ pid <> 0%nat ->
  res (init_worker_process S E environ pid w) = Ok tt ->
  let w1 := world (init_worker_process S E environ pid w) in
  model_instances w1 !! get_worker_id environ pid
    = Some (mkModel (get_worker_id environ pid) (assign_device S E (get_worker_id environ pid))) /\
  model_instances w1 !! 0%nat = None /\
  res (get_instance S E' None w1) =
    match env_model_load E' with
    | Some e => Raise e
    | None => Ok (mkModel 0 (assign_device S E' 0))
    end.
Proof.
  intros Hw Hk. unfold init_worker_process, get_instance, bind, get_world, Model_init,
    modify, ret, raise. cbn. rewrite Hw, lookup_empty. cbn.
  destruct (env_model_load E); cbn; [discriminate|]. intros _.
  rewrite Hw. rewrite lookup_insert_eq.
  rewrite lookup_insert_ne by exact Hk. rewrite lookup_empty.
  split; [reflexivity|]. split; [reflexivity|].
  destruct (env_model_load E'); reflexivity.
Qed.

Lemma preloaded_model_not_used_by_task_witness :
  let E := sample_env 100 200 true in
  let w1 := world (init_worker_process local_settings E ∅ 4217 empty_world) in
  model_instances w1 !! get_worker_id ∅ 4217
    = Some (mkModel (get_worker_id ∅ 4217)
              (assign_device local_settings E (get_worker_id ∅ 4217))) /\
  model_instances w1 !! 0%nat = None /\
  res (get_instance local_settings E None w1) =
    match env_model_load E with
    | Some e => Raise e
    | None => Ok (mkModel 0 (assign_device local_settings E 0))
    end.
Proof.
  cbv zeta.
  apply (preloaded_model_not_used_by_task local_settings (sample_env 100 200 true)
           (sample_env 100 200 true) ∅ 4217 empty_world);
    [reflexivity | vm_compute; discriminate | reflexivity].
Defined.

(** ** More of the worker pool *)

Lemma start_all_gpu_witness :
  length (start_all (Some (mkCompleted 0 "GPU 0: A
GPU 1: B
")) 1 "info" ∅) = 2%nat /\
  (forall i, (i < 2)%nat ->
     exists p, start_all (Some (mkCompleted 0 "GPU 0: A
GPU 1: B
")) 1 "info" ∅ !! i = Some p /\
               device_binding p = Some (pretty (i mod 2)%nat) /\
               consumed_queue p = "gpu") /\
  NoDup (device_binding <$> start_all (Some (mkCompleted 0 "GPU 0: A
GPU 1: B
")) 1 "info" ∅).
Proof.
  apply (start_all_gpu (Some (mkCompleted 0 "GPU 0: A
GPU 1: B
")) 1 "info" ∅ 2); [reflexivity | lia].
Defined.

(** X14. Whenever [nvidia-smi -L] exits with code 0, the pool takes the GPU
    branch, also when the listing is empty: at least one worker is started,
    and every worker is bound to a device and consumes [gpu]. *)
Theorem exit_zero_means_gpu_workers result c l env :
  returncode result = 0%Z ->
  (1 <= length (start_all (Some result) c l env))%nat /\
  Forall (fun p => is_Some (device_binding p) /\ consumed_queue p = "gpu")
    (start_all (Some result) c l env).
Proof.
  intros Hrc.
  assert (exists d, get_gpu_count (Some result) = Datatypes.S d) as [d Hd].
  { unfold get_gpu_count, count_lines. rewrite Hrc. cbn. eauto. }
  unfold start_all. rewrite Hd. cbn [Nat.ltb Nat.leb].
  destruct (spawn_gpu_workers_spec c l (seq 0 (Datatypes.S d)) env) as [Hdev Hq].
  set (ps := fst (spawn_gpu_workers c l (seq 0 (Datatypes.S d)) env)) in *.
  split.
  - rewrite <- (length_fmap device_binding), Hdev, length_fmap, length_seq. lia.
  - apply Forall_lookup. intros i p Hp. split.
    + assert ((device_binding <$> ps) !! i = Some (device_binding p)) as Hdp
        by (rewrite list_lookup_fmap, Hp; reflexivity).
      rewrite Hdev, list_lookup_fmap in Hdp.
      destruct (seq 0 (Datatypes.S d) !! i) as [j|]; [|discriminate Hdp].
      injection Hdp as <-. eauto.
    + eapply Forall_lookup_1 in Hq; [exact Hq | exact Hp].
Qed.

Lemma exit_zero_means_gpu_workers_witness :
  (1 <= length (start_all (Some (mkCompleted 0 "")) 1 "info" ∅))%nat /\
  Forall (fun p => is_Some (device_binding p) /\ consumed_queue p = "gpu")
    (start_all (Some (mkCompleted 0 "")) 1 "info" ∅).
Proof.
  apply (exit_zero_means_gpu_workers (mkCompleted 0 "") 1 "info" ∅). reflexivity.
Defined.

Lemma spawn_gpu_workers_environ c l indices env :
  environ <$> fst (spawn_gpu_workers c l indices env)
    = (fun i => <["CUDA_VISIBLE_DEVICES" := pretty i]> env) <$> indices /\
  snd (spawn_gpu_workers c l indices env)
    = match last indices with
      | Some i => <["CUDA_VISIBLE_DEVICES" := pretty i]> env
      | None => env
      end.
Proof.
  revert env. induction indices as [|i rest IH]; intros env; [split; reflexivity|].
  cbn [spawn_gpu_workers start_worker].
  destruct (spawn_gpu_workers c l rest (<["CUDA_VISIBLE_DEVICES" := pretty i]> env))
    as [ps env2] eqn:Hps.
  destruct (IH (<["CUDA_VISIBLE_DEVICES" := pretty i]> env)) as [IHe IHs].
  rewrite Hps in IHe, IHs. cbn [fst snd] in *. split.
  - rewrite !fmap_cons. cbn [environ]. rewrite IHe. f_equal.
    apply list_fmap_ext. intros _ j _. apply insert_insert_eq.
  - rewrite IHs. destruct rest as [|j rest']; [reflexivity|].
    change (last (i :: j :: rest')) with (last (j :: rest')).
    destruct (last (j :: rest')) as [k|] eqn:Hl.
    + apply insert_insert_eq.
    + apply last_None in Hl. discriminate Hl.
Qed.

(** X15. The device binding is made in the environment of the pool process
    itself. Worker [i] inherits the pool's environment with
    [CUDA_VISIBLE_DEVICES] set to [i] and nothing else changed; once the
    [d] workers are started, the pool process (which goes on to run the API
    server) is left with [CUDA_VISIBLE_DEVICES] set to [d - 1]. *)
Theorem pool_environment_after_spawn c l env d :
  (0 < d)%nat ->
  (forall i p, fst (spawn_gpu_workers c l (seq 0 d) env) !! i = Some p ->
     environ p = <["CUDA_VISIBLE_DEVICES" := pretty i]> env) /\
  snd (spawn_gpu_workers c l (seq 0 d) env)
    = <["CUDA_VISIBLE_DEVICES" := pretty (d - 1)%nat]> env.
Proof.
  intros Hd. destruct (spawn_gpu_workers_environ c l (seq 0 d) env) as [He Hs]. split.
  - intros i p Hp.
    assert ((environ <$> fst (spawn_gpu_workers c l (seq 0 d) env)) !! i = Some (environ p))
      as Hi by (rewrite list_lookup_fmap, Hp; reflexivity).
    rewrite He, list_lookup_fmap in Hi.
    destruct (seq 0 d !! i) as [j|] eqn:Hj; [|discriminate Hi].
    apply lookup_seq in Hj as [-> _]. cbn in Hi. congruence.
  - rewrite Hs. destruct d as [|d']; [lia|].
    rewrite seq_S, last_snoc. cbn. rewrite Nat.sub_0_r. reflexivity.
Qed.

Lemma pool_environment_after_spawn_witness :
  (forall i p, fst (spawn_gpu_workers 1 "info" (seq 0 2) {["PATH" := "/usr/bin"]}) !! i = Some p ->
     environ p = <["CUDA_VISIBLE_DEVICES" := pretty i]> {["PATH" := "/usr/bin"]}) /\
  snd (spawn_gpu_workers 1 "info" (seq 0 2) {["PATH" := "/usr/bin"]})
    = <["CUDA_VISIBLE_DEVICES" := pretty (2 - 1)%nat]> {["PATH" := "/usr/bin"]}.
Proof. apply (pool_environment_after_spawn 1 "info" {["PATH" := "/usr/bin"]} 2). lia. Defined.

(** ** More of the task: what a run may change *)

Section MaintainsRules.
Context {A B : Type}.
Variable I : World -> Prop.

Lemma maintains_neutral (m : M A) : (forall w, world (m w) = w) -> maintains I m.
Proof. intros H w Hw. rewrite H. exact Hw. Qed.

Lemma maintains_ret (a : A) : maintains I (ret a).
Proof. apply maintains_neutral. reflexivity. Qed.

Lemma maintains_raise (e : Exn) : maintains I (raise (A:=A) e).
Proof. apply maintains_neutral. reflexivity. Qed.

Lemma maintains_bind (m : M A) (k : A -> M B) :
  maintains I m -> (forall a, maintains I (k a)) -> maintains I (bind m k).
Proof.
  intros Hm Hk w Hw. unfold bind. specialize (Hm w Hw).
  destruct (res (m w)) as [a|e]; cbn [world]; [apply Hk, Hm | exact Hm].
Qed.

Lemma maintains_try_except (body : M A) catches handler :
  maintains I body -> (forall e, maintains I (handler e)) ->
  maintains I (try_except body catches handler).
Proof.
  intros Hb Hh w Hw. unfold try_except. specialize (Hb w Hw).
  destruct (res (body w)) as [a|e]; [exact Hb|].
  destruct (catches e); cbn [world]; [apply Hh, Hb | exact Hb].
Qed.

Lemma maintains_try_finally (body : M A) final :
  maintains I body -> maintains I final -> maintains I (try_finally body final).
Proof. intros Hb Hf w Hw. unfold try_finally. cbn [world]. apply Hf, Hb, Hw. Qed.

End MaintainsRules.

Lemma maintains_modify I f : (forall w, I w -> I (f w)) -> maintains I (modify f).
Proof. intros H w Hw. apply H, Hw. Qed.

Lemma maintains_emit I ev : maintains I (emit ev).
Proof. apply maintains_neutral. reflexivity. Qed.

Lemma maintains_get_world I : maintains I get_world.
Proof. apply maintains_neutral. reflexivity. Qed.

Lemma maintains_os_path_exists I p : maintains I (os_path_exists p).
Proof. apply maintains_neutral. reflexivity. Qed.

Lemma maintains_when I b m : maintains I m -> maintains I (when b m).
Proof. intros H. destruct b; [exact H | apply maintains_ret]. Qed.

Lemma maintains_notify I E c cd kw : maintains I (notify E c cd kw).
Proof. apply maintains_neutral. intros w. apply notify_world. Qed.

Lemma maintains_os_remove I E p :
  (forall w, I w -> I (set_fs (fun f => f ∖ {[p]}) w)) -> maintains I (os_remove E p).
Proof.
  intros H w Hw. unfold os_remove. destruct (bool_decide (p ∈ fs w)); [|exact Hw].
  destruct (env_remove_error E p); cbn [world]; [exact Hw | apply H, Hw].
Qed.

Lemma maintains_time_time I E : looks_at_stores I -> maintains I (time_time E).
Proof. intros H w Hw. apply (H w); [reflexivity.. | exact Hw]. Qed.

Lemma maintains_uuid_uuid4 I E : looks_at_stores I -> maintains I (uuid_uuid4 E).
Proof. intros H w Hw. apply (H w); [reflexivity.. | exact Hw]. Qed.

Lemma maintains_get_instance I S E worker_id :
  looks_at_stores I -> maintains I (get_instance S E worker_id).
Proof.
  intros H w Hw. unfold get_instance, bind, get_world, Model_init, modify, ret, raise. cbn.
  destruct (model_instances w !! _); cbn; [exact Hw|].
  destruct (env_model_load E); cbn; [exact Hw|].
  apply (H w); [reflexivity.. | exact Hw].
Qed.

Lemma maintains_S3Client_init I S E : maintains I (S3Client_init S E).
Proof.
  apply maintains_neutral. intros w. unfold S3Client_init.
  destruct (env_s3_connect E); reflexivity.
Qed.

Lemma maintains_upload_file I E self file_path object_name :
  maintains I (upload_file E self file_path object_name).
Proof.
  apply maintains_neutral. intros w.
  unfold upload_file, bind, os_path_exists, emit, raise, ret. cbn.
  destruct (bool_decide (file_path ∈ fs w)); cbn; [|reflexivity].
  destruct (env_s3_put E object_name); reflexivity.
Qed.

Lemma maintains_store_result I task_id result state :
  (forall w, I w -> I (set_backend (fun b => <[task_id := mkMeta state result]> b) w)) ->
  maintains I (store_result task_id result state).
Proof. intros H w Hw. apply H, Hw. Qed.

Lemma maintains_model_remove_background I E self image_path output_path :
  (forall w, I w -> I (set_fs (fun f => f ∪ {[output_path]}) w)) ->
  maintains I (model_remove_background E self image_path output_path).
Proof.
  intros H w Hw. unfold model_remove_background, bind, emit, os_path_exists, write_file,
    modify, ret. cbn.
  destruct (bool_decide (image_path ∈ fs w) && env_model_infer E image_path); cbn;
    [|exact Hw].
  destruct (env_imwrite E output_path); cbn; [apply H, Hw | exact Hw].
Qed.

(** The invariant a task body keeps, given how [I] fares under the three
    changes the body can make: store a record of its task, run the model
    on its input, delete its input. *)
Lemma maintains_run_task_model I S E msg :
  looks_at_stores I ->
  (forall state result w,
     I w -> I (set_backend (fun b => <[msg_id msg := mkMeta state result]> b) w)) ->
  (forall self output_path,
     maintains I (model_remove_background E self (msg_image_path msg) output_path)) ->
  (forall w, I w -> I (set_fs (fun f => f ∖ {[msg_image_path msg]}) w)) ->
  maintains I (run_task S E msg).
Proof.
  intros Hl Hs Hw Hd. unfold run_task, remove_background.
  apply maintains_bind; [apply maintains_time_time, Hl | intros start_time].
  apply maintains_bind; [apply maintains_S3Client_init | intros s3].
  apply maintains_bind; [apply maintains_store_result, Hs | intros ?].
  apply maintains_bind; [apply maintains_notify | intros ?].
  apply maintains_try_finally; [apply maintains_try_except|].
  - unfold process.
    apply maintains_bind; [apply maintains_time_time, Hl | intros now].
    apply maintains_bind; [apply maintains_uuid_uuid4, Hl | intros uuid].
    apply maintains_bind; [apply maintains_get_instance, Hl | intros model].
    apply maintains_bind; [apply maintains_time_time, Hl | intros t1].
    apply maintains_bind; [apply Hw | intros success].
    apply maintains_bind; [apply maintains_time_time, Hl | intros t2].
    destruct (negb success); [apply maintains_raise|].
    apply maintains_bind; [|intros url].
    { destruct (_ && _); [apply maintains_upload_file | apply maintains_ret]. }
    apply maintains_bind; [apply maintains_time_time, Hl | intros t3].
    apply maintains_bind; [apply maintains_notify | intros ?].
    apply maintains_ret.
  - intros e. unfold on_error.
    apply maintains_bind; [apply maintains_time_time, Hl | intros now].
    apply maintains_bind; [apply maintains_notify | intros ?].
    apply maintains_bind; [apply maintains_store_result, Hs | intros ?].
    apply maintains_raise.
  - unfold cleanup. apply maintains_try_except; [|intros ?; apply maintains_ret].
    apply maintains_bind; [apply maintains_os_path_exists | intros present].
    destruct present; [apply maintains_os_remove, Hd | apply maintains_ret].
Qed.

(** The same, when [I] survives the writing of any file. *)
Lemma maintains_run_task I S E msg :
  looks_at_stores I ->
  (forall state result w,
     I w -> I (set_backend (fun b => <[msg_id msg := mkMeta state result]> b) w)) ->
  (forall path w, I w -> I (set_fs (fun f => f ∪ {[path]}) w)) ->
  (forall w, I w -> I (set_fs (fun f => f ∖ {[msg_image_path msg]}) w)) ->
  maintains I (run_task S E msg).
Proof.
  intros Hl Hs Hw Hd. apply maintains_run_task_model; try assumption.
  intros self output_path. apply maintains_model_remove_background, Hw.
Qed.

Lemma maintains_build_tracer I task_id (body : M Val) :
  (forall state result w,
     I w -> I (set_backend (fun b => <[task_id := mkMeta state result]> b) w)) ->
  maintains I body -> maintains I (build_tracer task_id body).
Proof.
  intros Hs Hb w Hw. rewrite build_tracer_run. cbv zeta. cbn [world].
  assert (I (world (body (set_backend (fun b => <[task_id := started_meta]> b) w)))) as Hw'.
  { apply Hb. exact (Hs "STARTED" _ w Hw). }
  destruct (res (body _)); cbn [final_meta]; apply Hs, Hw'.
Qed.

(** X16. A worker's run on a message leaves the records of all other tasks and
    all queues as they are, and deletes no file other than the input of
    the message. *)
Theorem job_run_is_isolated S E msg w :
  isolated (msg_id msg) (msg_image_path msg) w (world (trace_task S E msg w)).
Proof.
  assert (maintains (isolated (msg_id msg) (msg_image_path msg) w) (trace_task S E msg)) as H.
  { assert (forall state result w',
              isolated (msg_id msg) (msg_image_path msg) w w' ->
              isolated (msg_id msg) (msg_image_path msg) w
                (set_backend (fun b => <[msg_id msg := mkMeta state result]> b) w')) as Hs.
    { intros state result w' (Hb & Hq & Hf). split; [|split; assumption].
      intros t Ht. cbn. rewrite lookup_insert_ne by congruence. apply Hb, Ht. }
    unfold trace_task. apply maintains_build_tracer; [exact Hs|].
    apply maintains_run_task.
    - intros w1 w2 Hfs Hbk Hqu (Hb & Hq & Hf). unfold isolated.
      rewrite Hfs, Hbk, Hqu. auto.
    - exact Hs.
    - intros path w' (Hb & Hq & Hf). split; [exact Hb|]. split; [exact Hq|].
      intros q Hne Hin. cbn. apply elem_of_union_l, Hf; assumption.
    - intros w' (Hb & Hq & Hf). split; [exact Hb|]. split; [exact Hq|].
      intros q Hne Hin. cbn. apply elem_of_difference. split; [apply Hf; assumption|].
      intros Hs'. apply elem_of_singleton in Hs'. contradiction. }
  apply H. split; [|split]; auto.
Qed.

(** ** More of the task: jobs with callback data *)

Lemma bind_call_TypeError sg kw e : bind_call sg kw = inl e -> exc_class e = TypeError.
Proof.
  unfold bind_call.
  destruct (first_duplicate [] kw); [intros [= <-]; reflexivity|].
  destruct (first_unexpected (sig_params sg) kw); [intros [= <-]; reflexivity|].
  destruct (first_missing (sig_required sg) kw); [intros [= <-]; reflexivity | discriminate].
Qed.

Lemma first_unexpected_found params kw :
  existsb (fun kv => negb (mem_str (fst kv) params)) kw = true ->
  first_unexpected params kw <> None.
Proof.
  induction kw as [|[k v] kw IH]; cbn; [discriminate|].
  destruct (mem_str k params); cbn; [exact IH | discriminate].
Qed.

(** A call that passes a keyword that is no parameter does not bind. *)
Lemma bind_call_unexpected sg kw :
  existsb (fun kv => negb (mem_str (fst kv) (sig_params sg))) kw = true ->
  exists e, bind_call sg kw = inl e.
Proof.
  intros Hk. unfold bind_call.
  destruct (first_duplicate [] _); [eauto|].
  destruct (first_unexpected (sig_params sg) _) eqn:Hu; [eauto|].
  exfalso. exact (first_unexpected_found _ _ Hk Hu).
Qed.

(** With callback data, a notification that passes a keyword
    [send_callback] does not have always raises. *)
Lemma notify_unbindable E c cd kw :
  callback_data_truthy cd = true ->
  existsb (fun kv => negb (mem_str (fst kv) (sig_params send_callback_sig))) kw = true ->
  fails_with (fun e => exc_class e = TypeError) (notify E c cd kw).
Proof.
  intros Ht Hk w. rewrite notify_res_eq, Ht.
  destruct (bind_call_unexpected send_callback_sig (kw ++ unpack cd)) as [e He].
  { rewrite existsb_app, Hk. reflexivity. }
  rewrite He. exists e. split; [reflexivity | exact (bind_call_TypeError _ _ _ He)].
Qed.

Section FailsRules.
Context {A B : Type}.
Variable C : Exn -> Prop.

Lemma fails_with_bind (m : M A) (k : A -> M B) :
  (forall w e, res (m w) = Raise e -> C e) ->
  (forall a, fails_with C (k a)) -> fails_with C (bind m k).
Proof.
  intros Hm Hk w. unfold bind. destruct (res (m w)) as [a|e] eqn:Hr; cbn [res].
  - apply Hk.
  - exists e. split; [reflexivity | exact (Hm w e Hr)].
Qed.

Lemma fails_with_bind_left (m : M A) (k : A -> M B) :
  fails_with C m -> fails_with C (bind m k).
Proof.
  intros Hm w. unfold bind. destruct (Hm w) as (e & Hr & He). rewrite Hr.
  exists e. split; [reflexivity | exact He].
Qed.

Lemma fails_with_try_except (body : M A) handler :
  (forall w a, res (body w) <> Ok a) ->
  (forall e, fails_with C (handler e)) ->
  fails_with C (try_except body is_Exception handler).
Proof.
  intros Hb Hh w. unfold try_except.
  destruct (res (body w)) as [a|e] eqn:Hr; [exfalso; exact (Hb w a Hr)|].
  cbn [is_Exception res]. apply Hh.
Qed.

Lemma fails_with_try_finally_cleanup (body : M A) E p :
  fails_with C body -> fails_with C (try_finally body (cleanup E p)).
Proof.
  intros Hb w. unfold try_finally. cbn [res]. rewrite cleanup_ok. apply Hb.
Qed.

End FailsRules.

Lemma never_raises_time_time E w e : res (time_time E w) <> Raise e.
Proof. discriminate. Qed.

Lemma never_raises_update_state tid state meta w e : res (update_state tid state meta w) <> Raise e.
Proof. discriminate. Qed.

Lemma notify_raises_TypeError E c cd kw w e :
  res (notify E c cd kw w) = Raise e -> exc_class e = TypeError.
Proof.
  rewrite notify_res_eq. destruct (callback_data_truthy cd); [|discriminate].
  destruct (bind_call send_callback_sig (kw ++ unpack cd)) eqn:Hb; [|discriminate].
  intros [= <-]. exact (bind_call_TypeError _ _ _ Hb).
Qed.

(** With callback data the [try] block never returns: its last step but
    one is the notification of completion. *)
Lemma process_with_callback_data_never_returns S E tid ip ofn cd st qt s3 cb w v :
  callback_data_truthy cd = true ->
  res (process S E tid ip ofn cd st qt s3 cb w) <> Ok v.
Proof.
  intros Ht Hr. revert w v Hr.
  change (returns (fun _ => False) (process S E tid ip ofn cd st qt s3 cb)).
  unfold process.
  repeat match goal with
         | |- returns _ (bind (notify _ _ _ ?kw) _) =>
             intros w v Hr;
             destruct (notify_unbindable E cb cd kw Ht eq_refl w) as (e & He & _);
             unfold bind in Hr; rewrite He in Hr; discriminate Hr
         | |- _ => returns_step
         end.
Qed.

(** X17. Whatever the callback data of a message holds, if it is not empty the
    task cannot complete: every notification but the first passes
    [processing_time], which [send_callback] does not accept. When the S3
    client can be built the task body ends in a [TypeError], the job is
    left failed, and that [TypeError] is the error reported. *)
Theorem job_with_callback_data_never_completes S E msg w :
  callback_data_truthy (msg_callback_data msg) = true ->
  env_s3_connect E = None ->
  (exists e, res (run_task S E msg w) = Raise e /\ exc_class e = TypeError) /\
  (exists e resp,
     exc_class e = TypeError /\
     final_status S E msg w = Ok resp /\
     r_status resp = FAILED /\ r_error resp = VStr (str_exn e)).
Proof.
  intros Ht Hs3.
  assert (fails_with (fun e => exc_class e = TypeError) (run_task S E msg)) as Hfail.
  { unfold run_task, remove_background.
    apply fails_with_bind; [intros w' e He; exfalso; exact (never_raises_time_time _ _ _ He)|].
    intros start_time.
    apply fails_with_bind.
    { intros w' e. unfold S3Client_init. rewrite Hs3. discriminate. }
    intros s3.
    apply fails_with_bind;
      [intros w' e He; exfalso; exact (never_raises_update_state _ _ _ _ _ He)|].
    intros ?.
    apply fails_with_bind; [intros w' e; apply notify_raises_TypeError|].
    intros ?.
    apply fails_with_try_finally_cleanup, fails_with_try_except.
    - intros w' v. apply process_with_callback_data_never_returns, Ht.
    - intros e. unfold on_error.
      apply fails_with_bind;
        [intros w' e' He; exfalso; exact (never_raises_time_time _ _ _ He)|].
      intros now. apply fails_with_bind_left.
      match goal with |- fails_with _ (notify _ _ _ ?kw) =>
        apply (notify_unbindable E _ _ kw Ht eq_refl) end. }
  split; [apply Hfail|].
  destruct (Hfail (set_backend (fun b => <[msg_id msg := started_meta]> b) w)) as (e & Hr & He).
  pose proof (trace_task_backend S E msg w) as Hb. rewrite Hr in Hb. cbn [final_meta] in Hb.
  exists e. eexists. split; [exact He|].
  unfold final_status. rewrite (get_task_status_failure _ _ _ Hb).
  split; [reflexivity|]. split; reflexivity.
Qed.

Lemma job_with_callback_data_never_completes_witness :
  let E := sample_env 100 200 true in
  let msg := sample_message (Some [("error", VStr "echo")]) in
  (exists e, res (run_task local_settings E msg empty_world) = Raise e /\
             exc_class e = TypeError) /\
  (exists e resp,
     exc_class e = TypeError /\
     final_status local_settings E msg empty_world = Ok resp /\
     r_status resp = FAILED /\ r_error resp = VStr (str_exn e)).
Proof.
  cbv zeta.
  apply (job_with_callback_data_never_completes local_settings (sample_env 100 200 true)
           (sample_message (Some [("error", VStr "echo")])) empty_world); reflexivity.
Defined.

(** ** More of the task: callbacks are never delivered, cleanup *)

Lemma notify_none_emits P E c kw : emits_only P (notify E c None kw).
Proof. intros w. constructor. Qed.

Lemma run_task_without_callback_data_posts_nothing S E msg :
  msg_callback_data msg = None ->
  emits_only (fun ev => is_post ev = false) (run_task S E msg).
Proof.
  intros Hcd. unfold run_task, remove_background. rewrite Hcd.
  unfold S3Client_init, process, on_error, cleanup.
  unfold update_state, store_result, get_instance, Model_init, model_remove_background,
    upload_file, write_file.
  repeat first [apply notify_none_emits | emits_step].
Qed.

(** X18. No job that [create_task] publishes ever leads to a callback request:
    without a callback URL the worker does not notify, and with one the
    first notification raises before any request is made. *)
Theorem submitted_jobs_post_nothing S E request msg w :
  msg_callback_data msg = prepare_callback_data request ->
  Forall (fun ev => is_post ev = false) (events (trace_task S E msg w)).
Proof.
  intros Hcd. unfold trace_task. rewrite build_tracer_run. cbv zeta. cbn [events].
  constructor; [reflexivity|]. apply Forall_app. split; [|repeat constructor].
  destruct (callback_url request) as [url|] eqn:Hurl.
  - destruct (str_truthy url) eqn:Ht.
    + rewrite (run_task_with_callback_data S E request url msg _ Hurl Ht Hcd). cbv zeta.
      destruct (env_s3_connect E); repeat constructor.
    + apply run_task_without_callback_data_posts_nothing.
      rewrite Hcd. unfold prepare_callback_data. rewrite Hurl, Ht. reflexivity.
  - apply run_task_without_callback_data_posts_nothing.
    rewrite Hcd. unfold prepare_callback_data. rewrite Hurl. reflexivity.
Qed.

Lemma submitted_jobs_post_nothing_witness :
  Forall (fun ev => is_post ev = false)
    (events (trace_task local_settings (sample_env 100 200 true)
               (sample_message
                  (prepare_callback_data
                     (mkRequest (Some "http://client.example/hook") (Some "token") None)))
               empty_world)).
Proof.
  apply (submitted_jobs_post_nothing local_settings (sample_env 100 200 true)
           (mkRequest (Some "http://client.example/hook") (Some "token") None)).
  reflexivity.
Defined.

(** X19. The [finally] block is best effort: it never raises, also when the
    operating system refuses the removal; it touches no record and no
    queue; and the files afterwards are the files before without the
    input, or all the files before when the removal was refused. *)
Theorem cleanup_best_effort E p w :
  res (cleanup E p w) = Ok tt /\
  backend (world (cleanup E p w)) = backend w /\
  queues (world (cleanup E p w)) = queues w /\
  fs (world (cleanup E p w)) =
    match env_remove_error E p with
    | None => fs w ∖ {[p]}
    | Some _ => fs w
    end.
Proof.
  split; [apply cleanup_ok|].
  unfold cleanup, try_except, bind, os_path_exists, ret. cbn.
  destruct (bool_decide (p ∈ fs w)) eqn:Hin; cbn.
  - unfold os_remove. rewrite Hin.
    destruct (env_remove_error E p); cbn; repeat split.
  - apply bool_decide_eq_false_1 in Hin. split; [reflexivity|]. split; [reflexivity|].
    destruct (env_remove_error E p); [reflexivity|].
    apply set_eq. intros x. rewrite elem_of_difference, elem_of_singleton.
    split; [intros Hx; split; [exact Hx | intros ->; contradiction] | intros [Hx _]; exact Hx].
Qed.

Lemma cleanup_runs_without_callback_data_witness :
  msg_image_path (sample_message None)
    ∉ fs (world (run_task local_settings (sample_env 100 200 false) (sample_message None)
                   (world (submitted (sample_env 100 200 false) None)))).
Proof.
  apply (cleanup_runs_without_callback_data local_settings (sample_env 100 200 false)
           (sample_message None) (world (submitted (sample_env 100 200 false) None)));
    reflexivity.
Defined.

(** ** More of the task: what a completed job returns *)

Lemma bind_Ok_inv {A B} (m : M A) (k : A -> M B) w b :
  res (bind m k w) = Ok b ->
  exists a, res (m w) = Ok a /\ res (k a (world (m w))) = Ok b /\
            world (bind m k w) = world (k a (world (m w))).
Proof.
  unfold bind. destruct (res (m w)) as [a|e]; cbn [res world]; [eauto | discriminate].
Qed.

Lemma time_time_Ok E w t :
  res (time_time E w) = Ok t ->
  t = env_time E (clock_reads w) /\ later 1 w (world (time_time E w)) /\
  uuid_reads (world (time_time E w)) = uuid_reads w.
Proof. intros [= <-]. repeat split. Qed.

Lemma uuid_uuid4_Ok E w u :
  res (uuid_uuid4 E w) = Ok u ->
  u = env_uuid4 E (uuid_reads w) /\ later 0 w (world (uuid_uuid4 E w)).
Proof. intros [= <-]. repeat split. Qed.

Lemma get_instance_later S E worker_id w : later 0 w (world (get_instance S E worker_id w)).
Proof.
  unfold get_instance, bind, get_world, Model_init, modify, ret, raise. cbn.
  destruct (model_instances w !! _); cbn; [split; reflexivity|].
  destruct (env_model_load E); cbn; split; reflexivity.
Qed.

Lemma model_remove_background_Ok E self ip op w b :
  res (model_remove_background E self ip op w) = Ok b ->
  b = bool_decide (ip ∈ fs w) && env_model_infer E ip /\
  fs (world (model_remove_background E self ip op w))
    = (if b then fs w ∪ written E op else fs w) /\
  clock_reads (world (model_remove_background E self ip op w)) = clock_reads w.
Proof.
  unfold model_remove_background, bind, emit, os_path_exists, write_file, modify, ret,
    written. cbn.
  destruct (bool_decide (ip ∈ fs w) && env_model_infer E ip); cbn;
    [|intros [= <-]; repeat split].
  destruct (env_imwrite E op); cbn; intros [= <-]; (split; [reflexivity|]);
    (split; [|reflexivity]); [reflexivity | symmetry; apply (right_id_L ∅ (∪))].
Qed.

Lemma upload_file_world E self file_path object_name w :
  world (upload_file E self file_path object_name w) = w.
Proof.
  unfold upload_file, bind, os_path_exists, emit, raise, ret. cbn.
  destruct (bool_decide (file_path ∈ fs w)); cbn; [|reflexivity].
  destruct (env_s3_put E object_name); reflexivity.
Qed.

Lemma upload_file_Ok E self file_path object_name w url :
  res (upload_file E self file_path object_name w) = Ok url ->
  url = generate_url E self object_name /\ file_path ∈ fs w.
Proof.
  unfold upload_file, bind, os_path_exists, emit, raise, ret. cbn.
  destruct (bool_decide (file_path ∈ fs w)) eqn:Hin; cbn; [|discriminate].
  apply bool_decide_eq_true_1 in Hin.
  destruct (env_s3_put E object_name); cbn; [discriminate|]. intros [= <-].
  split; [reflexivity | exact Hin].
Qed.

Lemma later_trans a b w1 w2 w3 : later a w1 w2 -> later b w2 w3 -> later (b + a) w1 w3.
Proof. intros [Hf1 Hc1] [Hf2 Hc2]. split; [congruence | lia]. Qed.

(** The value the [try] block returns, and the files it leaves. *)
Lemma process_Ok S E tid ip ofn cd st qt s3 cb w v :
  res (process S E tid ip ofn cd st qt s3 cb w) = Ok v ->
  let c := clock_reads w in
  let name := output_filename_in E ofn ip w in
  let path := output_path_in S E ofn ip w in
  v = VDict
        [("status", VStr "completed");
         ("result_url",
          VStr (if str_truthy (S3_ACCESS_KEY S) && str_truthy (S3_SECRET_KEY S)
                then generate_url E s3 ("results/" ++ name)
                else "file://" ++ path));
         ("original_filename", VStr (resolve_filename ofn ip));
         ("output_filename", VStr name);
         ("processing_time", VFloat (round3 (env_time E (3 + c) - st)));
         ("model_time", VFloat (round3 (env_time E (2 + c) - env_time E (1 + c))));
         ("queue_time", qt)] /\
  ip ∈ fs w /\
  fs (world (process S E tid ip ofn cd st qt s3 cb w)) = fs w ∪ written E path /\
  (str_truthy (S3_ACCESS_KEY S) && str_truthy (S3_SECRET_KEY S) = true ->
   path ∈ fs w ∪ written E path).
Proof.
  intros H. cbv zeta. unfold output_path_in, output_filename_in. unfold process in *.
  apply bind_Ok_inv in H as (now & Hnow & H & ->).
  apply time_time_Ok in Hnow as (-> & L1 & U1).
  set (w1 := world (time_time E w)) in *. clearbody w1.
  apply bind_Ok_inv in H as (uuid & Huuid & H & ->).
  apply uuid_uuid4_Ok in Huuid as (-> & L2). rewrite U1 in *.
  set (w2 := world (uuid_uuid4 E w1)) in *. clearbody w2.
  pose proof (later_trans _ _ _ _ _ L1 L2) as L12. clear L1 L2 U1 w1.
  apply bind_Ok_inv in H as (model & _ & H & ->).
  pose proof (later_trans _ _ _ _ _ L12 (get_instance_later S E None w2)) as L3. clear L12.
  set (w3 := world (get_instance S E None w2)) in *. clearbody w3. clear w2.
  apply bind_Ok_inv in H as (t1 & Ht1 & H & ->).
  apply time_time_Ok in Ht1 as (-> & L4 & _).
  pose proof (later_trans _ _ _ _ _ L3 L4) as L34.
  destruct L3 as [_ C3]. clear L4.
  set (w4 := world (time_time E w3)) in *. clearbody w4.
  apply bind_Ok_inv in H as (success & Hm & H & ->).
  apply model_remove_background_Ok in Hm as (Hs & F5 & C5).
  set (w5 := world (model_remove_background E model ip _ w4)) in *. clearbody w5.
  apply bind_Ok_inv in H as (t2 & Ht2 & H & ->).
  apply time_time_Ok in Ht2 as (-> & L6 & _).
  set (w6 := world (time_time E w5)) in *. clearbody w6.
  destruct L34 as [F4 C4]. destruct L6 as [F6 C6].
  destruct success; cbn [negb] in *; [|discriminate H].
  symmetry in Hs. apply andb_true_iff in Hs as [Hin _].
  apply bool_decide_eq_true_1 in Hin. rewrite F4 in Hin, F5.
  apply bind_Ok_inv in H as (url & Hurl & H & ->).
  match type of Hurl with
  | res ((if ?c then upload_file E s3 ?fp ?on else ret ?x) w6) = Ok url =>
      assert (url = (if c then generate_url E s3 on else x) /\
              world ((if c then upload_file E s3 fp on else ret x) w6) = w6 /\
              (c = true -> fp ∈ fs w6)) as (-> & Hw6 & Hup)
  end.
  { destruct (str_truthy (S3_ACCESS_KEY S) && str_truthy (S3_SECRET_KEY S)).
    - destruct (upload_file_Ok _ _ _ _ _ _ Hurl) as [Hu Hf].
      split; [exact Hu|]. split; [apply upload_file_world | intros _; exact Hf].
    - injection Hurl as <-. split; [reflexivity|]. split; [reflexivity | discriminate]. }
  rewrite Hw6 in *. clear Hw6.
  clear Hurl.
  apply bind_Ok_inv in H as (t3 & Ht3 & H & ->).
  apply time_time_Ok in Ht3 as (-> & L7 & _).
  set (w7 := world (time_time E w6)) in *. clearbody w7. destruct L7 as [F7 C7].
  apply bind_Ok_inv in H as (? & _ & H & ->).
  rewrite notify_world. injection H as <-. cbn [world ret].
  rewrite C6, C5, C4, C3 in *. cbn [Nat.add] in *.
  split; [reflexivity|]. split; [exact Hin|].
  rewrite F6, F5 in Hup.
  split; [rewrite F7, F6, F5; reflexivity | exact Hup].
Qed.

Lemma try_except_Ok_inv {A} (body : M A) catches handler w v :
  (forall e w', res (handler e w') <> Ok v) ->
  res (try_except body catches handler w) = Ok v ->
  res (body w) = Ok v /\ world (try_except body catches handler w) = world (body w).
Proof.
  intros Hh. unfold try_except. destruct (res (body w)) as [a|e] eqn:Hr.
  - rewrite Hr. auto.
  - destruct (catches e); cbn [res]; [intros H; exfalso; exact (Hh _ _ H)|].
    rewrite Hr. discriminate.
Qed.

(** The files [cleanup] leaves depend on the files before only. *)
Lemma cleanup_removes_spec E p w w' :
  fs w = fs w' -> fs (world (cleanup E p w)) = fs (world (cleanup E p w')).
Proof.
  intros Hf. unfold cleanup, try_except, bind, os_path_exists, ret. cbn. rewrite Hf.
  destruct (bool_decide (p ∈ fs w')) eqn:Hin; cbn; [|exact Hf].
  unfold os_remove. rewrite Hf, Hin.
  destruct (env_remove_error E p); cbn; [exact Hf | rewrite Hf; reflexivity].
Qed.

Lemma on_error_not_Ok E tid cd st qt cb e w v : res (on_error E tid cd st qt cb e w) <> Ok v.
Proof.
  intros Hr. destruct (on_error_log E tid cd st qt cb e w) as [[e' He'] _].
  rewrite Hr in He'. discriminate He'.
Qed.

Lemma try_finally_cleanup_run {A} (body : M A) E p w :
  res (try_finally body (cleanup E p) w) = res (body w) /\
  world (try_finally body (cleanup E p) w) = world (cleanup E p (world (body w))).
Proof. unfold try_finally. cbn [res world]. rewrite cleanup_ok. split; reflexivity. Qed.

(** The world in which the first notification of the task is made. *)
Lemma run_task_start S E msg w :
  env_s3_connect E = None ->
  exists w2 rest,
    fs w2 = fs w /\ clock_reads w2 = Datatypes.S (clock_reads w) /\
    uuid_reads w2 = uuid_reads w /\ model_instances w2 = model_instances w /\
    res (run_task S E msg w) = res (rest w2) /\
    world (run_task S E msg w) = world (rest w2) /\
    rest =
      bind (notify E (CallbackClient_init S) (msg_callback_data msg)
              [("task_id", VStr (msg_id msg)); ("status", VStr "processing")])
        (fun _ =>
           try_finally
             (try_except
                (process S E (msg_id msg) (msg_image_path msg) (msg_original_filename msg)
                   (msg_callback_data msg) (env_time E (clock_reads w))
                   (compute_queue_time (env_time E (clock_reads w)) (msg_creation_time msg))
                   (mkS3Client (S3_ENDPOINT S) (S3_BUCKET_NAME S) (S3_REGION S))
                   (CallbackClient_init S))
                is_Exception
                (on_error E (msg_id msg) (msg_callback_data msg) (env_time E (clock_reads w))
                   (compute_queue_time (env_time E (clock_reads w)) (msg_creation_time msg))
                   (CallbackClient_init S)))
             (cleanup E (msg_image_path msg))).
Proof.
  intros Hs3. unfold run_task, remove_background.
  rewrite bind_time_time, bind_S3Client_init, Hs3, bind_update_state. cbv zeta.
  cbn [res world].
  eexists. eexists.
  split; [|split; [|split; [|split; [|split; [|split]]]]].
  5: reflexivity. 5: reflexivity. 5: reflexivity.
  all: reflexivity.
Qed.

Lemma run_task_Ok S E msg w v :
  res (run_task S E msg w) = Ok v ->
  let c := clock_reads w in
  exists w2,
    fs w2 = fs w /\ clock_reads w2 = Datatypes.S c /\ uuid_reads w2 = uuid_reads w /\
    let name := output_filename_in E (msg_original_filename msg) (msg_image_path msg) w2 in
    let path := output_path_in S E (msg_original_filename msg) (msg_image_path msg) w2 in
    v = VDict
          [("status", VStr "completed");
           ("result_url",
            VStr (if str_truthy (S3_ACCESS_KEY S) && str_truthy (S3_SECRET_KEY S)
                  then generate_url E
                         (mkS3Client (S3_ENDPOINT S) (S3_BUCKET_NAME S) (S3_REGION S))
                         ("results/" ++ name)
                  else "file://" ++ path));
           ("original_filename",
            VStr (resolve_filename (msg_original_filename msg) (msg_image_path msg)));
           ("output_filename", VStr name);
           ("processing_time", VFloat (round3 (env_time E (4 + c) - env_time E c)));
           ("model_time", VFloat (round3 (env_time E (3 + c) - env_time E (2 + c))));
           ("queue_time", compute_queue_time (env_time E c) (msg_creation_time msg))] /\
    msg_image_path msg ∈ fs w /\
    fs (world (run_task S E msg w)) =
      fs (world (cleanup E (msg_image_path msg)
                   (mkWorld (fs w ∪ written E path) ∅ ∅ ∅ 0 0))) /\
    (str_truthy (S3_ACCESS_KEY S) && str_truthy (S3_SECRET_KEY S) = true ->
     path ∈ fs w ∪ written E path).
Proof.
  intros H. cbv zeta.
  assert (env_s3_connect E = None) as Hs3.
  { destruct (env_s3_connect E) as [e|] eqn:Hs3; [|reflexivity].
    unfold run_task, remove_background in H.
    rewrite bind_time_time, bind_S3Client_init, Hs3 in H. discriminate H. }
  destruct (run_task_start S E msg w Hs3) as (w2 & rest & F2 & C2 & U2 & _ & Hr & Hw & ->).
  exists w2. split; [exact F2|]. split; [exact C2|]. split; [exact U2|].
  rewrite Hr in H. rewrite Hw. clear Hr Hw.
  apply bind_Ok_inv in H as (? & _ & H & ->). rewrite notify_world in *.
  match type of H with res (try_finally ?b (cleanup E ?p) w2) = _ =>
    destruct (try_finally_cleanup_run b E p w2) as [Hr Hw] end.
  rewrite Hr in H. rewrite Hw. clear Hr Hw.
  apply try_except_Ok_inv in H as [Hp Hwp]; [|intros; apply on_error_not_Ok].
  rewrite Hwp. clear Hwp.
  apply process_Ok in Hp as (-> & Hin & Hfs & Hup). cbv zeta in *.
  rewrite C2. split; [reflexivity|]. rewrite F2 in Hin, Hfs, Hup. split; [exact Hin|].
  split; [apply cleanup_removes_spec; exact Hfs | exact Hup].
Qed.

Lemma round_half_even_mono x y :
  (x <= y)%Q -> (round_half_even x <= round_half_even y)%Z.
Proof.
  intros Hxy.
  pose proof (Qfloor_resp_le x y Hxy) as Hf.
  unfold round_half_even.
  destruct (Z.eq_dec (Qfloor x) (Qfloor y)) as [Heq|Hne].
  - rewrite <- Heq.
    destruct (Qcompare_spec (x - inject_Z (Qfloor x)) (1 # 2)) as [Hx|Hx|Hx];
      destruct (Qcompare_spec (y - inject_Z (Qfloor x)) (1 # 2)) as [Hy|Hy|Hy];
      try lia; try lra; destruct (Z.even (Qfloor x)); lia.
  - assert (Qfloor x + 1 <= Qfloor y)%Z as Hlt by lia.
    destruct (x - inject_Z (Qfloor x) ?= 1 # 2)%Q;
      destruct (y - inject_Z (Qfloor y) ?= 1 # 2)%Q;
      try destruct (Z.even (Qfloor x)); try destruct (Z.even (Qfloor y)); lia.
Qed.

Lemma round3_mono x y : (x <= y)%Q -> (round3 x <= round3 y)%Q.
Proof.
  intros Hxy. rewrite !round3_eq.
  apply Qmult_le_compat_r; [|discriminate].
  rewrite <- Zle_Qle. apply round_half_even_mono. lra.
Qed.

Lemma cleanup_keeps_others E p q w :
  q <> p -> q ∈ fs w -> q ∈ fs (world (cleanup E p w)).
Proof.
  intros Hne Hq. unfold cleanup, try_except, bind, os_path_exists, ret. cbn.
  destruct (bool_decide (p ∈ fs w)) eqn:Hin; cbn; [|exact Hq].
  unfold os_remove. rewrite Hin. destruct (env_remove_error E p); cbn; [exact Hq|].
  apply elem_of_difference. split; [exact Hq|].
  intros Hs. apply elem_of_singleton in Hs. contradiction.
Qed.

Lemma trace_task_fs S E msg w :
  fs (world (trace_task S E msg w)) =
  fs (world (run_task S E msg (set_backend (fun b => <[msg_id msg := started_meta]> b) w))).
Proof. unfold trace_task. rewrite build_tracer_run. reflexivity. Qed.

Lemma output_filename_in_counters E ofn ip w w' :
  clock_reads w = clock_reads w' -> uuid_reads w = uuid_reads w' ->
  output_filename_in E ofn ip w = output_filename_in E ofn ip w'.
Proof. intros Hc Hu. unfold output_filename_in. rewrite Hc, Hu. reflexivity. Qed.

Lemma cleanup_subset E p q w : q ∈ fs (world (cleanup E p w)) -> q ∈ fs w.
Proof.
  unfold cleanup, try_except, bind, os_path_exists, ret. cbn.
  destruct (bool_decide (p ∈ fs w)) eqn:Hin; cbn; [|auto].
  unfold os_remove. rewrite Hin. destruct (env_remove_error E p); cbn; [auto|].
  intros Hq. apply elem_of_difference in Hq as [Hq _]. exact Hq.
Qed.

(** The record and the files a run of the worker leaves when the task body
    returns. *)
Lemma completed_record S E msg w v :
  body_result S E msg w = Ok v ->
  let c := clock_reads w in
  let name := result_name E msg w in
  let path := result_file S E msg w in
  v = VDict
        [("status", VStr "completed");
         ("result_url",
          VStr (if s3_configured S
                then generate_url E
                       (mkS3Client (S3_ENDPOINT S) (S3_BUCKET_NAME S) (S3_REGION S))
                       ("results/" ++ name)
                else "file://" ++ path));
         ("original_filename",
          VStr (resolve_filename (msg_original_filename msg) (msg_image_path msg)));
         ("output_filename", VStr name);
         ("processing_time", VFloat (round3 (env_time E (4 + c) - env_time E c)));
         ("model_time", VFloat (round3 (env_time E (3 + c) - env_time E (2 + c))));
         ("queue_time", compute_queue_time (env_time E c) (msg_creation_time msg))] /\
  job_record S E msg w = Some (mkMeta "SUCCESS" v) /\
  msg_image_path msg ∈ fs w /\
  fs (world (trace_task S E msg w)) =
    fs (world (cleanup E (msg_image_path msg) (mkWorld (fs w ∪ written E path) ∅ ∅ ∅ 0 0))) /\
  (s3_configured S = true -> path ∈ fs w ∪ written E path).
Proof.
  intros Hr. cbv zeta.
  pose proof (trace_task_backend S E msg w) as Hb.
  unfold body_result in Hr. rewrite Hr in Hb. cbn [final_meta] in Hb.
  rewrite trace_task_fs. unfold job_record, result_file, result_name, s3_configured.
  apply run_task_Ok in Hr as (w2 & _ & C2 & U2 & Hv & Hin & Hfs & Hup). cbv zeta in *.
  cbn [set_backend clock_reads uuid_reads fs] in *. unfold output_path_in in *.
  rewrite (output_filename_in_counters E _ _ w2
             (mkWorld ∅ ∅ ∅ ∅ (Datatypes.S (clock_reads w)) (uuid_reads w)) C2 U2) in *.
  split; [exact Hv|]. split; [exact Hb|]. split; [exact Hin|]. split; [exact Hfs | exact Hup].
Qed.

(** X21. With a clock that never runs backwards, the record of a completed
    job holds a model time that is not negative and not above its
    processing time. *)
Theorem completed_job_timings S E msg w v :
  monotone_clock E ->
  body_result S E msg w = Ok v ->
  exists d processing_time model_time,
    job_record S E msg w = Some (mkMeta "SUCCESS" (VDict d)) /\
    float_field d "processing_time" = Some processing_time /\
    float_field d "model_time" = Some model_time /\
    (0 <= model_time <= processing_time)%Q.
Proof.
  intros Hmono Hr.
  apply completed_record in Hr as (-> & Hrec & _). cbv zeta in Hrec.
  eexists. eexists. eexists.
  split; [exact Hrec|]. split; [reflexivity|]. split; [reflexivity|].
  set (c := clock_reads w).
  pose proof (Hmono c (2 + c)%nat ltac:(lia)) as H02.
  pose proof (Hmono (2 + c)%nat (3 + c)%nat ltac:(lia)) as H23.
  pose proof (Hmono (3 + c)%nat (4 + c)%nat ltac:(lia)) as H34.
  split; [apply round3_nonneg; lra | apply round3_mono; lra].
Qed.

Lemma completed_job_timings_witness :
  exists d processing_time model_time,
    job_record local_settings (sample_env 100 200 true) (sample_message None)
      (world (submitted (sample_env 100 200 true) None))
      = Some (mkMeta "SUCCESS" (VDict d)) /\
    float_field d "processing_time" = Some processing_time /\
    float_field d "model_time" = Some model_time /\
    (0 <= model_time <= processing_time)%Q.
Proof.
  refine (completed_job_timings local_settings (sample_env 100 200 true) (sample_message None)
            (world (submitted (sample_env 100 200 true) None)) _ _ _).
  - intros i j Hij. cbn. rewrite <- Zle_Qle. lia.
  - vm_compute. reflexivity.
Defined.

Lemma validate_url_https rest :
  validate_url (Some ("https://" ++ rest)) = inr (Some ("https://" ++ rest)).
Proof. destruct rest; reflexivity. Qed.

Lemma get_task_status_route_run task_id w response :
  res (get_task_status task_id w) = Ok response ->
  res (get_task_status_route task_id w) =
    match response_model response with
    | inl e => Raise e
    | inr validated => Ok validated
    end.
Proof.
  intros Hr. unfold get_task_status_route, bind. rewrite Hr.
  destruct (response_model response); reflexivity.
Qed.



Lemma response_model_https response rest :
  r_result_url response = VStr ("https://" ++ rest) -> response_model response = inr response.
Proof. intros H. unfold response_model. rewrite H, validate_url_https. reflexivity. Qed.

(** X25. With both S3 keys and no custom endpoint, the record of a
    completed job holds the [https] URL of the uploaded object, which the
    response model accepts: the status route answers the query with
    status completed and that URL. *)
Theorem completed_job_result_url_s3 S E msg w v :
  s3_configured S = true ->
  S3_ENDPOINT S = "" ->
  body_result S E msg w = Ok v ->
  let url := "https://" ++ S3_BUCKET_NAME S ++ ".s3." ++ S3_REGION S
               ++ ".amazonaws.com/" ++ "results/" ++ result_name E msg w in
  (exists d,
     job_record S E msg w = Some (mkMeta "SUCCESS" (VDict d)) /\
     str_field d "result_url" = Some url) /\
  exists resp,
    res (get_task_status_route (msg_id msg) (world (trace_task S E msg w))) = Ok resp /\
    r_status resp = COMPLETED /\
    r_result_url resp = VStr url /\
    r_error resp = VNone.
Proof.
  intros Hs3 Hep Hr. cbv zeta.
  apply completed_record in Hr as (-> & Hrec & _). cbv zeta in Hrec.
  rewrite Hs3 in Hrec. unfold generate_url in Hrec. cbn [s3_endpoint] in Hrec.
  rewrite Hep in Hrec. cbn [str_truthy s3_bucket_name s3_region] in Hrec.
  split; [eexists; split; [exact Hrec | reflexivity]|].
  rewrite (get_task_status_route_run _ _ _
             (f_equal res (get_task_status_success _ _ _ _ Hrec))).
  match goal with
  | |- context [response_model ?r] =>
      rewrite (response_model_https r
                 (S3_BUCKET_NAME S ++ ".s3." ++ S3_REGION S ++ ".amazonaws.com/"
                    ++ "results/" ++ result_name E msg w) eq_refl)
  end.
  eexists. split; [reflexivity|]. split; [reflexivity|]. split; reflexivity.
Qed.

Lemma completed_job_result_url_s3_witness :
  let E := sample_env 100 200 true in
  let msg := sample_message None in
  let w := world (submitted E None) in
  let url := "https://" ++ S3_BUCKET_NAME s3_settings ++ ".s3." ++ S3_REGION s3_settings
               ++ ".amazonaws.com/" ++ "results/" ++ result_name E msg w in
  (exists d,
     job_record s3_settings E msg w = Some (mkMeta "SUCCESS" (VDict d)) /\
     str_field d "result_url" = Some url) /\
  exists resp,
    res (get_task_status_route (msg_id msg) (world (trace_task s3_settings E msg w))) = Ok resp /\
    r_status resp = COMPLETED /\
    r_result_url resp = VStr url /\
    r_error resp = VNone.
Proof.
  cbv zeta.
  apply (completed_job_result_url_s3 s3_settings (sample_env 100 200 true)
           (sample_message None) (world (submitted (sample_env 100 200 true) None))
           (VDict
              [("status", VStr "completed");
               ("result_url",
                VStr "https://rmbg-results.s3.us-east-1.amazonaws.com/results/cat_nobg_106_01234567.png");
               ("original_filename", VStr "cat.jpg");
               ("output_filename", VStr "cat_nobg_106_01234567.png");
               ("processing_time", VFloat (inject_Z 8));
               ("model_time", VFloat (inject_Z 2));
               ("queue_time", VFloat (inject_Z 2))])).
  - reflexivity.
  - reflexivity.
  - vm_compute. reflexivity.
Defined.

(** X23. A task returns a result only if its input file was on disk when
    it started. The result names the result file in [output_filename];
    when [cv2.imwrite] wrote that file, or S3 is configured (the upload
    checks that the file exists), the file is on disk after the run,
    unless its path is the input path itself, which the cleanup removes. *)
Theorem completed_job_files S E msg w v :
  body_result S E msg w = Ok v ->
  env_imwrite E (result_file S E msg w) = true \/ s3_configured S = true ->
  result_file S E msg w <> msg_image_path msg ->
  msg_image_path msg ∈ fs w /\
  (exists d, v = VDict d /\ str_field d "output_filename" = Some (result_name E msg w)) /\
  result_file S E msg w ∈ fs (world (trace_task S E msg w)).
Proof.
  intros Hr Hwr Hne.
  apply completed_record in Hr as (-> & _ & Hin & Hfs & Hup). cbv zeta in *.
  split; [exact Hin|]. split; [eexists; split; reflexivity|].
  rewrite Hfs. apply cleanup_keeps_others; [exact Hne|]. cbn [fs].
  destruct Hwr as [Hwr | Hs3]; [|exact (Hup Hs3)].
  unfold written. rewrite Hwr. apply elem_of_union_r, elem_of_singleton. reflexivity.
Qed.

Lemma completed_job_files_witness :
  let E := sample_env 100 200 true in
  let msg := sample_message None in
  let w := world (submitted E None) in
  msg_image_path msg ∈ fs w /\
  (exists d,
     VDict [("status", VStr "completed");
            ("result_url", VStr "file:///tmp/rmbg-results/cat_nobg_106_01234567.png");
            ("original_filename", VStr "cat.jpg");
            ("output_filename", VStr "cat_nobg_106_01234567.png");
            ("processing_time", VFloat (inject_Z 8));
            ("model_time", VFloat (inject_Z 2));
            ("queue_time", VFloat (inject_Z 2))] = VDict d /\
     str_field d "output_filename" = Some (result_name E msg w)) /\
  result_file local_settings E msg w ∈ fs (world (trace_task local_settings E msg w)).
Proof.
  cbv zeta.
  apply (completed_job_files local_settings (sample_env 100 200 true) (sample_message None)
           (world (submitted (sample_env 100 200 true) None))).
  - vm_compute. reflexivity.
  - left. reflexivity.
  - vm_compute. discriminate.
Defined.

(** X26. [remove_background] of the model returns [True] whether or not
    [cv2.imwrite] wrote the result. When it did not, and no file was at
    that path before, the task still completes (which needs S3 to be
    unconfigured, as the upload would have raised): the job is recorded as
    a success whose result URL is [file://] followed by the path of a file
    that does not exist. *)
Theorem completed_job_without_output S E msg w v :
  body_result S E msg w = Ok v ->
  env_imwrite E (result_file S E msg w) = false ->
  result_file S E msg w ∉ fs w ->
  s3_configured S = false /\
  (exists d,
     job_record S E msg w = Some (mkMeta "SUCCESS" (VDict d)) /\
     str_field d "result_url" = Some ("file://" ++ result_file S E msg w)) /\
  result_file S E msg w ∉ fs (world (trace_task S E msg w)).
Proof.
  intros Hr Hwr Hnew.
  apply completed_record in Hr as (-> & Hrec & _ & Hfs & Hup). cbv zeta in *.
  unfold written in *. rewrite Hwr in *.
  assert (s3_configured S = false) as Hs3.
  { destruct (s3_configured S); [|reflexivity].
    specialize (Hup eq_refl). apply elem_of_union in Hup as [Hup | Hup];
      [contradiction | apply elem_of_empty in Hup; contradiction]. }
  split; [exact Hs3|]. rewrite Hs3 in Hrec.
  split; [eexists; split; [exact Hrec | reflexivity]|].
  rewrite Hfs. intros Hq. apply cleanup_subset in Hq. cbn [fs] in Hq.
  apply elem_of_union in Hq as [Hq | Hq];
    [contradiction | apply elem_of_empty in Hq; contradiction].
Qed.

Lemma completed_job_without_output_witness :
  let E := mkEnv (env_time (sample_env 100 200 true)) (env_uuid4 (sample_env 100 200 true))
             (fun _ => HttpResponse 200) None (fun _ => None) (fun s => s) None
             (fun _ => true) false 0 None (fun _ => None) (fun _ => false) in
  let msg := mkMessage "0123456789abcdef1" "/tmp/rmbg-uploads/upload_100_01234567.jpg"
               (Some "holiday/cat.jpg") None (Some (inject_Z 102)) in
  let w := world (create_task local_settings E (mkUploadFile "holiday/cat.jpg" "image/jpeg")
                    None empty_world) in
  waiting "gpu" w = [msg] /\
  s3_configured local_settings = false /\
  (exists d,
     job_record local_settings E msg w = Some (mkMeta "SUCCESS" (VDict d)) /\
     str_field d "result_url" = Some ("file://" ++ result_file local_settings E msg w)) /\
  result_file local_settings E msg w ∉ fs (world (trace_task local_settings E msg w)).
Proof.
  cbv zeta. split; [vm_compute; reflexivity|].
  apply (completed_job_without_output local_settings _
           (mkMessage "0123456789abcdef1" "/tmp/rmbg-uploads/upload_100_01234567.jpg"
              (Some "holiday/cat.jpg") None (Some (inject_Z 102)))
           _
           (VDict
              [("status", VStr "completed");
               ("result_url",
                VStr "file:///tmp/rmbg-results/holiday/cat_nobg_106_01234567.png");
               ("original_filename", VStr "holiday/cat.jpg");
               ("output_filename", VStr "holiday/cat_nobg_106_01234567.png");
               ("processing_time", VFloat (inject_Z 8));
               ("model_time", VFloat (inject_Z 2));
               ("queue_time", VFloat (inject_Z 2))])).
  - vm_compute. reflexivity.
  - reflexivity.
  - refine (bool_decide_eq_false_1 _ _). vm_compute. reflexivity.
Defined.



(** ** C1: the status of a job moves pending, processing, then completed or failed *)

Lemma observed_status_unknown task_id w :
  backend w !! task_id = None -> observed_status task_id w = PENDING.
Proof. intros H. unfold observed_status, AsyncResult. rewrite H. reflexivity. Qed.

Lemma get_task_status_world task_id w : world (get_task_status task_id w) = w.
Proof.
  assert (maintains (fun w' => w' = w) (get_task_status task_id)) as H.
  { unfold get_task_status.
    apply maintains_try_except; [|intros e; apply maintains_raise].
    apply maintains_bind; [apply maintains_get_world | intros w'].
    destruct (negb _); [apply maintains_raise | apply maintains_ret]. }
  apply H. reflexivity.
Qed.

Lemma get_task_status_route_world task_id w : world (get_task_status_route task_id w) = w.
Proof.
  unfold get_task_status_route, bind. rewrite get_task_status_world.
  destruct (res (get_task_status task_id w)) as [response|e]; [|reflexivity].
  destruct (response_model response); reflexivity.
Qed.

Lemma create_task_backend S E file request_data w :
  backend (world (create_task S E file request_data w)) = backend w.
Proof.
  destruct (validate_image_file file) eqn:Hv.
  - destruct (request_of request_data) as [request|] eqn:Hr.
    + rewrite (create_task_run S E file request_data request w Hv Hr). cbv zeta.
      destruct (env_broker_error E); reflexivity.
    + unfold create_task. rewrite Hv. cbn [negb].
      destruct request_data as [[| |r]|]; cbn in Hr; try discriminate; reflexivity.
  - unfold create_task. rewrite Hv. reflexivity.
Qed.

(** A run of the worker on a message leaves the record of every other job
    as it is. *)
Lemma trace_task_other_record S E msg w task_id :
  msg_id msg <> task_id ->
  backend (world (trace_task S E msg w)) !! task_id = backend w !! task_id.
Proof.
  intros Hne.
  assert (maintains (fun w' => backend w' !! task_id = backend w !! task_id)
            (trace_task S E msg)) as H.
  { assert (forall state result w',
              backend w' !! task_id = backend w !! task_id ->
              backend (set_backend (fun b => <[msg_id msg := mkMeta state result]> b) w')
                !! task_id = backend w !! task_id) as Hs.
    { intros state result w' Hw. cbn. rewrite lookup_insert_ne by exact Hne. exact Hw. }
    unfold trace_task. apply maintains_build_tracer; [exact Hs|].
    apply maintains_run_task.
    - intros w1 w2 _ Hbk _ Hw. rewrite Hbk. exact Hw.
    - exact Hs.
    - intros path w' Hw. exact Hw.
    - intros w' Hw. exact Hw. }
  apply H. reflexivity.
Qed.

Lemma step_record S E a task_id w :
  ~ delivers task_id a -> backend (step S E w a) !! task_id = backend w !! task_id.
Proof.
  destruct a as [file request_data | t | msg]; cbn [step delivers]; intros Hd.
  - rewrite create_task_backend. reflexivity.
  - rewrite get_task_status_route_world. reflexivity.
  - apply trace_task_other_record. exact Hd.
Qed.

(** No submission, no status query and no run of the worker on another
    descriptor changes the record of a job. *)
Lemma run_actions_record S E acts task_id w :
  Forall (fun a => ~ delivers task_id a) acts ->
  backend (run_actions S E acts w) !! task_id = backend w !! task_id.
Proof.
  unfold run_actions. revert w.
  induction acts as [|a acts IH]; intros w Hall; [reflexivity|].
  apply Forall_cons in Hall as [Ha Hall]. cbn [fold_left].
  rewrite (IH _ Hall). apply step_record, Ha.
Qed.



